(** * Verification of the result normaliser and prompt builder of ai-code-auditor

    The development embeds [src/src/code_analyzer.py] and the part of
    [src/src/config.py] it calls.  Python values that come back from
    [json.loads] are modelled by [json]; Python floats are IEEE binary64
    numbers, modelled by [spec_float] at precision 53; a [dict] is the list
    of its items in insertion order; an exception is a value of [exn]
    carried by the error monad [result].  Strings are ASCII text and paths
    are POSIX paths.  The remote model, [json.loads] and the builtin [str]
    belong to the environment: the first is a field of the analyzer, the
    other two are variables of the section that uses them. *)

From Stdlib Require Import ZArith List String Ascii Bool Lia.
From Stdlib Require Import Floats.SpecFloat.
Import ListNotations.

Local Open Scope Z_scope.
Local Open Scope string_scope.

Set Warnings "-register-all".

(** ** Exceptions

    The classes the analysed code can meet, and the error monad used for
    every function that may raise. *)

Inductive exn_class :=
| AttributeError
| TypeError
| ValueError
| OverflowError
| JSONDecodeError
| OtherException.

Record exn := mk_exn { exn_cls : exn_class; exn_msg : string }.

Inductive result (A : Type) :=
| Ok (a : A)
| Raise (e : exn).

Arguments Ok {A} a.
Arguments Raise {A} e.

Definition bind {A B : Type} (r : result A) (k : A -> result B) : result B :=
  match r with
  | Ok a => k a
  | Raise e => Raise e
  end.

Notation "x <- r ;; k" := (bind r (fun x => k))
  (at level 61, r at next level, right associativity).

(** ** Binary64 arithmetic, as Python's [float] has it *)

Module Float64.

Definition prec : Z := 53.
Definition emax : Z := 1024.

Definition mul : spec_float -> spec_float -> spec_float := SFmul prec emax.
Definition add : spec_float -> spec_float -> spec_float := SFadd prec emax.
Definition div : spec_float -> spec_float -> spec_float := SFdiv prec emax.
Definition leb : spec_float -> spec_float -> bool := SFleb.

(** [float(n)] for a Python int: the nearest double, ties to even. *)
Definition of_Z (n : Z) : spec_float := binary_normalize prec emax n 0 false.

(** The double nearest to the fraction [p/q]; a decimal literal such as
    [0.35] denotes [of_ratio 35 100]. *)
Definition of_ratio (p q : Z) : spec_float := div (of_Z p) (of_Z q).

(** The integer nearest to [m * 2^e], ties to the even one. *)
Definition nearest_even (m : positive) (e : Z) : Z :=
  match e with
  | Zneg k =>
      let d := Z.pow_pos 2 k in
      let q := Z.pos m / d in
      let r := Z.pos m mod d in
      match 2 * r ?= d with
      | Lt => q
      | Gt => q + 1
      | Eq => if Z.even q then q else q + 1
      end
  | _ => Z.pos m * 2 ^ e
  end.

Definition signed (s : bool) (n : Z) : Z := if s then - n else n.

(** [round(x)] with one argument: an int, or an exception on NaN and on
    the infinities. *)
Definition round_int (x : spec_float) : result Z :=
  match x with
  | S754_zero _ => Ok 0
  | S754_finite s m e => Ok (signed s (nearest_even m e))
  | S754_nan =>
      Raise (mk_exn ValueError "cannot convert float NaN to integer")
  | S754_infinity _ =>
      Raise (mk_exn OverflowError "cannot convert float infinity to integer")
  end.

(** [round(x, 1)]: the decimal with one digit after the point nearest to
    the exact value of [x] (ties to even), read back as a double.  NaN,
    infinities and zeros round to themselves. *)
Definition round1 (x : spec_float) : spec_float :=
  match x with
  | S754_finite s m e =>
      match nearest_even (10 * m) e with
      | Z.pos n => div (S754_finite s n 0) (of_Z 10)
      | _ => S754_zero s
      end
  | _ => x
  end.

(** The exact value of [x] when it is an integer. *)
Definition exact_int (x : spec_float) : option Z :=
  match x with
  | S754_zero _ => Some 0
  | S754_finite s m (Zneg k) =>
      if Z.eqb (Z.pos m mod Z.pow_pos 2 k) 0
      then Some (signed s (Z.pos m / Z.pow_pos 2 k))
      else None
  | S754_finite s m e => Some (signed s (Z.pos m * 2 ^ e))
  | _ => None
  end.

Definition is_finite (x : spec_float) : bool :=
  match x with
  | S754_zero _ | S754_finite _ _ _ => true
  | _ => false
  end.

End Float64.

(** ** Python values

    What [json.loads] can return.  A [JDict] holds the items of the dict in
    insertion order; the keys of a dict are pairwise distinct. *)

Inductive json :=
| JNull
| JBool (b : bool)
| JInt (n : Z)
| JFloat (x : spec_float)
| JStr (s : string)
| JList (l : list json)
| JDict (items : list (string * json)).

(** [type(v).__name__], as it appears in exception messages. *)
Definition type_name (v : json) : string :=
  match v with
  | JNull => "NoneType"
  | JBool _ => "bool"
  | JInt _ => "int"
  | JFloat _ => "float"
  | JStr _ => "str"
  | JList _ => "list"
  | JDict _ => "dict"
  end.

(** [bool(v)] *)
Definition truthy (v : json) : bool :=
  match v with
  | JNull => false
  | JBool b => b
  | JInt n => negb (Z.eqb n 0)
  | JFloat (S754_zero _) => false
  | JFloat _ => true
  | JStr EmptyString => false
  | JStr _ => true
  | JList [] => false
  | JList _ => true
  | JDict [] => false
  | JDict _ => true
  end.

(** [v == n] for an int literal [n] *)
Definition eq_int (v : json) (n : Z) : bool :=
  match v with
  | JBool b => Z.eqb (Z.b2z b) n
  | JInt m => Z.eqb m n
  | JFloat x =>
      match Float64.exact_int x with
      | Some m => Z.eqb m n
      | None => false
      end
  | _ => false
  end.

(** [v in choices] for a list of str literals *)
Definition in_strings (v : json) (choices : list string) : bool :=
  match v with
  | JStr s => existsb (String.eqb s) choices
  | _ => false
  end.

(** [isinstance(v, (int, float))]; [bool] is a subclass of [int]. *)
Definition is_number (v : json) : bool :=
  match v with
  | JBool _ | JInt _ | JFloat _ => true
  | _ => false
  end.

(** ** Dicts in insertion order *)

Section Dict.
Context {V : Type}.

Definition dict := list (string * V).

Fixpoint dict_get (k : string) (d : dict) : option V :=
  match d with
  | [] => None
  | (k', v) :: d' => if String.eqb k k' then Some v else dict_get k d'
  end.

(** [d.get(k, default)] *)
Definition dict_get_default (k : string) (default : V) (d : dict) : V :=
  match dict_get k d with
  | Some v => v
  | None => default
  end.

(** [d[k] = v]: an existing key keeps its place, a new one goes last. *)
Fixpoint dict_set (k : string) (v : V) (d : dict) : dict :=
  match d with
  | [] => [(k, v)]
  | (k', v') :: d' =>
      if String.eqb k k' then (k', v) :: d' else (k', v') :: dict_set k v d'
  end.

Definition dict_keys (d : dict) : list string := map fst d.

End Dict.

Arguments dict V : clear implicits.

(** ** Strings *)

Definition nl : string := String "010"%char EmptyString.
Definition dq : string := String "034"%char EmptyString.

(** [sep.join(parts)] *)
Fixpoint join (sep : string) (parts : list string) : string :=
  match parts with
  | [] => EmptyString
  | [p] => p
  | p :: rest => p ++ sep ++ join sep rest
  end.

(** The lines of a triple-quoted literal. *)
Definition lines (ls : list string) : string := join nl ls.

Definition lower_ascii (c : ascii) : ascii :=
  let n := nat_of_ascii c in
  if andb (Nat.leb 65 n) (Nat.leb n 90) then ascii_of_nat (n + 32) else c.

(** [s.lower()] on ASCII text *)
Fixpoint lower (s : string) : string :=
  match s with
  | EmptyString => EmptyString
  | String c s' => String (lower_ascii c) (lower s')
  end.

Fixpoint rfind_from (c : ascii) (s : string) (i last : Z) : Z :=
  match s with
  | EmptyString => last
  | String a s' =>
      rfind_from c s' (i + 1) (if Ascii.eqb a c then i else last)
  end.

(** [s.rfind(c)]: the last index of [c], or -1 *)
Definition rfind (c : ascii) (s : string) : Z := rfind_from c s 0 (-1).

(** The loop of [genericpath._splitext] that skips leading dots: is there a
    character other than a dot among the [n] characters from index [i]? *)
Fixpoint has_stem (p : string) (i : Z) (n : nat) : bool :=
  match n with
  | O => false
  | S n' =>
      match String.get (Z.to_nat i) p with
      | Some "."%char => has_stem p (i + 1) n'
      | _ => true
      end
  end.

(** [os.path.splitext(p)] of [posixpath] *)
Definition splitext (p : string) : string * string :=
  let sepIndex := rfind "/"%char p in
  let dotIndex := rfind "."%char p in
  if andb (Z.ltb sepIndex dotIndex)
          (has_stem p (sepIndex + 1) (Z.to_nat (dotIndex - (sepIndex + 1))))
  then (String.substring 0 (Z.to_nat dotIndex) p,
        String.substring (Z.to_nat dotIndex)
                         (String.length p - Z.to_nat dotIndex) p)
  else (p, EmptyString).

(** ** [config.py] *)

Record ScoreWeights := mk_weights {
  w_quality : spec_float;
  w_security : spec_float;
  w_performance : spec_float
}.

Record Config := mk_config {
  api_key : string;
  model : string;
  max_tokens : Z;
  temperature : spec_float;
  max_file_size_mb : Z;
  supported_languages : list string;
  score_weights : ScoreWeights
}.

(** The class defaults: weights 0.4, 0.35 and 0.25. *)
Definition default_weights : ScoreWeights :=
  mk_weights (Float64.of_ratio 4 10)
             (Float64.of_ratio 35 100)
             (Float64.of_ratio 25 100).

Definition default_config (key : string) : Config :=
  mk_config key "gpt-4o" 4000 (Float64.of_ratio 1 10) 5
    ["python"; "javascript"; "typescript"; "java"; "cpp"; "c";
     "go"; "rust"; "php"; "ruby"; "swift"; "kotlin"; "scala"]
    default_weights.

Definition extension_map : dict string :=
  [(".py", "python"); (".js", "javascript"); (".ts", "typescript");
   (".tsx", "typescript"); (".jsx", "javascript"); (".java", "java");
   (".cpp", "cpp"); (".c", "c"); (".h", "c"); (".hpp", "cpp");
   (".go", "go"); (".rs", "rust"); (".php", "php"); (".rb", "ruby");
   (".swift", "swift"); (".kt", "kotlin"); (".scala", "scala")].

Definition get_file_extension_language (self : Config) (filename : string)
  : option string :=
  let ext := lower (snd (splitext filename)) in
  dict_get ext extension_map.

(** ** [code_analyzer.py] *)

(** The dict built for one validated issue. *)
Record Issue := mk_issue {
  issue_type : json;
  issue_severity : json;
  issue_description : string;
  issue_line : json;
  issue_code : json
}.

(** The dict returned by [_process_analysis_result] and by
    [_create_error_result]. *)
Record AnalysisResult := mk_result {
  overall_score : json;
  scores : dict Z;
  issues : list Issue;
  recommendations : json;
  summary : json
}.

(** The remote model: [client.chat.completions.create(...)] followed by
    [.choices[0].message.content], given the model name, the system and the
    user message, [max_tokens] and [temperature].  The content may be
    [None]; any step may raise. *)
Definition Client : Type :=
  string -> string -> string -> Z -> spec_float -> result (option string).

Record CodeAnalyzer := mk_analyzer {
  config : Config;
  client : Client
}.

Definition _get_system_prompt (self : CodeAnalyzer) : string :=
  lines [
    "You are an expert code reviewer and security analyst. Your job is to analyze code for:";
    EmptyString;
    "1. CODE QUALITY: Readability, maintainability, best practices, design patterns";
    "2. SECURITY: Vulnerabilities, unsafe practices, potential exploits";
    "3. PERFORMANCE: Efficiency, optimization opportunities, resource usage";
    EmptyString;
    "You must respond with a valid JSON object containing:";
    "{";
    "    " ++ dq ++ "overall_score" ++ dq ++ ": <number 1-10>,";
    "    " ++ dq ++ "scores" ++ dq ++ ": {";
    "        " ++ dq ++ "Quality" ++ dq ++ ": <number 1-10>,";
    "        " ++ dq ++ "Security" ++ dq ++ ": <number 1-10>,";
    "        " ++ dq ++ "Performance" ++ dq ++ ": <number 1-10>";
    "    },";
    "    " ++ dq ++ "issues" ++ dq ++ ": [";
    "        {";
    "            " ++ dq ++ "type" ++ dq ++ ": " ++ dq ++ "Quality|Security|Performance" ++ dq ++ ",";
    "            " ++ dq ++ "severity" ++ dq ++ ": " ++ dq ++ "Low|Medium|High|Critical" ++ dq ++ ",";
    "            " ++ dq ++ "description" ++ dq ++ ": " ++ dq ++ "Clear description of the issue" ++ dq ++ ",";
    "            " ++ dq ++ "line" ++ dq ++ ": <line number or null>,";
    "            " ++ dq ++ "code" ++ dq ++ ": " ++ dq ++ "problematic code snippet or null" ++ dq;
    "        }";
    "    ],";
    "    " ++ dq ++ "recommendations" ++ dq ++ ": [";
    "        " ++ dq ++ "Specific actionable recommendation" ++ dq;
    "    ],";
    "    " ++ dq ++ "summary" ++ dq ++ ": " ++ dq ++ "Brief summary of the analysis" ++ dq;
    "}";
    EmptyString;
    "Be thorough but constructive. Focus on actionable feedback."
  ].

(** The list [analysis_aspects] after the three conditional appends. *)
Definition analysis_aspects
  (include_security include_performance include_style : bool) : list string :=
  let aspects : list string := [] in
  let aspects :=
    if include_style
    then (aspects ++ ["code quality and style"])%list else aspects in
  let aspects :=
    if include_security
    then (aspects ++ ["security vulnerabilities"])%list else aspects in
  let aspects :=
    if include_performance
    then (aspects ++ ["performance optimization"])%list else aspects in
  aspects.

(** The text of the prompt after the closing fence. *)
Definition prompt_footer : string :=
  lines [
    EmptyString;
    "Focus on:";
    "- Code quality: readability, maintainability, best practices, naming conventions";
    "- Security: potential vulnerabilities, unsafe operations, input validation";
    "- Performance: efficiency, algorithm complexity, resource usage";
    "- Specific issues with line numbers when possible";
    "- Actionable recommendations for improvement";
    EmptyString;
    "Provide scores from 1-10 (10 being excellent) and specific, actionable feedback."
  ].

Definition fence : string := "```".

Definition _build_analysis_prompt (self : CodeAnalyzer)
  (code language filename : string)
  (include_security include_performance include_style : bool) : string :=
  let aspects_text :=
    join ", " (analysis_aspects include_security include_performance include_style) in
  "Please analyze this " ++ language ++ " code file (" ++ filename ++ ") for "
    ++ aspects_text ++ "." ++ nl
    ++ nl
    ++ "Code to analyze:" ++ nl
    ++ fence ++ language ++ nl
    ++ code ++ nl
    ++ fence ++ nl
    ++ prompt_footer.

(** [round(value)] *)
Definition py_round (value : json) : result Z :=
  match value with
  | JBool b => Ok (Z.b2z b)
  | JInt n => Ok n
  | JFloat x => Float64.round_int x
  | _ =>
      Raise (mk_exn TypeError
               ("type " ++ type_name value ++ " doesn't define __round__ method"))
  end.

(** [max(1, min(10, n))] *)
Definition clamp (n : Z) : Z := Z.max 1 (Z.min 10 n).

Definition default_scores : dict Z :=
  [("Quality", 5); ("Security", 5); ("Performance", 5)].

(** The loop of [_normalize_scores] over [scores.items()]. *)
Fixpoint normalize_loop (items : dict json) (normalized : dict Z)
  : result (dict Z) :=
  match items with
  | [] => Ok normalized
  | (key, value) :: rest =>
      if is_number value then
        n <- py_round value ;;
        normalize_loop rest (dict_set key (clamp n) normalized)
      else normalize_loop rest normalized
  end.

Definition _normalize_scores (self : CodeAnalyzer) (scores : json)
  : result (dict Z) :=
  match scores with
  | JDict items => normalize_loop items default_scores
  | _ =>
      Raise (mk_exn AttributeError
               ("'" ++ type_name scores ++ "' object has no attribute 'items'"))
  end.

Definition known_severities : list string := ["Low"; "Medium"; "High"; "Critical"].
Definition known_types : list string := ["Quality"; "Security"; "Performance"].

(** What [for issue in issues] iterates over: the elements of a list, the
    characters of a str, the keys of a dict; other values are not iterable. *)
Definition iterate (v : json) : result (list json) :=
  match v with
  | JList l => Ok l
  | JStr s => Ok (map (fun c => JStr (String c EmptyString)) (list_ascii_of_string s))
  | JDict d => Ok (map (fun kv => JStr (fst kv)) d)
  | _ =>
      Raise (mk_exn TypeError ("'" ++ type_name v ++ "' object is not iterable"))
  end.

Definition _create_error_result (self : CodeAnalyzer) (error_message : string)
  : AnalysisResult :=
  mk_result
    (JInt 0)
    [("Quality", 0); ("Security", 0); ("Performance", 0)]
    [mk_issue (JStr "Quality") (JStr "High")
              ("Analysis failed: " ++ error_message) JNull JNull]
    (JList [JStr "Please check your code syntax and try again";
            JStr "Ensure your OpenAI API key is valid and has sufficient credits"])
    (JStr ("Analysis failed due to: " ++ error_message)).

Section Analyzer.

(** Python's builtin [str] on a parsed value, and [json.loads]. *)
Variable py_str : json -> string.
Variable json_loads : string -> result json.

Definition validate_issue (issue : dict json) : Issue :=
  let type := dict_get_default "type" (JStr "Quality") issue in
  let severity := dict_get_default "severity" (JStr "Medium") issue in
  let description :=
    py_str (dict_get_default "description" (JStr "No description provided") issue) in
  let line := dict_get_default "line" JNull issue in
  let code := dict_get_default "code" JNull issue in
  let severity :=
    if negb (in_strings severity known_severities) then JStr "Medium" else severity in
  let type :=
    if negb (in_strings type known_types) then JStr "Quality" else type in
  mk_issue type severity description line code.

(** The loop of [_validate_issues]; [valid_issues] is the list built so far. *)
Fixpoint validate_loop (entries : list json) (valid_issues : list Issue)
  : list Issue :=
  match entries with
  | [] => valid_issues
  | JDict issue :: rest =>
      validate_loop rest (valid_issues ++ [validate_issue issue])%list
  | _ :: rest => validate_loop rest valid_issues
  end.

Definition _validate_issues (self : CodeAnalyzer) (issues : json)
  : result (list Issue) :=
  entries <- iterate issues ;;
  Ok (validate_loop entries []).

(** The weighted sum of the three scores, rounded to one decimal. *)
Definition weighted_score (weights : ScoreWeights) (scores : dict Z)
  : spec_float :=
  Float64.round1
    (Float64.add
       (Float64.add
          (Float64.mul (Float64.of_Z (dict_get_default "Quality" 5 scores))
                       (w_quality weights))
          (Float64.mul (Float64.of_Z (dict_get_default "Security" 5 scores))
                       (w_security weights)))
       (Float64.mul (Float64.of_Z (dict_get_default "Performance" 5 scores))
                    (w_performance weights))).

(** The test that decides whether the overall score is recomputed. *)
Definition needs_overall (overall : json) : bool :=
  negb (truthy overall) || eq_int overall 5.

Definition _process_analysis_result (self : CodeAnalyzer) (raw_result : json)
  : result AnalysisResult :=
  match raw_result with
  | JDict raw =>
      let p_overall := dict_get_default "overall_score" (JInt 5) raw in
      let p_scores := dict_get_default "scores" (JDict []) raw in
      let p_issues := dict_get_default "issues" (JList []) raw in
      let p_recommendations := dict_get_default "recommendations" (JList []) raw in
      let p_summary := dict_get_default "summary" (JStr "Analysis completed") raw in
      p_scores <- _normalize_scores self p_scores ;;
      let p_overall :=
        if needs_overall p_overall
        then JFloat (weighted_score (score_weights (config self)) p_scores)
        else p_overall in
      p_issues <- _validate_issues self p_issues ;;
      let p_recommendations :=
        match p_recommendations with
        | JStr s => JList [JStr s]
        | _ => p_recommendations
        end in
      Ok (mk_result p_overall p_scores p_issues p_recommendations p_summary)
  | _ =>
      Raise (mk_exn AttributeError
               ("'" ++ type_name raw_result ++ "' object has no attribute 'get'"))
  end.

(** The body of the [try] block of [analyze_code]. *)
Definition analyze_try (self : CodeAnalyzer) (prompt : string)
  : result AnalysisResult :=
  result_text <-
    client self (model (config self)) (_get_system_prompt self) prompt
           (max_tokens (config self)) (temperature (config self)) ;;
  analysis_result <-
    match result_text with
    | Some text => json_loads text
    | None =>
        Raise (mk_exn TypeError
                 "the JSON object must be str, bytes or bytearray, not NoneType")
    end ;;
  _process_analysis_result self analysis_result.

(** The two [except] clauses. *)
Definition analyze_except (self : CodeAnalyzer) (e : exn) : AnalysisResult :=
  match exn_cls e with
  | JSONDecodeError =>
      _create_error_result self ("Failed to parse AI response: " ++ exn_msg e)
  | _ => _create_error_result self ("Analysis failed: " ++ exn_msg e)
  end.

(** [get_file_extension_language(filename) or "python"] *)
Definition detect_language (self : CodeAnalyzer) (filename : string) : string :=
  match get_file_extension_language (config self) filename with
  | Some (String _ _ as language) => language
  | _ => "python"
  end.

Definition analyze_code (self : CodeAnalyzer) (code filename : string)
  (include_security include_performance include_style : bool)
  : AnalysisResult :=
  let language := detect_language self filename in
  let prompt :=
    _build_analysis_prompt self code language filename
      include_security include_performance include_style in
  match analyze_try self prompt with
  | Ok processed_result => processed_result
  | Raise e => analyze_except self e
  end.

End Analyzer.

(** ** Vocabulary of the specification *)

(** A score value on which [round] does not raise. *)
Definition value_finite (v : json) : bool :=
  match v with
  | JFloat x => Float64.is_finite x
  | _ => true
  end.

(** A raw [scores] value that [_normalize_scores] accepts: a mapping none of
    whose values is NaN or an infinity. *)
Definition scores_ok (v : json) : bool :=
  match v with
  | JDict items => forallb (fun kv => value_finite (snd kv)) items
  | _ => false
  end.

Definition iterable (v : json) : bool :=
  match v with
  | JList _ | JStr _ | JDict _ => true
  | _ => false
  end.

(** A parsed reply on which [_process_analysis_result] returns. *)
Definition processable (raw : dict json) : bool :=
  scores_ok (dict_get_default "scores" (JDict []) raw)
  && iterable (dict_get_default "issues" (JList []) raw).

Definition in_range (n : Z) : Prop := 1 <= n <= 10.

(** The mapping entries of a sequence, in their original order. *)
Fixpoint mapping_entries (l : list json) : list (dict json) :=
  match l with
  | [] => []
  | JDict d :: rest => d :: mapping_entries rest
  | _ :: rest => mapping_entries rest
  end.

(** The names of the enabled aspects, in the fixed order
    style, security, performance. *)
Definition enabled_aspects
  (include_security include_performance include_style : bool) : list string :=
  map snd
    (filter fst
       [(include_style, "code quality and style");
        (include_security, "security vulnerabilities");
        (include_performance, "performance optimization")]).

Fixpoint same_strings (l1 l2 : list string) : bool :=
  match l1, l2 with
  | [], [] => true
  | a :: l1', b :: l2' => String.eqb a b && same_strings l1' l2'
  | _, _ => false
  end.

Definition issue_well_typed (i : Issue) : bool :=
  in_strings (issue_type i) known_types
  && in_strings (issue_severity i) known_severities.

Definition is_json_number (v : json) : bool :=
  match v with
  | JInt _ | JFloat _ => true
  | _ => false
  end.

Definition is_json_list (v : json) : bool :=
  match v with
  | JList _ => true
  | _ => false
  end.

Definition is_json_string (v : json) : bool :=
  match v with
  | JStr _ => true
  | _ => false
  end.

(** The shape of a NormalizedResult: a numeric overall score, a score
    mapping with exactly the three keys, issues with a known type and
    severity, a sequence of recommendations and a string summary. *)
Definition structurally_valid (r : AnalysisResult) : bool :=
  is_json_number (overall_score r)
  && same_strings (dict_keys (scores r)) known_types
  && forallb issue_well_typed (issues r)
  && is_json_list (recommendations r)
  && is_json_string (summary r).

Definition is_mapping (v : json) : bool :=
  match v with
  | JDict _ => true
  | _ => false
  end.

(** A parsed reply whose fields outside [scores] and [issues] have the types
    the result record expects: a numeric (or recomputed) overall score, a
    string or a list as recommendations, a string summary, and numbers in
    [scores] only under the three known keys. *)
Definition well_typed_fields (raw : dict json) : bool :=
  let overall := dict_get_default "overall_score" (JInt 5) raw in
  let recommendations := dict_get_default "recommendations" (JList []) raw in
  (negb (truthy overall) || eq_int overall 5 || is_json_number overall)
  && match dict_get_default "scores" (JDict []) raw with
     | JDict items =>
         forallb (fun kv => negb (is_number (snd kv))
                            || existsb (String.eqb (fst kv)) known_types)
                 items
     | _ => false
     end
  && (is_json_string recommendations || is_json_list recommendations)
  && is_json_string (dict_get_default "summary" (JStr "Analysis completed") raw).

(** The overall score recomputed from three given scores. *)
Definition overall_of (weights : ScoreWeights) (q s p : Z) : spec_float :=
  Float64.round1
    (Float64.add
       (Float64.add (Float64.mul (Float64.of_Z q) (w_quality weights))
                    (Float64.mul (Float64.of_Z s) (w_security weights)))
       (Float64.mul (Float64.of_Z p) (w_performance weights))).

(** [1.0 <= x <= 10.0] *)
Definition overall_in_bounds (x : spec_float) : bool :=
  Float64.leb (Float64.of_Z 1) x && Float64.leb x (Float64.of_Z 10).

Definition one_to_ten : list Z := [1; 2; 3; 4; 5; 6; 7; 8; 9; 10].

(** ** Sample environment and inputs for the examples *)

Module Samples.

(** [str] on the values whose text the examples need: str, None, bool. *)
Definition str (v : json) : string :=
  match v with
  | JStr s => s
  | JNull => "None"
  | JBool true => "True"
  | JBool false => "False"
  | _ => "<" ++ type_name v ++ ">"
  end.

Definition not_json : string := "{not json".

Definition bad_overall : string :=
  "{" ++ dq ++ "overall_score" ++ dq ++ ": " ++ dq ++ "high" ++ dq ++ "}".

(** A reply whose [scores] is null. *)
Definition null_scores : string :=
  "{" ++ dq ++ "overall_score" ++ dq ++ ": 7.2, "
      ++ dq ++ "scores" ++ dq ++ ": null, "
      ++ dq ++ "recommendations" ++ dq ++ ": " ++ dq ++ "fix it" ++ dq ++ "}".

Definition reply_null_scores : dict json :=
  [("overall_score", JFloat (Float64.of_ratio 72 10));
   ("scores", JNull);
   ("recommendations", JStr "fix it")].

(** [json.loads] on the replies used below. *)
Definition loads (text : string) : result json :=
  if String.eqb text bad_overall
  then Ok (JDict [("overall_score", JStr "high")])
  else if String.eqb text null_scores
  then Ok (JDict reply_null_scores)
  else if String.eqb text not_json
  then Raise (mk_exn JSONDecodeError
                "Expecting property name enclosed in double quotes: line 1 column 2 (char 1)")
  else Raise (mk_exn JSONDecodeError "Expecting value: line 1 column 1 (char 0)").

(** An analyzer whose remote model always answers [reply]. *)
Definition analyzer (reply : string) : CodeAnalyzer :=
  mk_analyzer (default_config "sk-test") (fun _ _ _ _ _ => Ok (Some reply)).

Definition self : CodeAnalyzer := analyzer not_json.

Definition seven_and_a_half : spec_float := Float64.of_ratio 75 10.

Definition reply_5_864 : dict json :=
  [("overall_score", JInt 5);
   ("scores", JDict [("Quality", JInt 8); ("Security", JInt 6);
                     ("Performance", JInt 4)])].

Definition reply_72 : dict json :=
  [("overall_score", JFloat (Float64.of_ratio 72 10));
   ("scores", JDict [("Quality", JInt 3); ("Security", JFloat seven_and_a_half)]);
   ("issues", JList [JStr "oops";
                     JDict [("type", JStr "Unknown"); ("severity", JStr "Blocker");
                            ("description", JStr "d")]]);
   ("recommendations", JStr "fix it")].

(** An empty-string overall score beside scores whose weighted sum is not a
    whole number of tenths in binary64. *)
Definition reply_empty_overall : dict json :=
  [("overall_score", JStr EmptyString);
   ("scores", JDict [("Quality", JInt 3); ("Security", JInt 1);
                     ("Performance", JInt 1)])].

(** No overall score, and scores whose weighted sum is exactly 1.25. *)
Definition reply_no_overall : dict json :=
  [("scores", JDict [("Quality", JInt 1); ("Security", JInt 1);
                     ("Performance", JInt 2)])].

(** No [scores] key, and an [issues] value that cannot be iterated. *)
Definition reply_no_scores : dict json :=
  [("summary", JStr "fine"); ("issues", JInt 5)].

End Samples.

(** * The rest of the program

    [AnalysisHistory] and [Config.from_env], the parts of [app.py] that
    compute, and the example programs under [examples/]. *)

(** ** Python arithmetic used by the history statistics *)

(** The value of an int or a bool, [None] for anything else. *)
Definition as_int (v : json) : option Z :=
  match v with
  | JBool b => Some (Z.b2z b)
  | JInt n => Some n
  | _ => None
  end.

(** [float(n)] where it can raise: an int beyond the range of a double. *)
Definition float_of_int (n : Z) : result spec_float :=
  match Float64.of_Z n with
  | S754_infinity _ => Raise (mk_exn OverflowError "int too large to convert to float")
  | x => Ok x
  end.

Definition unsupported_operand (op : string) (a b : json) : exn :=
  mk_exn TypeError
    ("unsupported operand type(s) for " ++ op ++ ": '" ++ type_name a
       ++ "' and '" ++ type_name b ++ "'").

(** [a + b] *)
Definition py_add (a b : json) : result json :=
  match as_int a, as_int b with
  | Some m, Some n => Ok (JInt (m + n))
  | Some m, None =>
      match b with
      | JFloat y => x <- float_of_int m ;; Ok (JFloat (Float64.add x y))
      | _ => Raise (unsupported_operand "+" a b)
      end
  | None, Some n =>
      match a with
      | JFloat x => y <- float_of_int n ;; Ok (JFloat (Float64.add x y))
      | _ => Raise (unsupported_operand "+" a b)
      end
  | None, None =>
      match a, b with
      | JFloat x, JFloat y => Ok (JFloat (Float64.add x y))
      | JStr s, JStr t => Ok (JStr (s ++ t))
      | JList l, JList r => Ok (JList (l ++ r))
      | _, _ => Raise (unsupported_operand "+" a b)
      end
  end.

Fixpoint sum_from (acc : json) (items : list json) : result json :=
  match items with
  | [] => Ok acc
  | item :: rest => acc <- py_add acc item ;; sum_from acc rest
  end.

(** [sum(items)]: the items added from left to right, starting from 0.
    (CPython from 3.12 on corrects the rounding error when several floats
    are summed; sums of ints, sums with a single float among ints, and the
    exceptions raised are as here in every version.) *)
Definition py_sum (items : list json) : result json := sum_from (JInt 0) items.

(** [m / n] on ints: the double nearest to the exact quotient. *)
Definition int_truediv (m n : Z) : result spec_float :=
  match n with
  | 0 => Raise (mk_exn OtherException "division by zero")
  | _ =>
      match m with
      | 0 => Ok (S754_zero (Z.ltb n 0))
      | _ =>
          match Float64.div (S754_finite (Z.ltb m 0) (Z.to_pos (Z.abs m)) 0)
                            (S754_finite (Z.ltb n 0) (Z.to_pos (Z.abs n)) 0) with
          | S754_infinity _ =>
              Raise (mk_exn OverflowError
                       "integer division result too large for a float")
          | q => Ok q
          end
      end
  end.

(** [a / n] for an int [n] *)
Definition py_truediv (a : json) (n : Z) : result spec_float :=
  match as_int a with
  | Some m => int_truediv m n
  | None =>
      match a with
      | JFloat x =>
          y <- float_of_int n ;;
          match n with
          | 0 => Raise (mk_exn OtherException "float division by zero")
          | _ => Ok (Float64.div x y)
          end
      | _ => Raise (unsupported_operand "/" a (JInt n))
      end
  end.

(** ** [AnalysisHistory] of [code_analyzer.py] *)

(** One dict of [self.history]; [results] is a result dict of the
    analyzer. *)
Record HistoryEntry := mk_entry {
  entry_timestamp : string;
  entry_filename : string;
  entry_results : AnalysisResult
}.

Record AnalysisHistory := mk_history { history : list HistoryEntry }.

(** [AnalysisHistory()] *)
Definition new_history : AnalysisHistory := mk_history [].

(** [add_analysis]; [now] is what [_get_timestamp], that is
    [datetime.now().isoformat()], returns during the call. *)
Definition add_analysis (self : AnalysisHistory) (now : string)
  (filename : string) (results : AnalysisResult) : AnalysisHistory :=
  mk_history (history self ++ [mk_entry now filename results])%list.

Definition get_statistics (self : AnalysisHistory) : result (dict json) :=
  match history self with
  | [] => Ok [("total_analyses", JInt 0)]
  | first :: _ =>
      let total := Z.of_nat (List.length (history self)) in
      s <- py_sum (map (fun r => overall_score (entry_results r)) (history self)) ;;
      avg_score <- py_truediv s total ;;
      Ok [("total_analyses", JInt total);
          ("average_score", JFloat (Float64.round1 avg_score));
          ("latest_analysis", JStr (entry_timestamp (last (history self) first)))]
  end.

(** ** [Config.from_env] *)

Section FromEnv.

(** The builtins [int] and [float] on a str. *)
Variable py_int : string -> result Z.
Variable py_float : string -> result spec_float.

(** [os.getenv(name, default)] on the environment [env], as it is after
    [load_dotenv()] *)
Definition getenv (env : dict string) (name default : string) : string :=
  dict_get_default name default env.

Definition from_env (env : dict string) : result Config :=
  match dict_get "OPENAI_API_KEY" env with
  | Some (String _ _ as key) =>
      let model := getenv env "OPENAI_MODEL" "gpt-4o" in
      max_tokens <- py_int (getenv env "MAX_TOKENS" "4000") ;;
      temperature <- py_float (getenv env "TEMPERATURE" "0.1") ;;
      Ok (mk_config key model max_tokens temperature 5
            ["python"; "javascript"; "typescript"; "java"; "cpp"; "c";
             "go"; "rust"; "php"; "ruby"; "swift"; "kotlin"; "scala"]
            default_weights)
  | _ => Raise (mk_exn ValueError "OPENAI_API_KEY environment variable is required")
  end.

End FromEnv.

(** ** [app.py] *)

(** [x >= n] for a float [x] and an int [n], compared exactly. *)
Definition float_ge_int (x : spec_float) (n : Z) : bool :=
  match x with
  | S754_nan => false
  | S754_infinity s => negb s
  | S754_zero _ => Z.leb n 0
  | S754_finite s m (Zneg k) => Z.leb (n * Z.pow_pos 2 k) (Float64.signed s (Z.pos m))
  | S754_finite s m e => Z.leb n (Float64.signed s (Z.pos m * 2 ^ e))
  end.

(** [score >= n] *)
Definition py_ge_int (score : json) (n : Z) : result bool :=
  match score with
  | JBool b => Ok (Z.leb n (Z.b2z b))
  | JInt m => Ok (Z.leb n m)
  | JFloat x => Ok (float_ge_int x n)
  | _ =>
      Raise (mk_exn TypeError
               ("'>=' not supported between instances of '" ++ type_name score
                  ++ "' and 'int'"))
  end.

Definition get_score_class (score : json) : result string :=
  excellent <- py_ge_int score 8 ;;
  if excellent then Ok "score-excellent"
  else
    good <- py_ge_int score 6 ;;
    if good then Ok "score-good"
    else
      fair <- py_ge_int score 4 ;;
      if fair then Ok "score-fair" else Ok "score-poor".

(** The file types the uploader of [main] accepts. *)
Definition upload_types : list string :=
  ["py"; "js"; "ts"; "java"; "cpp"; "c"; "go"; "rs"; "php"; "rb"].

(** [enumerate(xs)] *)
Fixpoint enumerate_from {A : Type} (i : Z) (xs : list A) : list (Z * A) :=
  match xs with
  | [] => []
  | x :: rest => (i, x) :: enumerate_from (i + 1) rest
  end.

(** [xs[-5:]] *)
Definition last_five {A : Type} (xs : list A) : list A :=
  skipn (List.length xs - 5) xs.

(** What the sidebar of [main] walks through:
    [enumerate(reversed(st.session_state.analysis_history[-5:]))]. *)
Definition sidebar_history {A : Type} (analysis_history : list A) : list (Z * A) :=
  enumerate_from 0 (rev (last_five analysis_history)).

(** A normalised score mapping written back as a parsed [scores] value. *)
Definition scores_to_json (ns : dict Z) : json :=
  JDict (map (fun kv => (fst kv, JInt (snd kv))) ns).

(** A history entry that is never looked at: the default of [last] on a
    list that is not empty. *)
Definition no_entry : HistoryEntry :=
  mk_entry EmptyString EmptyString
    (mk_result JNull [] [] JNull JNull).

(** ** Checks on the thousand triples of scores *)

(** Equality of two doubles as data. *)
Definition float_eqb (x y : spec_float) : bool :=
  match x, y with
  | S754_zero s, S754_zero t => Bool.eqb s t
  | S754_infinity s, S754_infinity t => Bool.eqb s t
  | S754_nan, S754_nan => true
  | S754_finite s m e, S754_finite t n f =>
      Bool.eqb s t && Pos.eqb m n && Z.eqb e f
  | _, _ => false
  end.

(** A test on every triple of scores in 1..10. *)
Definition on_all_triples (test : Z -> Z -> Z -> bool) : bool :=
  forallb (fun q => forallb (fun s => forallb (test q s) one_to_ten) one_to_ten)
          one_to_ten.

(** The recomputed score lies between the least and the greatest score. *)
Definition between_scores (q s p : Z) : bool :=
  let x := overall_of default_weights q s p in
  Float64.leb (Float64.of_Z (Z.min q (Z.min s p))) x
  && Float64.leb x (Float64.of_Z (Z.max q (Z.max s p))).

(** The recomputed score is the double of a decimal [n/10], with [n/10]
    within 0.05 of the exact weighted sum [(8q + 7s + 5p) / 20]. *)
Definition tenth_of (q s p : Z) : Z :=
  let twice := 8 * q + 7 * s + 5 * p in
  if float_eqb (overall_of default_weights q s p)
               (Float64.of_ratio (twice / 2) 10)
  then twice / 2
  else twice / 2 + 1.

Definition accurate (q s p : Z) : bool :=
  float_eqb (overall_of default_weights q s p)
            (Float64.of_ratio (tenth_of q s p) 10)
  && Z.leb (Z.abs (2 * tenth_of q s p - (8 * q + 7 * s + 5 * p))) 1.

(** Scores that are all equal are their own weighted sum. *)
Definition equal_scores (k : Z) : bool :=
  float_eqb (overall_of default_weights k k k) (Float64.of_Z k).

(** The number of tenths lies in 10..100, and raising one score by one
    does not lower it. *)
Definition monotone (q s p : Z) : bool :=
  Z.leb 10 (tenth_of q s p) && Z.leb (tenth_of q s p) 100
  && (Z.eqb q 10 || Z.leb (tenth_of q s p) (tenth_of (q + 1) s p))
  && (Z.eqb s 10 || Z.leb (tenth_of q s p) (tenth_of q (s + 1) p))
  && (Z.eqb p 10 || Z.leb (tenth_of q s p) (tenth_of q s (p + 1))).

(** The decimals 1.0, 1.1, ..., 10.0 counted in tenths. *)
Definition tenths : list Z := map Z.of_nat (seq 10 91).

(** ** Vocabulary for file names *)

(** Does the character occur in the string? *)
Fixpoint contains (c : ascii) (s : string) : bool :=
  match s with
  | EmptyString => false
  | String a s' => Ascii.eqb a c || contains c s'
  end.

(** Is the string made of dots only? *)
Fixpoint all_dots (s : string) : bool :=
  match s with
  | EmptyString => true
  | String a s' => Ascii.eqb a "."%char && all_dots s'
  end.

(** The class that the tenths of a score call for. *)
Definition class_of_tenths (n : Z) : string :=
  if Z.leb 80 n then "score-excellent"
  else if Z.leb 60 n then "score-good"
  else if Z.leb 40 n then "score-fair"
  else "score-poor".

Definition class_agrees (n : Z) : bool :=
  match get_score_class (JFloat (Float64.of_ratio n 10)) with
  | Ok c => String.eqb c (class_of_tenths n)
  | Raise _ => false
  end.

(** ** The example programs under [examples/] *)

From Stdlib Require Import DecimalString.

(** [str(n)] for an int *)
Definition string_of_Z (n : Z) : string := NilZero.string_of_int (Z.to_int n).

(** Dicts with int keys, in insertion order. *)
Section IntDict.
Context {V : Type}.

Definition int_dict := list (Z * V).

Fixpoint int_get (k : Z) (d : int_dict) : option V :=
  match d with
  | [] => None
  | (k', v) :: d' => if Z.eqb k k' then Some v else int_get k d'
  end.

Fixpoint int_set (k : Z) (v : V) (d : int_dict) : int_dict :=
  match d with
  | [] => [(k, v)]
  | (k', v') :: d' =>
      if Z.eqb k k' then (k', v) :: d' else (k', v') :: int_set k v d'
  end.

End IntDict.

Arguments int_dict V : clear implicits.

(** RecursionError, raised when a call would need more frames than the
    interpreter allows. *)
Definition recursion_error : exn :=
  mk_exn OtherException "maximum recursion depth exceeded".

(** *** [examples/bad_code.py] *)

Module BadCode.

(** The dict that [add_user] builds. *)
Record User := mk_user {
  username : string;
  password : string;
  id : Z
}.

Record UserManager := mk_manager { users : list User }.

(** [UserManager()] *)
Definition new_manager : UserManager := mk_manager [].

Definition add_user (self : UserManager) (username password : string)
  : User * UserManager :=
  let user := mk_user username password (Z.of_nat (List.length (users self)) + 1) in
  (user, mk_manager (users self ++ [user])).

(** The loop of [authenticate] over the users that are left. *)
Fixpoint authenticate_loop (rest : list User) (name pass : string) : option User :=
  match rest with
  | [] => None
  | user :: rest' =>
      if String.eqb (username user) name && String.eqb (password user) pass
      then Some user
      else authenticate_loop rest' name pass
  end.

Definition authenticate (self : UserManager) (username password : string)
  : option User :=
  authenticate_loop (users self) username password.

Fixpoint get_user_loop (rest : list User) (user_id : Z) : option User :=
  match rest with
  | [] => None
  | user :: rest' =>
      if Z.eqb (id user) user_id then Some user else get_user_loop rest' user_id
  end.

Definition get_user_by_id (self : UserManager) (user_id : Z) : option User :=
  get_user_loop (users self) user_id.

(** [inefficient_fibonacci]; [depth] is the number of nested calls that the
    interpreter still allows below this one. *)
Fixpoint inefficient_fibonacci (depth : nat) (n : Z) : result Z :=
  if Z.leb n 1 then Ok n
  else
    match depth with
    | O => Raise recursion_error
    | S depth' =>
        a <- inefficient_fibonacci depth' (n - 1) ;;
        b <- inefficient_fibonacci depth' (n - 2) ;;
        Ok (a + b)
    end.

(** [increment_counter] on the global [GLOBAL_COUNTER]: the value returned
    and the new value of the global. *)
Definition increment_counter (GLOBAL_COUNTER : Z) : Z * Z :=
  let GLOBAL_COUNTER := GLOBAL_COUNTER + 1 in
  (GLOBAL_COUNTER, GLOBAL_COUNTER).

End BadCode.

(** *** [examples/good_code.py] *)

Module GoodCode.

Record User := mk_user {
  id : Z;
  username : string;
  password_hash : string;
  salt : string
}.

Record SecureUserManager := mk_manager {
  _users : int_dict User;
  _username_to_id : dict Z;
  _next_id : Z
}.

(** [SecureUserManager()] *)
Definition new_manager : SecureUserManager := mk_manager [] [] 1.

Section Hashing.

(** [hashlib.sha256(text.encode()).hexdigest()] *)
Variable sha256_hex : string -> string.

Definition _hash_password (password salt : string) : string :=
  sha256_hex (password ++ salt).

Definition _verify_password (password hash_value salt : string) : bool :=
  String.eqb (_hash_password password salt) hash_value.

(** [add_user]; [token] is what [secrets.token_hex(16)] returns during the
    call.  The user returned, and the manager after the call. *)
Definition add_user (self : SecureUserManager) (token : string)
  (username password : string) : result (User * SecureUserManager) :=
  match dict_get username (_username_to_id self) with
  | Some _ =>
      Raise (mk_exn ValueError ("Username '" ++ username ++ "' already exists"))
  | None =>
      let salt := token in
      let password_hash := _hash_password password salt in
      let user := mk_user (_next_id self) username password_hash salt in
      Ok (user,
          mk_manager (int_set (_next_id self) user (_users self))
                     (dict_set username (_next_id self) (_username_to_id self))
                     (_next_id self + 1))
  end.

Definition authenticate (self : SecureUserManager) (username password : string)
  : result (option User) :=
  match dict_get username (_username_to_id self) with
  | None | Some 0 => Ok None
  | Some user_id =>
      match int_get user_id (_users self) with
      | None => Raise (mk_exn OtherException (string_of_Z user_id))
      | Some user =>
          if _verify_password password (password_hash user) (salt user)
          then Ok (Some user)
          else Ok None
      end
  end.

End Hashing.

Definition get_user_by_id (self : SecureUserManager) (user_id : Z) : option User :=
  int_get user_id (_users self).

Definition get_all_users (self : SecureUserManager) : list User :=
  map snd (_users self).

(** The [for] loop of [efficient_fibonacci], run [steps] times. *)
Fixpoint fibonacci_loop (steps : nat) (prev curr : Z) : Z * Z :=
  match steps with
  | O => (prev, curr)
  | S steps' => fibonacci_loop steps' curr (prev + curr)
  end.

Definition efficient_fibonacci (n : Z) : Z :=
  if Z.leb n 1 then n
  else snd (fibonacci_loop (Z.to_nat (n + 1 - 2)) 0 1).

(** [fibonacci_memoized]; [depth] is the number of nested calls still
    allowed, and the dict returned beside the outcome is the cache as the
    call leaves it, which is the caller's dict when one was passed. *)
Fixpoint fibonacci_memoized (depth : nat) (n : Z) (cache : option (int_dict Z))
  : result Z * int_dict Z :=
  let cache := match cache with
               | None => []
               | Some c => c
               end in
  match int_get n cache with
  | Some known => (Ok known, cache)
  | None =>
      if Z.leb n 1 then (Ok n, int_set n n cache)
      else
        match depth with
        | O => (Raise recursion_error, cache)
        | S depth' =>
            match fibonacci_memoized depth' (n - 1) (Some cache) with
            | (Raise e, cache) => (Raise e, cache)
            | (Ok a, cache) =>
                match fibonacci_memoized depth' (n - 2) (Some cache) with
                | (Raise e, cache) => (Raise e, cache)
                | (Ok b, cache) => (Ok (a + b), int_set n (a + b) cache)
                end
            end
        end
  end.

(** [Counter] *)
Record Counter := mk_counter { _value : Z }.

Definition new_counter (initial_value : Z) : Counter := mk_counter initial_value.

Definition increment (self : Counter) : Z * Counter :=
  (_value self + 1, mk_counter (_value self + 1)).

Definition get_value (self : Counter) : Z := _value self.

Definition reset (self : Counter) : Counter := mk_counter 0.

End GoodCode.

(** A manager in which the two dicts agree: every name leads to an id below
    [_next_id] that holds the user of that name, and no id from [_next_id]
    on is in use. *)
Definition consistent (m : GoodCode.SecureUserManager) : Prop :=
  1 <= GoodCode._next_id m
  /\ (forall name i,
         dict_get name (GoodCode._username_to_id m) = Some i ->
         exists user,
           int_get i (GoodCode._users m) = Some user
           /\ GoodCode.username user = name
           /\ GoodCode.id user = i)
  /\ (forall i user,
         int_get i (GoodCode._users m) = Some user ->
         1 <= i < GoodCode._next_id m
         /\ dict_get (GoodCode.username user) (GoodCode._username_to_id m) = Some i).

(** A cache that holds Fibonacci numbers only. *)
Definition sound_cache (cache : int_dict Z) : Prop :=
  forall k v, int_get k cache = Some v -> v = GoodCode.efficient_fibonacci k.

(** A user list in which the user at position [i] has the id [i + 1]. *)
Definition sequential (m : BadCode.UserManager) : Prop :=
  forall i user,
    nth_error (BadCode.users m) i = Some user ->
    BadCode.id user = Z.of_nat i + 1.

(** ** Vocabulary for the reconciliation of the overall score *)

(** The falsy values among those [json.loads] returns: None, False, 0, 0.0
    and -0.0, and the empty str, list and dict. *)
Inductive falsy : json -> Prop :=
| falsy_null : falsy JNull
| falsy_false : falsy (JBool false)
| falsy_zero : falsy (JInt 0)
| falsy_float_zero (s : bool) : falsy (JFloat (S754_zero s))
| falsy_empty_str : falsy (JStr EmptyString)
| falsy_empty_list : falsy (JList [])
| falsy_empty_dict : falsy (JDict []).

(** The float [x] is finite and its exact value is the integer [n]. *)
Definition float_is (x : spec_float) (n : Z) : Prop :=
  match x with
  | S754_zero _ => n = 0
  | S754_finite s m (Zneg k) => Float64.signed s (Z.pos m) = n * 2 ^ Z.pos k
  | S754_finite s m e => n = Float64.signed s (Z.pos m * 2 ^ e)
  | _ => False
  end.

(** [v == 5]: the int 5, or a float whose value is 5. *)
Definition equal_to_five (v : json) : Prop :=
  v = JInt 5 \/ exists x, v = JFloat x /\ float_is x 5.

(** [n] is the integer nearest to [m * 2^e], the even one of the two when
    [m * 2^e] lies halfway between them. *)
Definition nearest_integer (m : positive) (e : Z) (n : Z) : Prop :=
  match e with
  | Zneg k =>
      let d := 2 ^ Z.pos k in
      let gap := Z.abs (Z.pos m - n * d) in
      2 * gap <= d /\ (2 * gap = d -> Z.even n = true)
  | _ => n = Z.pos m * 2 ^ e
  end.

(** [y] is [x] rounded to one decimal: with [n] the number of tenths nearest
    to the exact value of [x] (the even one on a tie), [y] is the double
    nearest to [n/10], with the sign of [x].  Zeros, infinities and NaN
    round to themselves. *)
Definition one_decimal (x y : spec_float) : Prop :=
  match x with
  | S754_finite s m e =>
      exists n,
        nearest_integer (10 * m) e n
        /\ y = if Z.eqb n 0 then S754_zero s
               else Float64.div (S754_finite s (Z.to_pos n) 0) (Float64.of_Z 10)
  | _ => y = x
  end.

(** The weighted sum [q*w_quality + s*w_security + p*w_performance], before
    it is rounded. *)
Definition weighted_sum (weights : ScoreWeights) (q s p : Z) : spec_float :=
  Float64.add
    (Float64.add (Float64.mul (Float64.of_Z q) (w_quality weights))
                 (Float64.mul (Float64.of_Z s) (w_security weights)))
    (Float64.mul (Float64.of_Z p) (w_performance weights)).

(** * Properties *)

(** ** Dicts *)

Section DictFacts.
Context {V : Type}.
Implicit Types (d : dict V) (k : string) (v : V).

Lemma dict_get_set_same k v d : dict_get k (dict_set k v d) = Some v.
Proof.
  induction d as [| [k' v'] d IH]; simpl.
  - now rewrite String.eqb_refl.
  - destruct (String.eqb_spec k k') as [-> | Hne]; simpl.
    + now rewrite String.eqb_refl.
    + apply String.eqb_neq in Hne. now rewrite Hne.
Qed.

Lemma dict_get_set_other k k' v d :
  k <> k' -> dict_get k (dict_set k' v d) = dict_get k d.
Proof.
  intros Hne.
  induction d as [| [k0 v0] d IH]; simpl.
  - apply String.eqb_neq in Hne. now rewrite Hne.
  - destruct (String.eqb_spec k' k0) as [-> | Hne0]; simpl.
    + apply String.eqb_neq in Hne. now rewrite Hne.
    + now rewrite IH.
Qed.

Lemma dict_keys_set k k' v d :
  In k (dict_keys (dict_set k' v d)) <-> k = k' \/ In k (dict_keys d).
Proof.
  induction d as [| [k0 v0] d IH]; simpl.
  - intuition.
  - destruct (String.eqb_spec k' k0) as [-> | Hne0]; simpl.
    + intuition.
    + rewrite IH. intuition.
Qed.

(** Assignment never moves the keys already present. *)
Lemma dict_set_extends k v d :
  exists extra, dict_keys (dict_set k v d) = (dict_keys d ++ extra)%list.
Proof.
  induction d as [| [k0 v0] d [extra IH]]; simpl.
  - now exists [k].
  - destruct (String.eqb_spec k k0) as [-> | Hne0]; simpl.
    + exists []. now rewrite app_nil_r.
    + exists extra. now rewrite IH.
Qed.

Lemma dict_set_values (P : V -> Prop) k v d :
  P v -> Forall P (map snd d) -> Forall P (map snd (dict_set k v d)).
Proof.
  intros Hv.
  induction d as [| [k0 v0] d IH]; simpl; intros Hd.
  - now constructor.
  - inversion Hd; subst.
    destruct (String.eqb k k0); simpl; constructor; auto.
Qed.

Lemma dict_get_In k v d : dict_get k d = Some v -> In (k, v) d.
Proof.
  induction d as [| [k0 v0] d IH]; simpl; [discriminate |].
  destruct (String.eqb_spec k k0) as [-> | Hne].
  - intros [= ->]. now left.
  - intros H. right. auto.
Qed.

Lemma dict_get_None k d : ~ In k (dict_keys d) -> dict_get k d = None.
Proof.
  induction d as [| [k0 v0] d IH]; simpl; [reflexivity |].
  intros Hnot.
  destruct (String.eqb_spec k k0) as [-> | Hne]; [tauto |].
  apply IH. tauto.
Qed.

End DictFacts.

(** ** Score normalisation *)

Lemma clamp_in_range n : in_range (clamp n).
Proof. unfold in_range, clamp. lia. Qed.

Lemma clamp_id n : in_range n -> clamp n = n.
Proof. unfold in_range, clamp. lia. Qed.

(** [round] returns on every number that is neither NaN nor an infinity. *)
Lemma py_round_returns v :
  is_number v = true ->
  (exists n, py_round v = Ok n) <-> value_finite v = true.
Proof.
  destruct v as [| b | n | x | s | l | d]; simpl; try discriminate; intros _.
  - split; eauto.
  - split; eauto.
  - destruct x; simpl; split; eauto; try discriminate;
      intros [n H]; discriminate.
Qed.

Lemma normalize_loop_returns items :
  forall normalized,
    (exists ns, normalize_loop items normalized = Ok ns)
    <-> forallb (fun kv => value_finite (snd kv)) items = true.
Proof.
  induction items as [| [key value] rest IH]; intros normalized; simpl.
  - split; eauto.
  - rewrite andb_true_iff.
    destruct (is_number value) eqn:Hnum.
    + destruct (py_round value) as [n | e] eqn:Hr; simpl.
      * rewrite IH. split; [intros H | tauto].
        split; [| exact H].
        apply py_round_returns; eauto.
      * split; [intros [ns H]; discriminate |].
        intros [Hfin _].
        apply py_round_returns in Hfin; [| exact Hnum].
        destruct Hfin as [n Hn]. congruence.
    + rewrite IH. split; [intros H | tauto].
      split; [| exact H].
      destruct value; simpl in *; congruence.
Qed.

Lemma normalize_loop_range items :
  forall normalized ns,
    Forall in_range (map snd normalized) ->
    normalize_loop items normalized = Ok ns ->
    Forall in_range (map snd ns).
Proof.
  induction items as [| [key value] rest IH]; intros normalized ns Hd; simpl.
  - now intros [= <-].
  - destruct (is_number value); [| now apply IH].
    destruct (py_round value) as [n | e]; simpl; [| discriminate].
    apply IH. apply dict_set_values; [apply clamp_in_range | assumption].
Qed.

Lemma normalize_loop_keys items :
  forall normalized ns,
    normalize_loop items normalized = Ok ns ->
    forall k,
      In k (dict_keys ns) <->
      In k (dict_keys normalized)
      \/ exists v, In (k, v) items /\ is_number v = true.
Proof.
  induction items as [| [key value] rest IH]; intros normalized ns; simpl.
  - intros [= <-] k. split; [tauto |]. intros [H | [v [[] _]]]. exact H.
  - destruct (is_number value) eqn:Hnum.
    + destruct (py_round value) as [n | e]; simpl; [| discriminate].
      intros H k. rewrite (IH _ _ H k), dict_keys_set.
      split.
      * intros [[-> | Hk] | [v [Hin Hv]]]; eauto 6.
      * intros [Hk | [v [[[= -> ->] | Hin] Hv]]]; eauto 6.
    + intros H k. rewrite (IH _ _ H k).
      split.
      * intros [Hk | [v [Hin Hv]]]; eauto 6.
      * intros [Hk | [v [[[= -> ->] | Hin] Hv]]]; eauto 6. congruence.
Qed.

Lemma normalize_loop_extends items :
  forall normalized ns,
    normalize_loop items normalized = Ok ns ->
    exists extra, dict_keys ns = (dict_keys normalized ++ extra)%list.
Proof.
  induction items as [| [key value] rest IH]; intros normalized ns; simpl.
  - intros [= <-]. exists []. now rewrite app_nil_r.
  - destruct (is_number value); [| now apply IH].
    destruct (py_round value) as [n | e]; simpl; [| discriminate].
    intros H. destruct (IH _ _ H) as [extra1 E1].
    destruct (dict_set_extends key (clamp n) normalized) as [extra0 E0].
    exists (extra0 ++ extra1)%list. now rewrite E1, E0, app_assoc.
Qed.

(** The value found under each key after the loop, for a dict (distinct
    keys): the clamped rounding of the raw value when that is a number, the
    value the key had before the loop otherwise. *)
Lemma normalize_loop_get items :
  forall normalized ns,
    NoDup (dict_keys items) ->
    normalize_loop items normalized = Ok ns ->
    forall k,
      match dict_get k items with
      | Some v =>
          if is_number v
          then exists n, py_round v = Ok n /\ dict_get k ns = Some (clamp n)
          else dict_get k ns = dict_get k normalized
      | None => dict_get k ns = dict_get k normalized
      end.
Proof.
  induction items as [| [key value] rest IH]; intros normalized ns Hnd; simpl.
  - now intros [= <-] k.
  - inversion Hnd as [| ? ? Hfresh Hnd']; subst.
    apply dict_get_None in Hfresh.
    destruct (is_number value) eqn:Hnum.
    + destruct (py_round value) as [n | e] eqn:Hr; simpl; [| discriminate].
      intros H k. specialize (IH _ _ Hnd' H k).
      destruct (String.eqb_spec k key) as [-> | Hne].
      * rewrite Hnum. exists n. split; [exact Hr |].
        rewrite Hfresh in IH. now rewrite IH, dict_get_set_same.
      * now rewrite dict_get_set_other in IH by assumption.
    + intros H k. specialize (IH _ _ Hnd' H k).
      destruct (String.eqb_spec k key) as [-> | Hne].
      * rewrite Hnum. now rewrite Hfresh in IH.
      * exact IH.
Qed.

Lemma exact_int_round x n :
  Float64.exact_int x = Some n -> Float64.round_int x = Ok n.
Proof.
  destruct x as [s | s | | s m e]; simpl; try discriminate.
  - now intros [= <-].
  - destruct e as [| p | p]; simpl.
    + now intros [= <-].
    + now intros [= <-].
    + destruct (Z.eqb_spec (Z.pos m mod Z.pow_pos 2 p) 0) as [E | E];
        [| discriminate].
      intros [= <-]. rewrite E. simpl.
      assert (0 < Z.pow_pos 2 p) by (rewrite Z.pow_pos_fold; lia).
      destruct (Z.pow_pos 2 p); try lia. reflexivity.
Qed.

Lemma default_scores_get k :
  In k known_types -> dict_get k default_scores = Some 5.
Proof.
  simpl. intros [<- | [<- | [<- | []]]]; reflexivity.
Qed.

(** ** The shape of a processed reply *)

Section ProcessFacts.
Variable py_str : json -> string.

Lemma validate_loop_app entries :
  forall valid_issues,
    validate_loop py_str entries valid_issues
    = (valid_issues ++ map (validate_issue py_str) (mapping_entries entries))%list.
Proof.
  induction entries as [| entry rest IH]; intros valid_issues; simpl.
  - now rewrite app_nil_r.
  - destruct entry; simpl; try apply IH.
    rewrite IH, <- app_assoc. reflexivity.
Qed.

Lemma iterate_returns v :
  iterable v = true -> exists entries, iterate v = Ok entries.
Proof.
  destruct v; simpl; try discriminate; eauto.
Qed.

(** On a processable reply the function returns, and this is the dict. *)
Lemma process_returns (self : CodeAnalyzer) (raw : dict json) :
  processable raw = true ->
  exists ns entries,
    _normalize_scores self (dict_get_default "scores" (JDict []) raw) = Ok ns
    /\ iterate (dict_get_default "issues" (JList []) raw) = Ok entries
    /\ _process_analysis_result py_str self (JDict raw)
       = Ok (mk_result
               (let overall := dict_get_default "overall_score" (JInt 5) raw in
                if needs_overall overall
                then JFloat (weighted_score (score_weights (config self)) ns)
                else overall)
               ns
               (validate_loop py_str entries [])
               (let recommendations :=
                  dict_get_default "recommendations" (JList []) raw in
                match recommendations with
                | JStr s => JList [JStr s]
                | _ => recommendations
                end)
               (dict_get_default "summary" (JStr "Analysis completed") raw)).
Proof.
  unfold processable. rewrite andb_true_iff. intros [Hs Hi].
  destruct (dict_get_default "scores" (JDict []) raw) as [| | | | | |items] eqn:Es;
    try discriminate.
  apply (normalize_loop_returns items default_scores) in Hs.
  destruct Hs as [ns Hns].
  destruct (iterate_returns _ Hi) as [entries He].
  exists ns, entries. repeat split; try assumption.
  unfold _process_analysis_result. rewrite Es.
  unfold _normalize_scores. rewrite Hns. simpl.
  unfold _validate_issues. rewrite He. simpl.
  reflexivity.
Qed.

(** On any other reply it raises: [processable] is the exact domain. *)
Lemma process_raises (self : CodeAnalyzer) (raw : dict json) :
  processable raw = false ->
  exists e, _process_analysis_result py_str self (JDict raw) = Raise e.
Proof.
  unfold processable, _process_analysis_result, _validate_issues.
  destruct (_normalize_scores self (dict_get_default "scores" (JDict []) raw))
    as [ns | e] eqn:Hns; [| intros _; simpl; eauto].
  assert (Hs : scores_ok (dict_get_default "scores" (JDict []) raw) = true).
  { destruct (dict_get_default "scores" (JDict []) raw) as [| | | | | | items];
      try discriminate.
    apply (normalize_loop_returns items default_scores). eauto. }
  rewrite Hs. simpl.
  destruct (dict_get_default "issues" (JList []) raw); simpl;
    intros; try discriminate; eauto.
Qed.

End ProcessFacts.

(** ** Keys of the normalised scores *)

(** C1, as stated, fails: a raw key other than the three known ones whose
    value is a number is copied into the normalised mapping, which then has
    four keys. *)
Lemma normalize_scores_keeps_unknown_key :
  _normalize_scores Samples.self (JDict [("Style", JInt 7)])
  = Ok [("Quality", 5); ("Security", 5); ("Performance", 5); ("Style", 7)]
  /\ dict_keys [("Quality", 5); ("Security", 5); ("Performance", 5); ("Style", 7)]
     <> known_types.
Proof.
  split; [reflexivity | discriminate].
Qed.

(** C1 (amended): on every raw scores mapping without NaN or infinite values
    normalisation returns a mapping whose first three keys are Quality,
    Security and Performance; a key of the raw mapping other than these
    three appears in the output exactly when its value is a number, and is
    dropped otherwise. *)
Theorem normalize_scores_keys (self : CodeAnalyzer) (items : dict json) :
  scores_ok (JDict items) = true ->
  exists ns,
    _normalize_scores self (JDict items) = Ok ns
    /\ (exists extra, dict_keys ns = (known_types ++ extra)%list)
    /\ forall k,
         In k (dict_keys ns) <->
         In k known_types \/ exists v, In (k, v) items /\ is_number v = true.
Proof.
  simpl. intros Hok.
  apply (normalize_loop_returns items default_scores) in Hok.
  destruct Hok as [ns Hns]. exists ns. split; [exact Hns |]. split.
  - exact (normalize_loop_extends _ _ _ Hns).
  - exact (normalize_loop_keys _ _ _ Hns).
Qed.

Lemma normalize_scores_keys_witness :
  exists ns,
    _normalize_scores Samples.self
      (JDict [("Style", JInt 7); ("Note", JStr "n/a")]) = Ok ns
    /\ In "Style" (dict_keys ns)
    /\ ~ In "Note" (dict_keys ns).
Proof.
  destruct (normalize_scores_keys Samples.self
              [("Style", JInt 7); ("Note", JStr "n/a")] eq_refl)
    as [ns [Hns [_ Hkeys]]].
  exists ns. split; [exact Hns |]. split.
  - apply Hkeys. right. exists (JInt 7). split; [now left | reflexivity].
  - intros Hin. apply Hkeys in Hin.
    destruct Hin as [Hin | [v [Hin Hv]]].
    + simpl in Hin. repeat (destruct Hin as [Hin | Hin]; [discriminate |]).
      exact Hin.
    + simpl in Hin. destruct Hin as [[= _ <-] | [[= <-] | []]]; discriminate.
Defined.

(** ** Values of the normalised scores *)

(** C4, as stated, fails: 7.5 lies in [1,10] and is not left unchanged, the
    normalised score is the integer 8. *)
Lemma normalize_scores_rounds_fraction :
  overall_in_bounds Samples.seven_and_a_half = true
  /\ _normalize_scores Samples.self
       (JDict [("Quality", JFloat Samples.seven_and_a_half)])
     = Ok [("Quality", 8); ("Security", 5); ("Performance", 5)]
  /\ eq_int (JFloat Samples.seven_and_a_half) 8 = false.
Proof.
  repeat split; vm_compute; reflexivity.
Qed.

(** C4 (amended): for a raw scores mapping without NaN or infinite values and
    each of the three known keys: an int value is clamped into [1,10], hence
    unchanged when it already lies there; a float value is first rounded to
    the nearest integer, ties to the even one, and then clamped, hence
    unchanged when it is a whole number in [1,10]; a null, string, list or
    mapping value is ignored and the default 5 retained, as it is for a
    missing key.  If the [scores] key is missing from the reply, score
    normalisation is applied to the empty mapping and returns Quality 5,
    Security 5, Performance 5, whatever the other fields are; these are the
    scores of every result that processing returns. *)
Theorem normalize_scores_values (py_str : json -> string) (self : CodeAnalyzer) :
  (forall items,
      NoDup (dict_keys items) ->
      scores_ok (JDict items) = true ->
      exists ns,
        _normalize_scores self (JDict items) = Ok ns
        /\ forall k,
             In k known_types ->
             (dict_get k items = None -> dict_get k ns = Some 5)
             /\ forall v,
                  dict_get k items = Some v ->
                  (is_number v = false -> dict_get k ns = Some 5)
                  /\ (forall n,
                         v = JInt n ->
                         dict_get k ns = Some (clamp n)
                         /\ in_range (clamp n)
                         /\ (in_range n -> dict_get k ns = Some n))
                  /\ (forall x,
                         v = JFloat x ->
                         exists n,
                           Float64.round_int x = Ok n
                           /\ dict_get k ns = Some (clamp n)
                           /\ in_range (clamp n)
                           /\ (forall m,
                                  Float64.exact_int x = Some m ->
                                  in_range m ->
                                  dict_get k ns = Some m)))
  /\ (forall raw,
         dict_get "scores" raw = None ->
         _normalize_scores self (dict_get_default "scores" (JDict []) raw)
         = Ok default_scores
         /\ forall r,
              _process_analysis_result py_str self (JDict raw) = Ok r ->
              scores r = default_scores).
Proof.
  split.
  - intros items Hnd Hok. simpl in Hok.
    apply (normalize_loop_returns items default_scores) in Hok.
    destruct Hok as [ns Hns]. exists ns. split; [exact Hns |].
    intros k Hk.
    pose proof (normalize_loop_get _ _ _ Hnd Hns k) as Hget.
    pose proof (default_scores_get k Hk) as Hdef.
    split.
    + intros E. rewrite E in Hget. congruence.
    + intros v E. rewrite E in Hget. split; [| split].
      * intros Hnum. rewrite Hnum in Hget. congruence.
      * intros n ->. simpl in Hget. destruct Hget as [n' [[= <-] Hget]].
        split; [exact Hget |]. split; [apply clamp_in_range |].
        intros Hr. now rewrite clamp_id in Hget.
      * intros x ->. simpl in Hget. destruct Hget as [n [Hr Hget]].
        exists n. split; [exact Hr |]. split; [exact Hget |].
        split; [apply clamp_in_range |].
        intros m Hm Hrange.
        apply exact_int_round in Hm. rewrite Hm in Hr.
        injection Hr as <-. now rewrite clamp_id in Hget.
  - intros raw Hmiss.
    assert (Hns : _normalize_scores self (dict_get_default "scores" (JDict []) raw)
                  = Ok default_scores).
    { unfold dict_get_default. rewrite Hmiss. reflexivity. }
    split; [exact Hns |].
    intros r. unfold _process_analysis_result. rewrite Hns. cbn [bind].
    destruct (_validate_issues py_str self (dict_get_default "issues" (JList []) raw));
      cbn [bind]; [| discriminate].
    intros [= <-]. reflexivity.
Qed.

Lemma normalize_scores_values_witness :
  (exists ns,
      _normalize_scores Samples.self
        (JDict [("Quality", JInt 3); ("Security", JInt 40);
                ("Performance", JStr "fast")]) = Ok ns
      /\ dict_get "Quality" ns = Some 3
      /\ dict_get "Security" ns = Some 10
      /\ dict_get "Performance" ns = Some 5)
  /\ _normalize_scores Samples.self
       (dict_get_default "scores" (JDict []) Samples.reply_no_scores)
     = Ok default_scores
  /\ exists r,
       _process_analysis_result Samples.str Samples.self
         (JDict [("summary", JStr "fine")]) = Ok r
       /\ scores r = default_scores.
Proof.
  destruct (normalize_scores_values Samples.str Samples.self) as [Hvalues Hmissing].
  split.
  - destruct (Hvalues [("Quality", JInt 3); ("Security", JInt 40);
                       ("Performance", JStr "fast")]) as [ns [Hns Hk]].
    + repeat constructor; simpl; intuition discriminate.
    + reflexivity.
    + exists ns. split; [exact Hns |]. repeat split.
      * destruct (Hk "Quality") as [_ Hv]; [simpl; tauto |].
        destruct (Hv (JInt 3) eq_refl) as [_ [Hint _]].
        destruct (Hint 3 eq_refl) as [_ [_ Hid]].
        apply Hid. unfold in_range. lia.
      * destruct (Hk "Security") as [_ Hv]; [simpl; tauto |].
        destruct (Hv (JInt 40) eq_refl) as [_ [Hint _]].
        destruct (Hint 40 eq_refl) as [Hc _]. exact Hc.
      * destruct (Hk "Performance") as [_ Hv]; [simpl; tauto |].
        destruct (Hv (JStr "fast") eq_refl) as [Hnon _].
        apply Hnon. reflexivity.
  - split.
    + apply (Hmissing Samples.reply_no_scores). reflexivity.
    + destruct (Hmissing [("summary", JStr "fine")] eq_refl) as [_ Hscores].
      eexists. split; [vm_compute; reflexivity |].
      apply Hscores. vm_compute. reflexivity.
Defined.

(** ** The recomputed overall score *)

Lemma dict_get_key {V : Type} (k : string) (d : dict V) :
  In k (dict_keys d) -> exists v, dict_get k d = Some v.
Proof.
  induction d as [| [k0 v0] d IH]; simpl; [tauto |].
  destruct (String.eqb_spec k k0) as [-> | Hne]; [eauto |].
  intros [E | Hin]; [congruence | auto].
Qed.

(** After normalisation each of the three known keys holds a score in
    [1,10], so the default of [scores.get(key, 5)] is never used. *)
Lemma normalize_scores_known (self : CodeAnalyzer) (v : json) (ns : dict Z) k :
  _normalize_scores self v = Ok ns ->
  In k known_types ->
  exists n, dict_get k ns = Some n /\ in_range n.
Proof.
  destruct v as [| | | | | | items]; simpl; try discriminate.
  intros Hns Hk.
  destruct (dict_get_key k ns) as [n Hn].
  { apply (normalize_loop_keys _ _ _ Hns). now left. }
  exists n. split; [exact Hn |].
  assert (Hall : Forall in_range (map snd ns)).
  { apply (normalize_loop_range items default_scores ns); [| exact Hns].
    repeat constructor; unfold in_range; simpl; lia. }
  rewrite Forall_forall in Hall. apply Hall.
  apply dict_get_In in Hn.
  change n with (snd (k, n)). now apply in_map.
Qed.

Lemma weighted_score_overall_of weights (ns : dict Z) q s p :
  dict_get "Quality" ns = Some q ->
  dict_get "Security" ns = Some s ->
  dict_get "Performance" ns = Some p ->
  weighted_score weights ns = overall_of weights q s p.
Proof.
  intros Hq Hs Hp. unfold weighted_score, overall_of, dict_get_default.
  now rewrite Hq, Hs, Hp.
Qed.

(** The bounds, checked on each of the thousand triples of scores. *)
Lemma all_overalls_in_bounds :
  forallb (fun q =>
    forallb (fun s =>
      forallb (fun p => overall_in_bounds (overall_of default_weights q s p))
              one_to_ten)
            one_to_ten)
          one_to_ten
  = true.
Proof. vm_compute. reflexivity. Qed.

Lemma in_range_enum n : in_range n -> In n one_to_ten.
Proof. unfold in_range, one_to_ten. simpl. lia. Qed.

Lemma overall_of_in_bounds q s p :
  in_range q -> in_range s -> in_range p ->
  overall_in_bounds (overall_of default_weights q s p) = true.
Proof.
  intros Hq Hs Hp.
  pose proof all_overalls_in_bounds as H.
  rewrite forallb_forall in H.
  specialize (H q (in_range_enum q Hq)). rewrite forallb_forall in H.
  specialize (H s (in_range_enum s Hs)). rewrite forallb_forall in H.
  exact (H p (in_range_enum p Hp)).
Qed.

(** C10: every value of the mapping returned by score normalisation is an
    integer in [1,10]; and on every processable reply, under the default
    weights 0.4, 0.35 and 0.25, an overall score that is recomputed lies in
    [1.0, 10.0]. *)
Theorem scores_and_overall_in_range (py_str : json -> string) (self : CodeAnalyzer) :
  (forall v ns, _normalize_scores self v = Ok ns -> Forall in_range (map snd ns))
  /\ (forall raw,
         score_weights (config self) = default_weights ->
         processable raw = true ->
         exists r,
           _process_analysis_result py_str self (JDict raw) = Ok r
           /\ Forall in_range (map snd (scores r))
           /\ (needs_overall (dict_get_default "overall_score" (JInt 5) raw) = true ->
               exists x,
                 overall_score r = JFloat x
                 /\ Float64.leb (Float64.of_Z 1) x = true
                 /\ Float64.leb x (Float64.of_Z 10) = true)).
Proof.
  assert (Hrange : forall v ns,
             _normalize_scores self v = Ok ns -> Forall in_range (map snd ns)).
  { intros v ns. destruct v as [| | | | | | items]; simpl; try discriminate.
    apply normalize_loop_range.
    repeat constructor; unfold in_range; simpl; lia. }
  split; [exact Hrange |].
  intros raw Hw Hp.
  destruct (process_returns py_str self raw Hp) as [ns [entries [Hns [_ Hr]]]].
  eexists. split; [exact Hr |]. simpl. split; [exact (Hrange _ _ Hns) |].
  intros Hneed. rewrite Hneed. eexists. split; [reflexivity |].
  destruct (normalize_scores_known self _ ns "Quality" Hns) as [q [Hq Rq]];
    [simpl; tauto |].
  destruct (normalize_scores_known self _ ns "Security" Hns) as [s [Hs Rs]];
    [simpl; tauto |].
  destruct (normalize_scores_known self _ ns "Performance" Hns) as [p [Hp' Rp]];
    [simpl; tauto |].
  rewrite (weighted_score_overall_of _ ns q s p Hq Hs Hp'), Hw.
  pose proof (overall_of_in_bounds q s p Rq Rs Rp) as Hb.
  unfold overall_in_bounds in Hb. apply andb_true_iff in Hb. exact Hb.
Qed.

Lemma scores_and_overall_in_range_witness :
  exists r x,
    _process_analysis_result Samples.str Samples.self (JDict Samples.reply_5_864)
    = Ok r
    /\ Forall in_range (map snd (scores r))
    /\ overall_score r = JFloat x
    /\ Float64.leb (Float64.of_Z 1) x = true
    /\ Float64.leb x (Float64.of_Z 10) = true.
Proof.
  destruct (scores_and_overall_in_range Samples.str Samples.self) as [_ H].
  destruct (H Samples.reply_5_864 eq_refl eq_refl) as [r [Hr [Hs Ho]]].
  destruct (Ho eq_refl) as [x Hx].
  exists r, x. tauto.
Defined.

(** ** Reconciliation of the overall score *)

Lemma truthy_falsy v : truthy v = false <-> falsy v.
Proof.
  split.
  - destruct v as [| [|] | n | x | s | l | d]; simpl; try discriminate;
      try constructor.
    + rewrite negb_false_iff, Z.eqb_eq. intros ->. constructor.
    + destruct x; try discriminate. constructor.
    + destruct s; [constructor | discriminate].
    + destruct l; [constructor | discriminate].
    + destruct d; [constructor | discriminate].
  - intros []; reflexivity.
Qed.

Lemma exact_int_float_is x n : Float64.exact_int x = Some n <-> float_is x n.
Proof.
  destruct x as [s | s | | s m e]; simpl; try (split; [discriminate | tauto]).
  - split; [now intros [= <-] | now intros ->].
  - destruct e as [| e | k]; try (split; [now intros [= <-] | now intros ->]).
    change (Z.pow_pos 2 k) with (2 ^ Z.pos k).
    assert (Hd : 0 < 2 ^ Z.pos k) by (apply Z.pow_pos_nonneg; lia).
    pose proof (Z.div_mod (Z.pos m) (2 ^ Z.pos k)) as Hdm.
    pose proof (Z.mod_pos_bound (Z.pos m) (2 ^ Z.pos k) Hd) as Hb.
    destruct (Z.eqb_spec (Z.pos m mod 2 ^ Z.pos k) 0) as [E | E].
    + split.
      * intros [= <-]. destruct s; simpl; nia.
      * intros H. f_equal. destruct s; simpl in *; nia.
    + split; [discriminate |].
      intros H. exfalso. apply E.
      destruct s; simpl in H.
      * apply Z.mod_divide; [lia |]. exists (- n). lia.
      * apply Z.mod_divide; [lia |]. exists n. lia.
Qed.

Lemma eq_int_five v : eq_int v 5 = true <-> equal_to_five v.
Proof.
  unfold equal_to_five. destruct v as [| b | n | x | s | l | d]; simpl.
  - split; [discriminate | intros [H | [x [H _]]]; discriminate].
  - split; [destruct b; discriminate | intros [H | [x [H _]]]; discriminate].
  - rewrite Z.eqb_eq. split.
    + intros ->. now left.
    + intros [[= ->] | [x [H _]]]; [reflexivity | discriminate].
  - split.
    + destruct (Float64.exact_int x) as [m |] eqn:E; [| discriminate].
      rewrite Z.eqb_eq. intros ->. right. exists x.
      split; [reflexivity |]. now apply exact_int_float_is.
    + intros [H | [x' [[= <-] H]]]; [discriminate |].
      apply exact_int_float_is in H. rewrite H. reflexivity.
  - split; [discriminate | intros [H | [x [H _]]]; discriminate].
  - split; [discriminate | intros [H | [x [H _]]]; discriminate].
  - split; [discriminate | intros [H | [x [H _]]]; discriminate].
Qed.

(** The recomputation is triggered exactly by the falsy values and by the
    values equal to 5. *)
Lemma needs_overall_spec v :
  needs_overall v = true <-> falsy v \/ equal_to_five v.
Proof.
  unfold needs_overall.
  rewrite orb_true_iff, negb_true_iff, truthy_falsy, eq_int_five. tauto.
Qed.

Lemma nearest_even_nearest m e : nearest_integer m e (Float64.nearest_even m e).
Proof.
  destruct e as [| e | k]; [reflexivity | reflexivity |].
  unfold nearest_integer, Float64.nearest_even. cbv zeta.
  change (Z.pow_pos 2 k) with (2 ^ Z.pos k).
  assert (Hd : 0 < 2 ^ Z.pos k) by (apply Z.pow_pos_nonneg; lia).
  pose proof (Z.div_mod (Z.pos m) (2 ^ Z.pos k)) as Hdm.
  pose proof (Z.mod_pos_bound (Z.pos m) (2 ^ Z.pos k) Hd) as Hb.
  set (d := 2 ^ Z.pos k) in *.
  set (q := Z.pos m / d) in *. set (r := Z.pos m mod d) in *.
  assert (Hm : Z.pos m = q * d + r) by lia.
  destruct (Z.compare_spec (2 * r) d) as [E | L | G].
  - destruct (Z.even q) eqn:Ev.
    + split; [lia |]. intros _. exact Ev.
    + split; [lia |]. intros _.
      rewrite Z.add_1_r, Z.even_succ, <- Z.negb_even, Ev. reflexivity.
  - split; lia.
  - split; lia.
Qed.

Lemma nearest_even_nonneg m e : 0 <= Float64.nearest_even m e.
Proof.
  destruct e as [| e | k]; unfold Float64.nearest_even; cbv zeta; try lia.
  change (Z.pow_pos 2 k) with (2 ^ Z.pos k).
  assert (Hd : 0 < 2 ^ Z.pos k) by (apply Z.pow_pos_nonneg; lia).
  assert (Hq : 0 <= Z.pos m / 2 ^ Z.pos k) by (apply Z.div_pos; lia).
  destruct (Z.compare (2 * (Z.pos m mod 2 ^ Z.pos k)) (2 ^ Z.pos k)); [| lia | lia].
  destruct (Z.even _); lia.
Qed.

Lemma nearest_integer_unique m e n1 n2 :
  nearest_integer m e n1 -> nearest_integer m e n2 -> n1 = n2.
Proof.
  destruct e as [| e | k]; unfold nearest_integer; cbv zeta; try congruence.
  assert (Hd : 0 < 2 ^ Z.pos k) by (apply Z.pow_pos_nonneg; lia).
  set (d := 2 ^ Z.pos k) in *.
  intros [H1 E1] [H2 E2].
  assert (Hclose : - 1 <= n1 - n2 <= 1) by nia.
  assert (Hcases : n1 = n2 \/ n1 = n2 + 1 \/ n2 = n1 + 1) by lia.
  destruct Hcases as [E | [E | E]]; [exact E | exfalso | exfalso].
  - assert (T1 : 2 * Z.abs (Z.pos m - n1 * d) = d) by nia.
    assert (T2 : 2 * Z.abs (Z.pos m - n2 * d) = d) by nia.
    specialize (E1 T1). specialize (E2 T2).
    rewrite E, Z.add_1_r, Z.even_succ, <- Z.negb_even, E2 in E1. discriminate.
  - assert (T1 : 2 * Z.abs (Z.pos m - n1 * d) = d) by nia.
    assert (T2 : 2 * Z.abs (Z.pos m - n2 * d) = d) by nia.
    specialize (E1 T1). specialize (E2 T2).
    rewrite E, Z.add_1_r, Z.even_succ, <- Z.negb_even, E1 in E2. discriminate.
Qed.

(** [round(x, 1)] is [x] rounded to one decimal, and nothing else is. *)
Lemma round1_one_decimal x y : one_decimal x y <-> y = Float64.round1 x.
Proof.
  destruct x as [s | s | | s m e]; simpl; try tauto.
  pose proof (nearest_even_nearest (10 * m) e) as Hn.
  pose proof (nearest_even_nonneg (10 * m) e) as H0.
  assert (Hr : (if Z.eqb (Float64.nearest_even (10 * m) e) 0 then S754_zero s
                else Float64.div
                       (S754_finite s (Z.to_pos (Float64.nearest_even (10 * m) e)) 0)
                       (Float64.of_Z 10))
               = match Float64.nearest_even (10 * m) e with
                 | Z.pos n => Float64.div (S754_finite s n 0) (Float64.of_Z 10)
                 | _ => S754_zero s
                 end).
  { destruct (Float64.nearest_even (10 * m) e); [reflexivity | reflexivity | lia]. }
  split.
  - intros [n [Hn' ->]].
    rewrite (nearest_integer_unique _ _ _ _ Hn' Hn). exact Hr.
  - intros ->. exists (Float64.nearest_even (10 * m) e). split; [exact Hn |].
    symmetry. exact Hr.
Qed.

(** C2, as stated, fails: this reply carries the overall score 7.2, which is
    neither falsy nor equal to 5, beside scores that are null.  Processing
    it raises, and the result of the analysis has the overall score 0, not
    7.2. *)
Lemma overall_score_lost_on_failure :
  let v := JFloat (Float64.of_ratio 72 10) in
  dict_get "overall_score" Samples.reply_null_scores = Some v
  /\ ~ falsy v
  /\ ~ equal_to_five v
  /\ _process_analysis_result Samples.str Samples.self
       (JDict Samples.reply_null_scores)
     = Raise (mk_exn AttributeError "'NoneType' object has no attribute 'items'")
  /\ overall_score
       (analyze_code Samples.str Samples.loads
          (Samples.analyzer Samples.null_scores) "x = 1" "a.py" true true true)
     = JInt 0.
Proof.
  cbv zeta. split; [reflexivity |]. split; [| split; [| split]].
  - intros H. apply truthy_falsy in H. vm_compute in H. discriminate.
  - intros H. apply eq_int_five in H. vm_compute in H. discriminate.
  - reflexivity.
  - vm_compute. reflexivity.
Qed.

(** C2 (amended): on every reply that is processed without exception (its
    scores a mapping without NaN or infinite values, its issues iterable)
    the overall score of the output is the weighted sum Quality*w_quality +
    Security*w_security + Performance*w_performance of the normalised
    scores, rounded to one decimal, when the raw [overall_score] is absent,
    falsy or equal to 5, and is the raw value unchanged in every other case.
    In particular raw overall score 5 with scores 8, 6, 4 and weights 0.4,
    0.35, 0.25 gives 6.3, and a raw overall score 7.2 stays 7.2. *)
Theorem overall_score_reconciliation (py_str : json -> string) (self : CodeAnalyzer) :
  (forall raw,
      processable raw = true ->
      exists r q s p y,
        _process_analysis_result py_str self (JDict raw) = Ok r
        /\ dict_get "Quality" (scores r) = Some q
        /\ dict_get "Security" (scores r) = Some s
        /\ dict_get "Performance" (scores r) = Some p
        /\ one_decimal (weighted_sum (score_weights (config self)) q s p) y
        /\ (dict_get "overall_score" raw = None -> overall_score r = JFloat y)
        /\ forall v,
             dict_get "overall_score" raw = Some v ->
             (falsy v \/ equal_to_five v -> overall_score r = JFloat y)
             /\ (~ falsy v -> ~ equal_to_five v -> overall_score r = v))
  /\ (score_weights (config self) = default_weights ->
      (exists r,
          _process_analysis_result py_str self
            (JDict [("overall_score", JInt 5);
                    ("scores", JDict [("Quality", JInt 8); ("Security", JInt 6);
                                      ("Performance", JInt 4)])]) = Ok r
          /\ overall_score r = JFloat (Float64.of_ratio 63 10))
      /\ forall scores_value,
           processable [("overall_score", JFloat (Float64.of_ratio 72 10));
                        ("scores", scores_value)] = true ->
           exists r,
             _process_analysis_result py_str self
               (JDict [("overall_score", JFloat (Float64.of_ratio 72 10));
                       ("scores", scores_value)]) = Ok r
             /\ overall_score r = JFloat (Float64.of_ratio 72 10)).
Proof.
  split.
  - intros raw Hp.
    destruct (process_returns py_str self raw Hp) as [ns [entries [Hns [_ Hr]]]].
    destruct (normalize_scores_known self _ ns "Quality" Hns) as [q [Hq _]];
      [simpl; tauto |].
    destruct (normalize_scores_known self _ ns "Security" Hns) as [s [Hs _]];
      [simpl; tauto |].
    destruct (normalize_scores_known self _ ns "Performance" Hns) as [p [Hp' _]];
      [simpl; tauto |].
    eexists; exists q, s, p.
    exists (Float64.round1 (weighted_sum (score_weights (config self)) q s p)).
    split; [exact Hr |]. cbn [scores overall_score].
    repeat (split; [assumption |]).
    split; [now apply round1_one_decimal |].
    rewrite (weighted_score_overall_of _ ns q s p Hq Hs Hp').
    change (overall_of (score_weights (config self)) q s p)
      with (Float64.round1 (weighted_sum (score_weights (config self)) q s p)).
    unfold dict_get_default. split.
    + intros ->. reflexivity.
    + intros v ->. split.
      * intros Hneed. apply needs_overall_spec in Hneed. now rewrite Hneed.
      * intros Hf H5.
        destruct (needs_overall v) eqn:En; [| reflexivity].
        apply needs_overall_spec in En. tauto.
  - intros Hw. split.
    + eexists. unfold _process_analysis_result. simpl. rewrite Hw.
      split; [reflexivity |]. vm_compute. reflexivity.
    + intros scores_value Hp.
      destruct (process_returns py_str self _ Hp) as [ns [entries [_ [_ Hr]]]].
      eexists. split; [exact Hr |]. reflexivity.
Qed.

Lemma overall_score_reconciliation_witness :
  (exists r,
      _process_analysis_result Samples.str Samples.self
        (JDict Samples.reply_empty_overall) = Ok r
      /\ overall_score r = JFloat (Float64.of_ratio 18 10)
      /\ weighted_sum default_weights 3 1 1 <> Float64.of_ratio 18 10)
  /\ (exists r,
         _process_analysis_result Samples.str Samples.self
           (JDict Samples.reply_no_overall) = Ok r
         /\ overall_score r = JFloat (Float64.of_ratio 12 10)
         /\ weighted_sum default_weights 1 1 2 = Float64.of_ratio 125 100)
  /\ exists r,
       _process_analysis_result Samples.str Samples.self (JDict Samples.reply_72)
       = Ok r
       /\ overall_score r = JFloat (Float64.of_ratio 72 10).
Proof.
  destruct (overall_score_reconciliation Samples.str Samples.self) as [H _].
  split; [| split].
  - destruct (H Samples.reply_empty_overall eq_refl)
      as [r [q [s [p [y [Hr [Hq [Hs [Hp [Hy [_ Hv]]]]]]]]]]].
    exists r. split; [exact Hr |].
    destruct (Hv (JStr EmptyString) eq_refl) as [Hnew _].
    rewrite (Hnew (or_introl falsy_empty_str)).
    vm_compute in Hr. injection Hr as <-.
    injection Hq as <-. injection Hs as <-. injection Hp as <-.
    rewrite (proj1 (round1_one_decimal _ y) Hy).
    split; [vm_compute; reflexivity | vm_compute; discriminate].
  - destruct (H Samples.reply_no_overall eq_refl)
      as [r [q [s [p [y [Hr [Hq [Hs [Hp [Hy [Habsent _]]]]]]]]]]].
    exists r. split; [exact Hr |].
    rewrite (Habsent eq_refl).
    vm_compute in Hr. injection Hr as <-.
    injection Hq as <-. injection Hs as <-. injection Hp as <-.
    rewrite (proj1 (round1_one_decimal _ y) Hy).
    split; vm_compute; reflexivity.
  - destruct (H Samples.reply_72 eq_refl)
      as [r [q [s [p [y [Hr [_ [_ [_ [_ [_ Hv]]]]]]]]]]].
    exists r. split; [exact Hr |].
    destruct (Hv (JFloat (Float64.of_ratio 72 10)) eq_refl) as [_ Hkeep].
    apply Hkeep.
    + intros Hf. apply truthy_falsy in Hf. vm_compute in Hf. discriminate.
    + intros H5. apply eq_int_five in H5. vm_compute in H5. discriminate.
Defined.

(** ** Recommendations *)

(** C7, as stated, fails: this reply carries the recommendations "fix it"
    beside scores that are null.  Processing it raises, and the result of
    the analysis holds the two fixed recommendations of the error result,
    not the one-element list of "fix it". *)
Lemma recommendations_lost_on_failure :
  let r :=
    analyze_code Samples.str Samples.loads
      (Samples.analyzer Samples.null_scores) "x = 1" "a.py" true true true in
  dict_get "recommendations" Samples.reply_null_scores = Some (JStr "fix it")
  /\ _process_analysis_result Samples.str Samples.self
       (JDict Samples.reply_null_scores)
     = Raise (mk_exn AttributeError "'NoneType' object has no attribute 'items'")
  /\ recommendations r
     = JList [JStr "Please check your code syntax and try again";
              JStr "Ensure your OpenAI API key is valid and has sufficient credits"]
  /\ recommendations r <> JList [JStr "fix it"].
Proof.
  cbv zeta. split; [reflexivity |]. split; [reflexivity |].
  split; [vm_compute; reflexivity | vm_compute; discriminate].
Qed.

(** C7 (amended): on every reply that is processed without exception (its
    scores a mapping without NaN or infinite values, its issues iterable), a
    [recommendations] value that is a single string is wrapped into a
    one-element list; any other value is passed through unchanged, whatever
    its elements are; a missing key gives the empty list. *)
Theorem recommendations_wrapped (py_str : json -> string) (self : CodeAnalyzer)
  (raw : dict json) :
  processable raw = true ->
  exists r,
    _process_analysis_result py_str self (JDict raw) = Ok r
    /\ (dict_get "recommendations" raw = None -> recommendations r = JList [])
    /\ forall v,
         dict_get "recommendations" raw = Some v ->
         (forall s, v = JStr s -> recommendations r = JList [JStr s])
         /\ (is_json_string v = false -> recommendations r = v).
Proof.
  intros Hp.
  destruct (process_returns py_str self raw Hp) as [ns [entries [_ [_ Hr]]]].
  eexists. split; [exact Hr |]. simpl. unfold dict_get_default. split.
  - intros ->. reflexivity.
  - intros v ->. split.
    + intros s ->. reflexivity.
    + destruct v; simpl; try reflexivity. discriminate.
Qed.

Lemma recommendations_wrapped_witness :
  exists r,
    _process_analysis_result Samples.str Samples.self (JDict Samples.reply_72) = Ok r
    /\ recommendations r = JList [JStr "fix it"].
Proof.
  destruct (recommendations_wrapped Samples.str Samples.self Samples.reply_72 eq_refl)
    as [r [Hr [_ Hv]]].
  exists r. split; [exact Hr |].
  destruct (Hv (JStr "fix it") eq_refl) as [Hwrap _].
  apply Hwrap. reflexivity.
Defined.

(** ** Issues *)

Lemma mapping_entries_filter l :
  map JDict (mapping_entries l) = filter is_mapping l.
Proof.
  induction l as [| v l IH]; simpl; [reflexivity |].
  destruct v; simpl; try exact IH. now rewrite IH.
Qed.

(** C5: on a sequence of raw issues, validation returns one record per
    mapping entry, in the original order, and nothing for the other entries;
    in each record a [type] outside Quality, Security, Performance has
    become Quality and a [severity] outside Low, Medium, High, Critical has
    become Medium, while known values are kept. *)
Theorem validate_issues_reshapes (py_str : json -> string) (self : CodeAnalyzer)
  (l : list json) :
  _validate_issues py_str self (JList l)
  = Ok (map (validate_issue py_str) (mapping_entries l))
  /\ map JDict (mapping_entries l) = filter is_mapping l
  /\ forall issue,
       let type := dict_get_default "type" (JStr "Quality") issue in
       let severity := dict_get_default "severity" (JStr "Medium") issue in
       let validated := validate_issue py_str issue in
       (in_strings type known_types = true -> issue_type validated = type)
       /\ (in_strings type known_types = false ->
           issue_type validated = JStr "Quality")
       /\ (in_strings severity known_severities = true ->
           issue_severity validated = severity)
       /\ (in_strings severity known_severities = false ->
           issue_severity validated = JStr "Medium").
Proof.
  split; [| split].
  - unfold _validate_issues. simpl. now rewrite validate_loop_app.
  - apply mapping_entries_filter.
  - intros issue. unfold validate_issue. simpl.
    repeat split; intros ->; reflexivity.
Qed.

Lemma validate_issues_reshapes_witness :
  _validate_issues Samples.str Samples.self
    (JList [JStr "oops";
            JDict [("type", JStr "Unknown"); ("severity", JStr "Blocker");
                   ("description", JStr "d")];
            JInt 3;
            JDict [("type", JStr "Security"); ("severity", JStr "Critical");
                   ("line", JInt 12)]])
  = Ok [mk_issue (JStr "Quality") (JStr "Medium") "d" JNull JNull;
        mk_issue (JStr "Security") (JStr "Critical") "No description provided"
                 (JInt 12) JNull].
Proof.
  destruct (validate_issues_reshapes Samples.str Samples.self
              [JStr "oops";
               JDict [("type", JStr "Unknown"); ("severity", JStr "Blocker");
                      ("description", JStr "d")];
               JInt 3;
               JDict [("type", JStr "Security"); ("severity", JStr "Critical");
                      ("line", JInt 12)]]) as [H _].
  exact H.
Defined.

(** ** The error result *)

(** C6: the error result has overall score 0, the three scores 0, exactly
    one issue (type Quality, severity High, description "Analysis failed: "
    followed by the message, no line, no code), the two fixed
    recommendations, and the summary "Analysis failed due to: " followed by
    the message. *)
Theorem create_error_result_shape (self : CodeAnalyzer) (message : string) :
  let r := _create_error_result self message in
  overall_score r = JInt 0
  /\ scores r = [("Quality", 0); ("Security", 0); ("Performance", 0)]
  /\ issues r = [mk_issue (JStr "Quality") (JStr "High")
                          ("Analysis failed: " ++ message) JNull JNull]
  /\ recommendations r
     = JList [JStr "Please check your code syntax and try again";
              JStr "Ensure your OpenAI API key is valid and has sufficient credits"]
  /\ summary r = JStr ("Analysis failed due to: " ++ message).
Proof.
  repeat split.
Qed.

(** ** The prompt builder *)

Lemma analysis_aspects_enabled sec perf style :
  analysis_aspects sec perf style = enabled_aspects sec perf style.
Proof.
  destruct sec, perf, style; reflexivity.
Qed.

Lemma extension_map_nonempty ext language :
  dict_get ext extension_map = Some language -> language <> EmptyString.
Proof.
  intros H. apply dict_get_In in H. simpl in H.
  repeat (destruct H as [[= _ <-] | H]; [discriminate |]).
  destruct H.
Qed.

(** C8: the user prompt names the enabled aspects, joined by commas, in the
    fixed order style, security, performance; with no aspect enabled the
    joined list is empty and the prompt keeps its shape, with the code in a
    fenced block labelled with the detected language, which is "python"
    when the extension of the file name is not in the extension map. *)
Theorem build_analysis_prompt_shape (self : CodeAnalyzer) (code filename : string)
  (include_security include_performance include_style : bool) :
  let language := detect_language self filename in
  _build_analysis_prompt self code language filename
    include_security include_performance include_style
  = "Please analyze this " ++ language ++ " code file (" ++ filename ++ ") for "
      ++ join ", " (enabled_aspects include_security include_performance include_style)
      ++ "." ++ nl ++ nl
      ++ "Code to analyze:" ++ nl
      ++ "```" ++ language ++ nl ++ code ++ nl ++ "```" ++ nl
      ++ prompt_footer
  /\ join ", " (enabled_aspects false false false) = EmptyString
  /\ (get_file_extension_language (config self) filename = None ->
      language = "python")
  /\ (forall known,
         get_file_extension_language (config self) filename = Some known ->
         language = known).
Proof.
  simpl. split; [| split; [| split]].
  - unfold _build_analysis_prompt. now rewrite analysis_aspects_enabled.
  - reflexivity.
  - unfold detect_language. now intros ->.
  - intros known H. unfold detect_language. rewrite H.
    apply extension_map_nonempty in H.
    destruct known; [congruence | reflexivity].
Qed.

Lemma build_analysis_prompt_shape_witness :
  detect_language Samples.self "notes.txt" = "python"
  /\ detect_language Samples.self "src/Main.JAVA" = "java"
  /\ join ", " (enabled_aspects true true true)
     = "code quality and style, security vulnerabilities, performance optimization".
Proof.
  destruct (build_analysis_prompt_shape Samples.self "x = 1" "notes.txt"
              false false false) as [_ [_ [Hpy _]]].
  destruct (build_analysis_prompt_shape Samples.self "x = 1" "src/Main.JAVA"
              true true true) as [_ [_ [_ Hknown]]].
  split; [apply Hpy; reflexivity |].
  split; [apply Hknown; reflexivity | reflexivity].
Defined.

(** ** Failure handling of [analyze_code] *)

Lemma dict_set_present {V : Type} (k : string) (v : V) (d : dict V) :
  In k (dict_keys d) -> dict_keys (dict_set k v d) = dict_keys d.
Proof.
  induction d as [| [k0 v0] d IH]; simpl; [tauto |].
  destruct (String.eqb_spec k k0) as [-> | Hne]; [reflexivity |].
  intros [E | Hin]; [congruence |]. simpl. now rewrite IH.
Qed.

Lemma normalize_loop_keys_fixed items :
  forall normalized ns,
    forallb (fun kv => negb (is_number (snd kv))
                       || existsb (String.eqb (fst kv)) (dict_keys normalized))
            items = true ->
    normalize_loop items normalized = Ok ns ->
    dict_keys ns = dict_keys normalized.
Proof.
  induction items as [| [key value] rest IH]; intros normalized ns; simpl.
  - now intros _ [= <-].
  - rewrite andb_true_iff. intros [Hkey Hrest].
    destruct (is_number value); simpl in Hkey.
    + destruct (py_round value) as [n | e]; simpl; [| discriminate].
      apply existsb_exists in Hkey. destruct Hkey as [k' [Hin Heq]].
      apply String.eqb_eq in Heq. subst k'.
      intros H. rewrite <- (dict_set_present key (clamp n) normalized Hin).
      apply IH; [| exact H].
      now rewrite (dict_set_present key (clamp n) normalized Hin).
    + now apply IH.
Qed.

Lemma validate_issue_well_typed (py_str : json -> string) (issue : dict json) :
  issue_well_typed (validate_issue py_str issue) = true.
Proof.
  unfold issue_well_typed, validate_issue. simpl.
  destruct (in_strings (dict_get_default "type" (JStr "Quality") issue) known_types)
    eqn:Et;
    destruct (in_strings (dict_get_default "severity" (JStr "Medium") issue)
                         known_severities) eqn:Es;
    simpl; rewrite ?Et, ?Es; reflexivity.
Qed.

Lemma validate_loop_well_typed (py_str : json -> string) (entries : list json) :
  forallb issue_well_typed (validate_loop py_str entries []) = true.
Proof.
  rewrite validate_loop_app. simpl.
  apply forallb_forall. intros i Hi.
  apply in_map_iff in Hi. destruct Hi as [d [<- _]].
  apply validate_issue_well_typed.
Qed.

(** C3: the code departs from the claim on the reply
    {"overall_score": "high"}, which is valid JSON with a wrong-typed field.
    It is processed without any exception and the result carries the string
    "high" as its overall score: the result is not structurally valid,
    although each of its other fields is.  The score class of the display
    and the statistics of the history then raise TypeError on it. *)
Theorem analyze_code_keeps_bad_overall :
  let r :=
    analyze_code Samples.str Samples.loads
      (Samples.analyzer Samples.bad_overall) "x = 1" "a.py" true true true in
  Samples.loads Samples.bad_overall = Ok (JDict [("overall_score", JStr "high")])
  /\ overall_score r = JStr "high"
  /\ structurally_valid r = false
  /\ scores r = default_scores
  /\ issues r = []
  /\ recommendations r = JList []
  /\ summary r = JStr "Analysis completed"
  /\ get_score_class (overall_score r)
     = Raise (mk_exn TypeError
                "'>=' not supported between instances of 'str' and 'int'")
  /\ get_statistics (add_analysis new_history "2025-01-01T10:00:00" "a.py" r)
     = Raise (mk_exn TypeError
                "unsupported operand type(s) for +: 'int' and 'str'").
Proof.
  cbv zeta. repeat split; vm_compute; reflexivity.
Qed.

(** X30: [analyze_code] turns every exception raised by the remote call, by
    [json.loads] or while the reply is processed into the error result,
    which is structurally valid; a reply on which [json.loads] raises
    JSONDecodeError yields the error result with overall score 0 and
    exactly one issue, of severity High; a processable reply is returned as
    processed, and is structurally valid when its overall score is a number
    or is recomputed, its recommendations are a string or a list, its
    summary is a string and its scores hold numbers only under the three
    known keys. *)
Theorem analyze_code_degrades (py_str : json -> string)
  (json_loads : string -> result json) (self : CodeAnalyzer)
  (code filename : string)
  (include_security include_performance include_style : bool) :
  let prompt :=
    _build_analysis_prompt self code (detect_language self filename) filename
      include_security include_performance include_style in
  let reply :=
    client self (model (config self)) (_get_system_prompt self) prompt
           (max_tokens (config self)) (temperature (config self)) in
  let r :=
    analyze_code py_str json_loads self code filename
      include_security include_performance include_style in
  (forall e,
      analyze_try py_str json_loads self prompt = Raise e ->
      exists message,
        r = _create_error_result self message
        /\ structurally_valid r = true)
  /\ (forall text message,
         reply = Ok (Some text) ->
         json_loads text = Raise (mk_exn JSONDecodeError message) ->
         r = _create_error_result self ("Failed to parse AI response: " ++ message)
         /\ overall_score r = JInt 0
         /\ exists i, issues r = [i] /\ issue_severity i = JStr "High")
  /\ (forall text raw,
         reply = Ok (Some text) ->
         json_loads text = Ok (JDict raw) ->
         processable raw = true ->
         _process_analysis_result py_str self (JDict raw) = Ok r
         /\ (well_typed_fields raw = true -> structurally_valid r = true)).
Proof.
  cbv zeta. unfold analyze_code. split; [| split].
  - intros e ->. unfold analyze_except.
    destruct (exn_cls e); eexists; split; reflexivity.
  - intros text message Hreply Hloads.
    unfold analyze_try. rewrite Hreply. simpl. rewrite Hloads. simpl.
    split; [reflexivity |]. split; [reflexivity |].
    eexists. split; reflexivity.
  - intros text raw Hreply Hloads Hp.
    unfold analyze_try. rewrite Hreply. cbn [bind]. rewrite Hloads. cbn [bind].
    destruct (process_returns py_str self raw Hp) as [ns [entries [Hns [_ Hr]]]].
    rewrite Hr. split; [reflexivity |].
    unfold well_typed_fields, structurally_valid. simpl.
    rewrite !andb_true_iff. intros [[[Ho Hk] Hrec] Hsum].
    repeat split.
    + destruct (needs_overall _) eqn:En; [reflexivity |].
      unfold needs_overall in En. rewrite En in Ho. exact Ho.
    + destruct (dict_get_default "scores" (JDict []) raw)
        as [| | | | | | items]; try discriminate.
      simpl in Hns.
      rewrite (normalize_loop_keys_fixed items default_scores ns Hk Hns).
      reflexivity.
    + apply validate_loop_well_typed.
    + destruct (dict_get_default "recommendations" (JList []) raw);
        simpl in *; congruence.
    + exact Hsum.
Qed.

Lemma analyze_code_degrades_witness :
  let r :=
    analyze_code Samples.str Samples.loads (Samples.analyzer Samples.not_json)
      "x = 1" "a.py" true true true in
  overall_score r = JInt 0
  /\ exists i, issues r = [i] /\ issue_severity i = JStr "High".
Proof.
  destruct (analyze_code_degrades Samples.str Samples.loads
              (Samples.analyzer Samples.not_json) "x = 1" "a.py" true true true)
    as [_ [Hparse _]].
  destruct (Hparse Samples.not_json
              "Expecting property name enclosed in double quotes: line 1 column 2 (char 1)"
              eq_refl eq_refl) as [_ H].
  exact H.
Defined.

(** ** The analysis history *)

Lemma float_of_int_class n e :
  float_of_int n = Raise e -> exn_cls e = OverflowError.
Proof.
  unfold float_of_int. destruct (Float64.of_Z n); try discriminate.
  now intros [= <-].
Qed.

(** Adding to a number: the sum is a number again, and what can be raised
    is a TypeError (the item is not a number) or an OverflowError (an int
    too large for a float). *)
Lemma py_add_number acc item :
  is_number acc = true ->
  match py_add acc item with
  | Ok acc' => is_number item = true /\ is_number acc' = true
  | Raise e =>
      (is_number item = false -> exn_cls e = TypeError)
      /\ (exn_cls e = TypeError \/ exn_cls e = OverflowError)
  end.
Proof.
  intros Hacc. unfold py_add.
  destruct acc as [| a | a | a | a | a | a]; try discriminate;
    destruct item as [| b | b | b | b | b | b]; simpl; auto;
    match goal with
    | |- context [float_of_int ?n] =>
        destruct (float_of_int n) as [x | e] eqn:E; simpl; auto;
        apply float_of_int_class in E; split; [discriminate | auto]
    end.
Qed.

Lemma sum_from_raises items :
  forall acc,
    is_number acc = true ->
    Exists (fun v => is_number v = false) items ->
    exists e,
      sum_from acc items = Raise e
      /\ (exn_cls e = TypeError \/ exn_cls e = OverflowError).
Proof.
  induction items as [| item rest IH]; intros acc Hacc Hex.
  - inversion Hex.
  - simpl. pose proof (py_add_number acc item Hacc) as Hadd.
    destruct (py_add acc item) as [acc' | e]; simpl.
    + destruct Hadd as [Hitem Hacc'].
      apply IH; [exact Hacc' |].
      inversion Hex; subst; [congruence | assumption].
    + exists e. split; [reflexivity | tauto].
Qed.

Lemma sum_from_zero items :
  Forall (fun v => v = JInt 0) items -> sum_from (JInt 0) items = Ok (JInt 0).
Proof.
  induction 1 as [| v rest Hv _ IH]; simpl; [reflexivity |].
  subst v. exact IH.
Qed.

(** X1: the statistics of an empty history hold the count 0 and nothing
    else; after [add_analysis], statistics that are returned hold the number
    of stored analyses, an average, and the timestamp of the analysis added
    last, and the earlier entries are still there, unchanged and in order. *)
Theorem statistics_count_latest (self : AnalysisHistory) (now filename : string)
  (results : AnalysisResult) :
  get_statistics new_history = Ok [("total_analyses", JInt 0)]
  /\ history (add_analysis self now filename results)
     = (history self ++ [mk_entry now filename results])%list
  /\ forall stats,
       get_statistics (add_analysis self now filename results) = Ok stats ->
       exists average,
         stats = [("total_analyses", JInt (Z.of_nat (List.length (history self)) + 1));
                  ("average_score", JFloat average);
                  ("latest_analysis", JStr now)].
Proof.
  split; [reflexivity |]. split; [reflexivity |].
  intros stats. unfold get_statistics, add_analysis. simpl.
  destruct (history self ++ [mk_entry now filename results])%list
    as [| first rest] eqn:E.
  { destruct (history self); discriminate. }
  rewrite <- E. clear E.
  destruct (py_sum _) as [s | e]; simpl; [| discriminate].
  destruct (py_truediv _ _) as [avg | e]; simpl; [| discriminate].
  intros [= <-]. eexists.
  rewrite last_last, length_app. simpl.
  rewrite Nat2Z.inj_add. reflexivity.
Qed.

(** X2: [get_statistics] raises, with a TypeError or an OverflowError,
    whenever one stored result has an overall score that is not a number:
    the statistics of a history are lost as soon as it holds one such
    result. *)
Theorem statistics_raise_on_non_number (self : AnalysisHistory) :
  Exists (fun r => is_number (overall_score (entry_results r)) = false)
         (history self) ->
  exists e,
    get_statistics self = Raise e
    /\ (exn_cls e = TypeError \/ exn_cls e = OverflowError).
Proof.
  intros Hex. unfold get_statistics.
  destruct (history self) as [| first rest] eqn:E; [inversion Hex |].
  rewrite <- E in *. clear E.
  destruct (sum_from_raises
              (map (fun r => overall_score (entry_results r)) (history self))
              (JInt 0) eq_refl) as [e [He Hc]].
  { apply Exists_exists in Hex. destruct Hex as [r [Hin Hr]].
    apply Exists_exists. exists (overall_score (entry_results r)).
    split; [| exact Hr].
    apply in_map_iff. eauto. }
  exists e. unfold py_sum. rewrite He. simpl. auto.
Qed.

(** A result that [analyze_code] returns, put into a history, is enough. *)
Lemma statistics_raise_on_non_number_witness :
  exists e,
    get_statistics
      (add_analysis
         (add_analysis new_history "2025-01-01T10:00:00" "ok.py"
            (mk_result (JInt 7) default_scores [] (JList []) (JStr "fine")))
         "2025-01-01T10:05:00" "a.py"
         (analyze_code Samples.str Samples.loads
            (Samples.analyzer Samples.bad_overall) "x = 1" "a.py" true true true))
    = Raise e
    /\ (exn_cls e = TypeError \/ exn_cls e = OverflowError).
Proof.
  apply statistics_raise_on_non_number.
  apply Exists_cons_tl. apply Exists_cons_hd. reflexivity.
Defined.

Lemma statistics_count_latest_witness :
  exists average,
    get_statistics
      (add_analysis
         (add_analysis new_history "2025-01-01T10:00:00" "ok.py"
            (mk_result (JInt 7) default_scores [] (JList []) (JStr "fine")))
         "2025-01-01T10:05:00" "b.py"
         (mk_result (JInt 4) default_scores [] (JList []) (JStr "poor")))
    = Ok [("total_analyses", JInt 2);
          ("average_score", JFloat average);
          ("latest_analysis", JStr "2025-01-01T10:05:00")].
Proof.
  destruct (statistics_count_latest
              (add_analysis new_history "2025-01-01T10:00:00" "ok.py"
                 (mk_result (JInt 7) default_scores [] (JList []) (JStr "fine")))
              "2025-01-01T10:05:00" "b.py"
              (mk_result (JInt 4) default_scores [] (JList []) (JStr "poor")))
    as [_ [_ H]].
  destruct (H _ eq_refl) as [average Ha].
  exists average. injection Ha as <-. reflexivity.
Defined.

Lemma last_default_irrelevant {A : Type} (l : list A) (d1 d2 : A) :
  l <> [] -> last l d1 = last l d2.
Proof.
  induction l as [| a l IH]; [congruence |]. intros _.
  destruct l as [| b l]; [reflexivity |].
  change (last (b :: l) d1 = last (b :: l) d2).
  apply IH. discriminate.
Qed.

(** X3: a history that holds only results with overall score 0, as every
    error result has, is never an obstacle: the statistics are returned,
    with the number of analyses, the average 0.0 and the timestamp of the
    last entry. *)
Theorem statistics_of_failures (self : AnalysisHistory) (first : HistoryEntry) :
  history self <> [] ->
  Forall (fun r => overall_score (entry_results r) = JInt 0) (history self) ->
  get_statistics self
  = Ok [("total_analyses", JInt (Z.of_nat (List.length (history self))));
        ("average_score", JFloat (S754_zero false));
        ("latest_analysis",
         JStr (entry_timestamp (last (history self) first)))].
Proof.
  intros Hne Hall. unfold get_statistics.
  destruct (history self) as [| e0 rest] eqn:E; [congruence |].
  rewrite <- E in *.
  unfold py_sum. rewrite sum_from_zero.
  - simpl. rewrite E. simpl.
    destruct (Z.pos (Pos.of_succ_nat (List.length rest))) eqn:En;
      try discriminate; simpl.
    repeat f_equal.
    exact (last_default_irrelevant (e0 :: rest) e0 first ltac:(discriminate)).
  - rewrite Forall_forall in *. intros v Hv.
    apply in_map_iff in Hv. destruct Hv as [r [<- Hr]]. auto.
Qed.

Lemma statistics_of_failures_witness :
  get_statistics
    (add_analysis
       (add_analysis new_history "2025-01-01T10:00:00" "a.py"
          (_create_error_result Samples.self "Analysis failed: timeout"))
       "2025-01-01T10:05:00" "b.py"
       (_create_error_result Samples.self "Failed to parse AI response: x"))
  = Ok [("total_analyses", JInt 2);
        ("average_score", JFloat (S754_zero false));
        ("latest_analysis", JStr "2025-01-01T10:05:00")].
Proof.
  apply (statistics_of_failures
           (add_analysis
              (add_analysis new_history "2025-01-01T10:00:00" "a.py"
                 (_create_error_result Samples.self "Analysis failed: timeout"))
              "2025-01-01T10:05:00" "b.py"
              (_create_error_result Samples.self "Failed to parse AI response: x"))
           no_entry).
  - discriminate.
  - repeat constructor.
Defined.

(** ** More on score normalisation *)

Lemma dict_set_fresh {V : Type} (k : string) (v : V) (d : dict V) :
  ~ In k (dict_keys d) -> dict_set k v d = (d ++ [(k, v)])%list.
Proof.
  induction d as [| [k0 v0] d IH]; simpl; [reflexivity |].
  intros Hnot.
  destruct (String.eqb_spec k k0) as [-> | Hne]; [tauto |].
  rewrite IH; tauto.
Qed.

(** Writing back, in order, entries whose keys are new appends them. *)
Lemma normalize_loop_appends (rest : dict Z) :
  forall acc : dict Z,
    NoDup (dict_keys acc ++ dict_keys rest) ->
    Forall in_range (map snd rest) ->
    normalize_loop (map (fun kv => (fst kv, JInt (snd kv))) rest) acc
    = Ok (acc ++ rest)%list.
Proof.
  induction rest as [| [k v] rest IH]; intros acc Hnd Hr; simpl.
  - now rewrite app_nil_r.
  - inversion Hr as [| ? ? Hv Hr']; subst. simpl in Hv.
    rewrite (clamp_id v Hv).
    assert (Hfresh : ~ In k (dict_keys acc)).
    { simpl in Hnd. apply NoDup_remove_2 in Hnd.
      intros Hin. apply Hnd. apply in_or_app. now left. }
    rewrite (dict_set_fresh k v acc Hfresh).
    rewrite IH; [now rewrite <- app_assoc | | exact Hr'].
    unfold dict_keys in *. rewrite map_app. simpl.
    rewrite <- app_assoc. exact Hnd.
Qed.

Lemma dict_set_NoDup {V : Type} (k : string) (v : V) (d : dict V) :
  NoDup (dict_keys d) -> NoDup (dict_keys (dict_set k v d)).
Proof.
  induction d as [| [k0 v0] d IH]; simpl; intros Hnd.
  - repeat constructor. tauto.
  - inversion Hnd as [| ? ? Hfresh Hnd']; subst.
    destruct (String.eqb_spec k k0) as [-> | Hne]; simpl.
    + now constructor.
    + constructor; [| auto].
      rewrite dict_keys_set. intros [E | Hin]; [congruence | tauto].
Qed.

Lemma normalize_loop_NoDup items :
  forall normalized ns,
    NoDup (dict_keys normalized) ->
    normalize_loop items normalized = Ok ns ->
    NoDup (dict_keys ns).
Proof.
  induction items as [| [key value] rest IH]; intros normalized ns Hnd; simpl.
  - now intros [= <-].
  - destruct (is_number value); [| now apply IH].
    destruct (py_round value) as [n | e]; simpl; [| discriminate].
    apply IH. now apply dict_set_NoDup.
Qed.

(** X4: score normalisation is idempotent: a mapping it has returned, read
    again as a raw [scores] value, is returned unchanged, keys, values and
    order. *)
Theorem normalize_scores_idempotent (self : CodeAnalyzer) (scores : json)
  (ns : dict Z) :
  _normalize_scores self scores = Ok ns ->
  _normalize_scores self (scores_to_json ns) = Ok ns.
Proof.
  destruct scores as [| | | | | | items]; simpl; try discriminate.
  intros Hns.
  pose proof (normalize_loop_NoDup items default_scores ns) as Hnd.
  pose proof (normalize_loop_range items default_scores ns) as Hr.
  destruct (normalize_loop_extends items default_scores ns Hns) as [extra He].
  assert (Hnd' : NoDup (dict_keys ns)).
  { apply Hnd; [| exact Hns]. simpl.
    repeat constructor; simpl; intuition discriminate. }
  assert (Hr' : Forall in_range (map snd ns)).
  { apply Hr; [| exact Hns].
    repeat constructor; unfold in_range; simpl; lia. }
  clear Hnd Hr Hns.
  destruct ns as [| [k1 a] [| [k2 b] [| [k3 c] rest]]]; try discriminate.
  simpl in He. injection He as -> -> -> _.
  inversion Hr' as [| ? ? Ha Hr1]; subst.
  inversion Hr1 as [| ? ? Hb Hr2]; subst.
  inversion Hr2 as [| ? ? Hc Hr3]; subst.
  simpl in Ha, Hb, Hc. simpl.
  rewrite (clamp_id a Ha), (clamp_id b Hb), (clamp_id c Hc).
  apply (normalize_loop_appends rest
           [("Quality", a); ("Security", b); ("Performance", c)]);
    assumption.
Qed.

Lemma normalize_scores_idempotent_witness :
  _normalize_scores Samples.self
    (scores_to_json
       [("Quality", 8); ("Security", 5); ("Performance", 10); ("Style", 7)])
  = Ok [("Quality", 8); ("Security", 5); ("Performance", 10); ("Style", 7)].
Proof.
  apply (normalize_scores_idempotent Samples.self
           (JDict [("Style", JInt 7);
                   ("Quality", JFloat Samples.seven_and_a_half);
                   ("Security", JStr "x"); ("Performance", JInt 40)])).
  reflexivity.
Defined.

Lemma normalize_loop_first_bad (pre : dict json) :
  forall normalized key x post e,
    forallb (fun kv => value_finite (snd kv)) pre = true ->
    Float64.round_int x = Raise e ->
    normalize_loop (pre ++ (key, JFloat x) :: post)%list normalized = Raise e.
Proof.
  induction pre as [| [k v] pre IH]; intros normalized key x post e; simpl.
  - intros _ ->. reflexivity.
  - rewrite andb_true_iff. intros [Hv Hpre] Hx.
    destruct (is_number v) eqn:Hnum; [| now apply IH].
    destruct (proj2 (py_round_returns v Hnum) Hv) as [n ->]. simpl.
    now apply IH.
Qed.

(** X5: score normalisation returns exactly on the mappings without NaN and
    without infinite values.  Otherwise the first such value, in the order
    of the mapping, decides the exception: a ValueError for NaN, an
    OverflowError for an infinity; nothing after it is looked at. *)
Theorem normalize_scores_failure (self : CodeAnalyzer) :
  (forall scores,
      (exists ns, _normalize_scores self scores = Ok ns) <-> scores_ok scores = true)
  /\ forall pre key x post,
       scores_ok (JDict pre) = true ->
       Float64.is_finite x = false ->
       exists e,
         _normalize_scores self (JDict (pre ++ (key, JFloat x) :: post)%list) = Raise e
         /\ (x = S754_nan ->
             e = mk_exn ValueError "cannot convert float NaN to integer")
         /\ (forall s,
                x = S754_infinity s ->
                e = mk_exn OverflowError "cannot convert float infinity to integer").
Proof.
  split.
  - intros scores. destruct scores as [| | | | | | items]; simpl;
      try (split; [intros [ns H] |]; discriminate).
    apply normalize_loop_returns.
  - intros pre key x post Hpre Hx. simpl in Hpre.
    destruct x as [s | s | | s m e]; try discriminate; simpl.
    + eexists. split; [apply normalize_loop_first_bad; [exact Hpre | reflexivity] |].
      split; [discriminate |]. intros s' _. reflexivity.
    + eexists. split; [apply normalize_loop_first_bad; [exact Hpre | reflexivity] |].
      split; [reflexivity |]. discriminate.
Qed.

Lemma normalize_scores_failure_witness :
  _normalize_scores Samples.self
    (JDict [("Quality", JInt 8); ("Security", JFloat (S754_infinity false));
            ("Performance", JFloat S754_nan)])
  = Raise (mk_exn OverflowError "cannot convert float infinity to integer").
Proof.
  destruct (normalize_scores_failure Samples.self) as [_ H].
  destruct (H [("Quality", JInt 8)] "Security" (S754_infinity false)
              [("Performance", JFloat S754_nan)] eq_refl eq_refl)
    as [e [He [_ Hinf]]].
  rewrite (Hinf false eq_refl) in He. exact He.
Defined.

(** X6: a JSON boolean counts as a number: under any key of a raw scores
    mapping, [true] is normalised to 1, and so is [false], clamped from 0. *)
Theorem normalize_scores_boolean (self : CodeAnalyzer) (items : dict json)
  (k : string) (b : bool) :
  NoDup (dict_keys items) ->
  scores_ok (JDict items) = true ->
  dict_get k items = Some (JBool b) ->
  exists ns,
    _normalize_scores self (JDict items) = Ok ns
    /\ dict_get k ns = Some 1.
Proof.
  intros Hnd Hok Hk. simpl in Hok.
  apply (normalize_loop_returns items default_scores) in Hok.
  destruct Hok as [ns Hns]. exists ns. split; [exact Hns |].
  pose proof (normalize_loop_get _ _ _ Hnd Hns k) as Hget.
  rewrite Hk in Hget. simpl in Hget.
  destruct Hget as [n [[= <-] Hget]]. rewrite Hget.
  destruct b; reflexivity.
Qed.

Lemma normalize_scores_boolean_witness :
  exists ns,
    _normalize_scores Samples.self
      (JDict [("Quality", JBool true); ("Security", JBool false)]) = Ok ns
    /\ dict_get "Quality" ns = Some 1
    /\ dict_get "Security" ns = Some 1.
Proof.
  assert (Hnd : NoDup (dict_keys [("Quality", JBool true); ("Security", JBool false)])).
  { repeat constructor; simpl; intuition discriminate. }
  destruct (normalize_scores_boolean Samples.self _ "Quality" true Hnd eq_refl eq_refl)
    as [ns [Hns Hq]].
  destruct (normalize_scores_boolean Samples.self _ "Security" false Hnd eq_refl eq_refl)
    as [ns' [Hns' Hs]].
  exists ns. split; [exact Hns |]. split; [exact Hq |].
  rewrite Hns in Hns'. injection Hns' as <-. exact Hs.
Defined.

(** ** What every result of [analyze_code] satisfies *)

Section AnalyzeFacts.
Variable py_str : json -> string.
Variable json_loads : string -> result json.

(** A processed result comes from a processable mapping. *)
Lemma process_inversion (self : CodeAnalyzer) (v : json) (r : AnalysisResult) :
  _process_analysis_result py_str self v = Ok r ->
  exists raw ns entries,
    v = JDict raw
    /\ processable raw = true
    /\ _normalize_scores self (dict_get_default "scores" (JDict []) raw) = Ok ns
    /\ scores r = ns
    /\ issues r = validate_loop py_str entries []
    /\ is_json_string (recommendations r) = false.
Proof.
  destruct v as [| | | | | | raw]; try discriminate.
  intros Hr. destruct (processable raw) eqn:Hp.
  - destruct (process_returns py_str self raw Hp) as [ns [entries [Hns [_ Heq]]]].
    rewrite Heq in Hr. injection Hr as <-.
    exists raw, ns, entries. repeat split; try assumption. simpl.
    destruct (dict_get_default "recommendations" (JList []) raw); reflexivity.
  - destruct (process_raises py_str self raw Hp) as [e He]. congruence.
Qed.

(** Processing raises an AttributeError, a TypeError, a ValueError or an
    OverflowError, never a JSONDecodeError. *)
Lemma process_exception_class (self : CodeAnalyzer) (v : json) (e : exn) :
  _process_analysis_result py_str self v = Raise e ->
  exn_cls e <> JSONDecodeError.
Proof.
  destruct v as [| | | | | | raw]; simpl; try (intros [= <-]; discriminate).
  unfold _normalize_scores.
  destruct (dict_get_default "scores" (JDict []) raw) as [| | | | | | items];
    simpl; try (intros [= <-]; discriminate).
  destruct (normalize_loop items default_scores) as [ns | e0] eqn:Hns; simpl.
  - unfold _validate_issues.
    destruct (dict_get_default "issues" (JList []) raw); simpl;
      try discriminate; intros [= <-]; discriminate.
  - intros [= <-]. clear - Hns. revert Hns. generalize default_scores.
    induction items as [| [k x] items IH]; intros d; simpl; [discriminate |].
    destruct (is_number x); [| apply IH].
    destruct (py_round x) as [n | e1] eqn:Hr; simpl; [apply IH |].
    intros [= <-].
    destruct x as [| | | f | | |]; simpl in Hr; try discriminate;
      try (injection Hr as <-; discriminate).
    destruct f; simpl in Hr; try discriminate; injection Hr as <-; discriminate.
Qed.

(** X7: whatever the remote model answers and whatever is raised on the way,
    the result of [analyze_code] holds an integer between 0 and 10 under
    each of the keys Quality, Security and Performance, only issues with a
    known type and a known severity, and recommendations that are not a bare
    string; it is the error result, or all its scores lie in [1,10]. *)
Theorem analyze_code_result_invariant (self : CodeAnalyzer)
  (code filename : string)
  (include_security include_performance include_style : bool) :
  let r :=
    analyze_code py_str json_loads self code filename
      include_security include_performance include_style in
  (forall k, In k known_types ->
             exists n, dict_get k (scores r) = Some n /\ 0 <= n <= 10)
  /\ forallb issue_well_typed (issues r) = true
  /\ is_json_string (recommendations r) = false
  /\ ((exists message, r = _create_error_result self message)
      \/ Forall in_range (map snd (scores r))).
Proof.
  cbv zeta. unfold analyze_code.
  destruct (analyze_try py_str json_loads self _) as [r | e] eqn:Htry.
  - unfold analyze_try in Htry.
    destruct (client self _ _ _ _ _) as [[text |] | e]; simpl in Htry;
      try discriminate.
    destruct (json_loads text) as [v | e]; simpl in Htry; try discriminate.
    destruct (process_inversion self v r Htry)
      as [raw [ns [entries [_ [_ [Hns [Hs [Hi Hrec]]]]]]]].
    split; [| split; [| split]].
    + intros k Hk. rewrite Hs.
      destruct (normalize_scores_known self _ ns k Hns Hk) as [n [Hn Hr]].
      exists n. split; [exact Hn |]. unfold in_range in Hr. lia.
    + rewrite Hi. apply validate_loop_well_typed.
    + exact Hrec.
    + right. rewrite Hs.
      destruct (dict_get_default "scores" (JDict []) raw) as [| | | | | | items];
        try discriminate.
      apply (normalize_loop_range items default_scores ns); [| exact Hns].
      repeat constructor; unfold in_range; simpl; lia.
  - unfold analyze_except.
    assert (H : forall message,
               let r := _create_error_result self message in
               (forall k, In k known_types ->
                          exists n, dict_get k (scores r) = Some n /\ 0 <= n <= 10)
               /\ forallb issue_well_typed (issues r) = true
               /\ is_json_string (recommendations r) = false
               /\ ((exists message, r = _create_error_result self message)
                   \/ Forall in_range (map snd (scores r)))).
    { intros message. cbv zeta. split; [| split; [| split]].
      - simpl. intros k [<- | [<- | [<- | []]]]; exists 0; split;
          try reflexivity; lia.
      - reflexivity.
      - reflexivity.
      - left. eauto. }
    destruct (exn_cls e); apply H.
Qed.

(** X8: a reply that cannot be processed ends in the error result.  An
    exception of the remote call, a reply without content and a parsed reply
    that is not a processable mapping all give the error result for the
    message "Analysis failed: " followed by the text of the exception, so
    that the description of its issue starts with "Analysis failed: " twice;
    only a JSONDecodeError gives the message "Failed to parse AI response: "
    instead. *)
Theorem analyze_code_failures (self : CodeAnalyzer) (code filename : string)
  (include_security include_performance include_style : bool) :
  let prompt :=
    _build_analysis_prompt self code (detect_language self filename) filename
      include_security include_performance include_style in
  let reply :=
    client self (model (config self)) (_get_system_prompt self) prompt
           (max_tokens (config self)) (temperature (config self)) in
  let r :=
    analyze_code py_str json_loads self code filename
      include_security include_performance include_style in
  let failed message :=
    r = _create_error_result self ("Analysis failed: " ++ message)
    /\ exists i,
         issues r = [i]
         /\ issue_description i = "Analysis failed: Analysis failed: " ++ message in
  (forall e, reply = Raise e -> exn_cls e <> JSONDecodeError -> failed (exn_msg e))
  /\ (reply = Ok None ->
      failed "the JSON object must be str, bytes or bytearray, not NoneType")
  /\ (forall text v,
         reply = Ok (Some text) ->
         json_loads text = Ok v ->
         is_mapping v = false ->
         failed ("'" ++ type_name v ++ "' object has no attribute 'get'"))
  /\ (forall text raw,
         reply = Ok (Some text) ->
         json_loads text = Ok (JDict raw) ->
         processable raw = false ->
         exists message, failed message).
Proof.
  cbv zeta. unfold analyze_code, analyze_try.
  assert (Hother : forall e,
             exn_cls e <> JSONDecodeError ->
             analyze_except self e
             = _create_error_result self ("Analysis failed: " ++ exn_msg e)).
  { intros e He. unfold analyze_except. destruct (exn_cls e); congruence. }
  split; [| split; [| split]].
  - intros e -> He. cbn [bind]. rewrite (Hother e He).
    split; [reflexivity |]. eexists. split; reflexivity.
  - intros ->. cbn [bind]. split; [reflexivity |]. eexists. split; reflexivity.
  - intros text v -> Hloads Hv. cbn [bind]. rewrite Hloads. cbn [bind].
    destruct v; try discriminate; simpl;
      (split; [reflexivity |]); eexists; split; reflexivity.
  - intros text raw -> Hloads Hp. cbn [bind]. rewrite Hloads. cbn [bind].
    destruct (process_raises py_str self raw Hp) as [e He]. rewrite He.
    exists (exn_msg e).
    rewrite (Hother e (process_exception_class self _ e He)).
    split; [reflexivity |]. eexists. split; reflexivity.
Qed.

(** ** More on the validation of issues *)

Lemma validate_loop_no_mapping entries :
  Forall (fun v => is_mapping v = false) entries ->
  forall valid_issues, validate_loop py_str entries valid_issues = valid_issues.
Proof.
  induction 1 as [| v rest Hv _ IH]; intros valid_issues; simpl; [reflexivity |].
  destruct v; try discriminate; apply IH.
Qed.

(** X9: an [issues] value that is not a list.  A string and a mapping are
    walked through, character by character and key by key, and give no
    issue at all; null, a boolean and a number are not iterable and raise a
    TypeError. *)
Theorem validate_issues_not_a_list (self : CodeAnalyzer) (v : json) :
  (forall s, v = JStr s -> _validate_issues py_str self v = Ok [])
  /\ (forall d, v = JDict d -> _validate_issues py_str self v = Ok [])
  /\ (iterable v = false ->
      _validate_issues py_str self v
      = Raise (mk_exn TypeError ("'" ++ type_name v ++ "' object is not iterable"))).
Proof.
  unfold _validate_issues. split; [| split].
  - intros s ->. simpl. f_equal. apply validate_loop_no_mapping.
    apply Forall_forall. intros x Hx.
    apply in_map_iff in Hx. destruct Hx as [c [<- _]]. reflexivity.
  - intros d ->. simpl. f_equal. apply validate_loop_no_mapping.
    apply Forall_forall. intros x Hx.
    apply in_map_iff in Hx. destruct Hx as [c [<- _]]. reflexivity.
  - destruct v; simpl; try discriminate; reflexivity.
Qed.

(** X10: every entry is validated on its own: the validation of two lists
    put end to end is the validation of the first followed by that of the
    second, and no list gives more issues than it has entries. *)
Theorem validate_issues_append (self : CodeAnalyzer) (l1 l2 : list json) :
  exists v1 v2,
    _validate_issues py_str self (JList l1) = Ok v1
    /\ _validate_issues py_str self (JList l2) = Ok v2
    /\ _validate_issues py_str self (JList (l1 ++ l2)) = Ok (v1 ++ v2)%list
    /\ (List.length v1 <= List.length l1)%nat.
Proof.
  unfold _validate_issues. simpl.
  exists (validate_loop py_str l1 []), (validate_loop py_str l2 []).
  repeat split.
  - rewrite !validate_loop_app. simpl. f_equal.
    induction l1 as [| v l1 IH]; simpl; [reflexivity |].
    destruct v; simpl; try exact IH. now rewrite IH.
  - rewrite validate_loop_app. simpl. rewrite length_map.
    induction l1 as [| v l1 IH]; simpl; [lia |].
    destruct v; simpl; lia.
Qed.

End AnalyzeFacts.

Lemma analyze_code_failures_witness :
  analyze_code Samples.str (fun _ => Ok (JList [JInt 1]))
    (Samples.analyzer "[1]") "x = 1" "a.py" true true true
  = _create_error_result (Samples.analyzer "[1]")
      "Analysis failed: 'list' object has no attribute 'get'".
Proof.
  destruct (analyze_code_failures Samples.str (fun _ => Ok (JList [JInt 1]))
              (Samples.analyzer "[1]") "x = 1" "a.py" true true true)
    as [_ [_ [H _]]].
  destruct (H "[1]" (JList [JInt 1]) eq_refl eq_refl eq_refl) as [Hr _].
  exact Hr.
Defined.

Lemma validate_issues_not_a_list_witness :
  _validate_issues Samples.str Samples.self (JStr "none") = Ok []
  /\ _validate_issues Samples.str Samples.self JNull
     = Raise (mk_exn TypeError "'NoneType' object is not iterable").
Proof.
  split.
  - destruct (validate_issues_not_a_list Samples.str Samples.self (JStr "none"))
      as [H _].
    exact (H "none" eq_refl).
  - destruct (validate_issues_not_a_list Samples.str Samples.self JNull)
      as [_ [_ H]].
    exact (H eq_refl).
Defined.

(** ** The weighted score under the default weights *)

Lemma float_eqb_eq x y : float_eqb x y = true -> x = y.
Proof.
  destruct x as [s | s | | s m e], y as [t | t | | t n f]; simpl;
    try discriminate; try reflexivity.
  - intros H. apply Bool.eqb_prop in H. now subst.
  - intros H. apply Bool.eqb_prop in H. now subst.
  - rewrite !andb_true_iff. intros [[Hs Hm] He].
    apply Bool.eqb_prop in Hs. apply Pos.eqb_eq in Hm. apply Z.eqb_eq in He.
    now subst.
Qed.

Lemma on_all_triples_sound test :
  on_all_triples test = true ->
  forall q s p, in_range q -> in_range s -> in_range p -> test q s p = true.
Proof.
  unfold on_all_triples. intros H q s p Hq Hs Hp.
  rewrite forallb_forall in H.
  specialize (H q (in_range_enum q Hq)). rewrite forallb_forall in H.
  specialize (H s (in_range_enum s Hs)). rewrite forallb_forall in H.
  exact (H p (in_range_enum p Hp)).
Qed.

Lemma all_between_scores : on_all_triples between_scores = true.
Proof. vm_compute. reflexivity. Qed.

Lemma all_accurate : on_all_triples accurate = true.
Proof. vm_compute. reflexivity. Qed.

Lemma all_monotone : on_all_triples monotone = true.
Proof. vm_compute. reflexivity. Qed.

Lemma all_equal_scores : forallb equal_scores one_to_ten = true.
Proof. vm_compute. reflexivity. Qed.

(** The doubles of the decimals 1.0, ..., 10.0 are ordered as the decimals. *)
Lemma all_tenths_ordered :
  forallb (fun a =>
             forallb (fun b =>
                        Z.ltb b a
                        || Float64.leb (Float64.of_ratio a 10)
                                       (Float64.of_ratio b 10))
                     tenths)
          tenths
  = true.
Proof. vm_compute. reflexivity. Qed.

Lemma tenth_facts q s p :
  in_range q -> in_range s -> in_range p ->
  10 <= tenth_of q s p <= 100
  /\ (q < 10 -> tenth_of q s p <= tenth_of (q + 1) s p)
  /\ (s < 10 -> tenth_of q s p <= tenth_of q (s + 1) p)
  /\ (p < 10 -> tenth_of q s p <= tenth_of q s (p + 1)).
Proof.
  intros Rq Rs Rp.
  pose proof (on_all_triples_sound _ all_monotone q s p Rq Rs Rp) as Hm.
  unfold monotone in Hm.
  rewrite !andb_true_iff, !orb_true_iff, !Z.eqb_eq, !Z.leb_le in Hm.
  intuition lia.
Qed.

(** The three scores of a normalised mapping. *)
Lemma normalized_triple (self : CodeAnalyzer) (v : json) (ns : dict Z) :
  _normalize_scores self v = Ok ns ->
  exists q s p,
    dict_get "Quality" ns = Some q
    /\ dict_get "Security" ns = Some s
    /\ dict_get "Performance" ns = Some p
    /\ in_range q /\ in_range s /\ in_range p.
Proof.
  intros Hns.
  destruct (normalize_scores_known self v ns "Quality" Hns) as [q [Hq Rq]];
    [simpl; tauto |].
  destruct (normalize_scores_known self v ns "Security" Hns) as [s [Hs Rs]];
    [simpl; tauto |].
  destruct (normalize_scores_known self v ns "Performance" Hns) as [p [Hp Rp]];
    [simpl; tauto |].
  exists q, s, p. tauto.
Qed.

(** X11: under the default weights, the overall score recomputed from a
    normalised mapping lies between the least and the greatest of its three
    scores; when the three are equal, it is that score. *)
Theorem weighted_score_between (self : CodeAnalyzer) (v : json) (ns : dict Z) :
  _normalize_scores self v = Ok ns ->
  exists q s p,
    dict_get "Quality" ns = Some q
    /\ dict_get "Security" ns = Some s
    /\ dict_get "Performance" ns = Some p
    /\ Float64.leb (Float64.of_Z (Z.min q (Z.min s p)))
                   (weighted_score default_weights ns) = true
    /\ Float64.leb (weighted_score default_weights ns)
                   (Float64.of_Z (Z.max q (Z.max s p))) = true
    /\ (q = s -> s = p -> weighted_score default_weights ns = Float64.of_Z q).
Proof.
  intros Hns.
  destruct (normalized_triple self v ns Hns) as [q [s [p [Hq [Hs [Hp [Rq [Rs Rp]]]]]]]].
  exists q, s, p. repeat (split; [assumption |]).
  rewrite (weighted_score_overall_of _ ns q s p Hq Hs Hp).
  pose proof (on_all_triples_sound _ all_between_scores q s p Rq Rs Rp) as Hb.
  unfold between_scores in Hb. apply andb_true_iff in Hb.
  destruct Hb as [Hlo Hhi]. repeat split; try assumption.
  intros <- <-. apply float_eqb_eq.
  pose proof all_equal_scores as He. rewrite forallb_forall in He.
  exact (He q (in_range_enum q Rq)).
Qed.

Lemma weighted_score_between_witness :
  weighted_score default_weights
    [("Quality", 7); ("Security", 7); ("Performance", 7)]
  = Float64.of_Z 7.
Proof.
  destruct (weighted_score_between Samples.self
              (JDict [("Quality", JInt 7); ("Security", JInt 7);
                      ("Performance", JInt 7)])
              [("Quality", 7); ("Security", 7); ("Performance", 7)] eq_refl)
    as [q [s [p [Hq [Hs [Hp [_ [_ Heq]]]]]]]].
  injection Hq as <-. injection Hs as <-. injection Hp as <-.
  apply Heq; reflexivity.
Defined.

(** X12: under the default weights, the overall score recomputed from a
    normalised mapping is the double of a decimal with one digit after the
    point, [n/10], and this decimal is within 0.05 of the exact weighted sum
    [(8q + 7s + 5p) / 20] of the three scores. *)
Theorem weighted_score_accurate (self : CodeAnalyzer) (v : json) (ns : dict Z) :
  _normalize_scores self v = Ok ns ->
  exists q s p n,
    dict_get "Quality" ns = Some q
    /\ dict_get "Security" ns = Some s
    /\ dict_get "Performance" ns = Some p
    /\ weighted_score default_weights ns = Float64.of_ratio n 10
    /\ 10 <= n <= 100
    /\ Z.abs (2 * n - (8 * q + 7 * s + 5 * p)) <= 1.
Proof.
  intros Hns.
  destruct (normalized_triple self v ns Hns) as [q [s [p [Hq [Hs [Hp [Rq [Rs Rp]]]]]]]].
  exists q, s, p, (tenth_of q s p). repeat (split; [assumption |]).
  rewrite (weighted_score_overall_of _ ns q s p Hq Hs Hp).
  pose proof (on_all_triples_sound _ all_accurate q s p Rq Rs Rp) as Ha.
  destruct (tenth_facts q s p Rq Rs Rp) as [Hn _].
  unfold accurate in Ha. rewrite !andb_true_iff in Ha.
  destruct Ha as [Heq Habs].
  split; [now apply float_eqb_eq |].
  apply Z.leb_le in Habs. lia.
Qed.

Lemma weighted_score_accurate_witness :
  exists n,
    weighted_score default_weights
      [("Quality", 8); ("Security", 6); ("Performance", 4)]
    = Float64.of_ratio n 10
    /\ Z.abs (2 * n - (8 * 8 + 7 * 6 + 5 * 4)) <= 1.
Proof.
  destruct (weighted_score_accurate Samples.self
              (JDict [("Quality", JInt 8); ("Security", JInt 6);
                      ("Performance", JInt 4)])
              [("Quality", 8); ("Security", 6); ("Performance", 4)] eq_refl)
    as [q [s [p [n [Hq [Hs [Hp [Hn [_ Habs]]]]]]]]].
  injection Hq as <-. injection Hs as <-. injection Hp as <-.
  exists n. split; assumption.
Defined.

Lemma tenth_raise (d : nat) :
  forall q s p,
    in_range q -> in_range s -> in_range p ->
    (in_range (q + Z.of_nat d) ->
     tenth_of q s p <= tenth_of (q + Z.of_nat d) s p)
    /\ (in_range (s + Z.of_nat d) ->
        tenth_of q s p <= tenth_of q (s + Z.of_nat d) p)
    /\ (in_range (p + Z.of_nat d) ->
        tenth_of q s p <= tenth_of q s (p + Z.of_nat d)).
Proof.
  induction d as [| d IH]; intros q s p Rq Rs Rp.
  - simpl. rewrite !Z.add_0_r. repeat split; intros _; lia.
  - rewrite Nat2Z.inj_succ. unfold in_range in *.
    destruct (IH q s p Rq Rs Rp) as [Hq [Hs Hp]].
    repeat split; intros Hr.
    + replace (q + Z.succ (Z.of_nat d)) with (q + Z.of_nat d + 1) by lia.
      destruct (tenth_facts (q + Z.of_nat d) s p) as [_ [H _]];
        unfold in_range; lia.
    + replace (s + Z.succ (Z.of_nat d)) with (s + Z.of_nat d + 1) by lia.
      destruct (tenth_facts q (s + Z.of_nat d) p) as [_ [_ [H _]]];
        unfold in_range; lia.
    + replace (p + Z.succ (Z.of_nat d)) with (p + Z.of_nat d + 1) by lia.
      destruct (tenth_facts q s (p + Z.of_nat d)) as [_ [_ [_ H]]];
        unfold in_range; lia.
Qed.

Lemma tenth_monotone q s p q' s' p' :
  in_range q -> in_range s -> in_range p ->
  in_range q' -> in_range s' -> in_range p' ->
  q <= q' -> s <= s' -> p <= p' ->
  tenth_of q s p <= tenth_of q' s' p'.
Proof.
  intros Rq Rs Rp Rq' Rs' Rp' Hq Hs Hp.
  apply Z.le_trans with (tenth_of q' s p).
  { destruct (tenth_raise (Z.to_nat (q' - q)) q s p Rq Rs Rp) as [H _].
    rewrite Z2Nat.id in H by lia.
    replace (q + (q' - q)) with q' in H by lia. auto. }
  apply Z.le_trans with (tenth_of q' s' p).
  { destruct (tenth_raise (Z.to_nat (s' - s)) q' s p Rq' Rs Rp) as [_ [H _]].
    rewrite Z2Nat.id in H by lia.
    replace (s + (s' - s)) with s' in H by lia. auto. }
  destruct (tenth_raise (Z.to_nat (p' - p)) q' s' p Rq' Rs' Rp) as [_ [_ H]].
  rewrite Z2Nat.id in H by lia.
  replace (p + (p' - p)) with p' in H by lia. auto.
Qed.

Lemma tenths_enum n : 10 <= n <= 100 -> In n tenths.
Proof.
  intros Hn. unfold tenths.
  rewrite <- (Z2Nat.id n) by lia.
  apply in_map. apply in_seq. lia.
Qed.

(** X13: under the default weights the recomputed overall score is monotone:
    of two normalised mappings, the one whose three scores are all at least
    as high has an overall score at least as high. *)
Theorem weighted_score_monotone (self : CodeAnalyzer) (v v' : json)
  (ns ns' : dict Z) :
  _normalize_scores self v = Ok ns ->
  _normalize_scores self v' = Ok ns' ->
  (forall k n n',
      In k known_types ->
      dict_get k ns = Some n -> dict_get k ns' = Some n' -> n <= n') ->
  Float64.leb (weighted_score default_weights ns)
              (weighted_score default_weights ns') = true.
Proof.
  intros Hns Hns' Hle.
  destruct (normalized_triple self v ns Hns) as [q [s [p [Hq [Hs [Hp [Rq [Rs Rp]]]]]]]].
  destruct (normalized_triple self v' ns' Hns')
    as [q' [s' [p' [Hq' [Hs' [Hp' [Rq' [Rs' Rp']]]]]]]].
  rewrite (weighted_score_overall_of _ ns q s p Hq Hs Hp).
  rewrite (weighted_score_overall_of _ ns' q' s' p' Hq' Hs' Hp').
  assert (Hn : tenth_of q s p <= tenth_of q' s' p').
  { apply tenth_monotone; try assumption.
    - apply (Hle "Quality"); simpl; auto.
    - apply (Hle "Security"); simpl; auto.
    - apply (Hle "Performance"); simpl; auto. }
  assert (shape : forall a b c,
             in_range a -> in_range b -> in_range c ->
             overall_of default_weights a b c
             = Float64.of_ratio (tenth_of a b c) 10
             /\ 10 <= tenth_of a b c <= 100).
  { intros a b c Ra Rb Rc.
    pose proof (on_all_triples_sound _ all_accurate a b c Ra Rb Rc) as Ha.
    destruct (tenth_facts a b c Ra Rb Rc) as [Hn' _].
    unfold accurate in Ha. rewrite !andb_true_iff in Ha.
    destruct Ha as [Heq _].
    split; [now apply float_eqb_eq | exact Hn']. }
  destruct (shape q s p Rq Rs Rp) as [-> R].
  destruct (shape q' s' p' Rq' Rs' Rp') as [-> R'].
  pose proof all_tenths_ordered as Ho.
  rewrite forallb_forall in Ho.
  specialize (Ho _ (tenths_enum _ R)). rewrite forallb_forall in Ho.
  specialize (Ho _ (tenths_enum _ R')).
  apply orb_true_iff in Ho. destruct Ho as [Ho | Ho]; [| exact Ho].
  apply Z.ltb_lt in Ho. lia.
Qed.

Lemma weighted_score_monotone_witness :
  Float64.leb
    (weighted_score default_weights
       [("Quality", 3); ("Security", 6); ("Performance", 4)])
    (weighted_score default_weights
       [("Quality", 8); ("Security", 6); ("Performance", 5)]) = true.
Proof.
  apply (weighted_score_monotone Samples.self
           (JDict [("Quality", JInt 3); ("Security", JInt 6);
                   ("Performance", JInt 4)])
           (JDict [("Quality", JInt 8); ("Security", JInt 6);
                   ("Performance", JInt 5)])).
  - reflexivity.
  - reflexivity.
  - intros k n n' [<- | [<- | [<- | []]]]; simpl; intros [= <-] [= <-]; lia.
Defined.

(** ** Detection of the language from the file name *)

Lemma length_append (a b : string) :
  String.length (a ++ b) = (String.length a + String.length b)%nat.
Proof. induction a as [| c a IH]; simpl; [reflexivity | now rewrite IH]. Qed.

Lemma append_assoc (a b c : string) : (a ++ b) ++ c = a ++ (b ++ c).
Proof. induction a as [| x a IH]; simpl; [reflexivity | now rewrite IH]. Qed.

Lemma append_inv_head (a x y : string) : a ++ x = a ++ y -> x = y.
Proof.
  induction a as [| c a IH]; simpl; [auto |].
  intros [= H]. auto.
Qed.

Lemma append_inv_tail (x y a : string) : x ++ a = y ++ a -> x = y.
Proof.
  revert y. induction x as [| c x IH]; intros [| d y] H; simpl in H.
  - reflexivity.
  - apply (f_equal String.length) in H. simpl in H.
    rewrite length_append in H. lia.
  - apply (f_equal String.length) in H. simpl in H.
    rewrite length_append in H. lia.
  - injection H as -> H. f_equal. auto.
Qed.

Lemma contains_append c (a b : string) :
  contains c (a ++ b) = contains c a || contains c b.
Proof.
  induction a as [| x a IH]; simpl; [reflexivity |].
  now rewrite IH, orb_assoc.
Qed.

Lemma rfind_from_absent c s :
  forall i last, contains c s = false -> rfind_from c s i last = last.
Proof.
  induction s as [| a s IH]; intros i last; simpl; [reflexivity |].
  rewrite orb_false_iff. intros [-> Hs]. now apply IH.
Qed.

Lemma rfind_from_append c (a b : string) :
  forall i last,
    rfind_from c (a ++ b) i last
    = rfind_from c b (i + Z.of_nat (String.length a)) (rfind_from c a i last).
Proof.
  induction a as [| x a IH]; intros i last; simpl String.length.
  - simpl. now rewrite Z.add_0_r.
  - cbn [append rfind_from]. rewrite IH. f_equal. lia.
Qed.

(** The index of the last occurrence, when what follows has none. *)
Lemma rfind_last c (a b : string) :
  contains c b = false ->
  rfind c (a ++ String c b) = Z.of_nat (String.length a).
Proof.
  intros Hb. unfold rfind. rewrite rfind_from_append. simpl.
  rewrite Ascii.eqb_refl. now apply rfind_from_absent.
Qed.

Lemma rfind_from_bound c s :
  forall i last, last < i -> last <= rfind_from c s i last.
Proof.
  induction s as [| a s IH]; intros i last Hl; simpl; [lia |].
  destruct (Ascii.eqb a c).
  - specialize (IH (i + 1) i). lia.
  - apply IH. lia.
Qed.

(** X14: every language that is detected is one of the supported languages
    of the configuration defaults. *)
Theorem detected_language_supported (self : CodeAnalyzer) (filename key : string) :
  In (detect_language self filename) (supported_languages (default_config key)).
Proof.
  assert (Hpy : In "python" (supported_languages (default_config key))).
  { simpl. auto. }
  unfold detect_language.
  destruct (get_file_extension_language (config self) filename)
    as [language |] eqn:E; [| exact Hpy].
  assert (Hl : In language (supported_languages (default_config key))).
  { unfold get_file_extension_language in E.
    apply dict_get_In in E. simpl in E.
    repeat (destruct E as [E | E]; [injection E as _ <-; simpl; auto 20 |]).
    destruct E. }
  destruct language; assumption.
Qed.

Lemma lower_ascii_dot a :
  Ascii.eqb (lower_ascii a) "."%char = Ascii.eqb a "."%char.
Proof. destruct a as [[] [] [] [] [] [] [] []]; vm_compute; reflexivity. Qed.

Lemma lower_ascii_slash a :
  Ascii.eqb (lower_ascii a) "/"%char = Ascii.eqb a "/"%char.
Proof. destruct a as [[] [] [] [] [] [] [] []]; vm_compute; reflexivity. Qed.

Lemma lower_ascii_idempotent a : lower_ascii (lower_ascii a) = lower_ascii a.
Proof. destruct a as [[] [] [] [] [] [] [] []]; vm_compute; reflexivity. Qed.

Lemma dot_match (a : ascii) (X : bool) :
  match a with
  | "."%char => X
  | _ => true
  end = if Ascii.eqb a "."%char then X else true.
Proof. destruct a as [[] [] [] [] [] [] [] []]; reflexivity. Qed.

Lemma lower_idempotent s : lower (lower s) = lower s.
Proof.
  induction s as [| a s IH]; simpl; [reflexivity |].
  now rewrite lower_ascii_idempotent, IH.
Qed.

Lemma length_lower s : String.length (lower s) = String.length s.
Proof. induction s as [| a s IH]; simpl; [reflexivity | now rewrite IH]. Qed.

Lemma get_lower s :
  forall n, String.get n (lower s) = option_map lower_ascii (String.get n s).
Proof.
  induction s as [| a s IH]; intros [| n]; simpl; try reflexivity. apply IH.
Qed.

Lemma substring_lower s :
  forall n m, String.substring n m (lower s) = lower (String.substring n m s).
Proof.
  induction s as [| a s IH]; intros [| n] [| m]; simpl; try reflexivity;
    try apply IH.
  now rewrite IH.
Qed.

Lemma rfind_from_lower c s :
  (forall a, Ascii.eqb (lower_ascii a) c = Ascii.eqb a c) ->
  forall i last, rfind_from c (lower s) i last = rfind_from c s i last.
Proof.
  intros Hc. induction s as [| a s IH]; intros i last; simpl; [reflexivity |].
  now rewrite Hc, IH.
Qed.

Lemma has_stem_lower p n :
  forall i, has_stem (lower p) i n = has_stem p i n.
Proof.
  induction n as [| n IH]; intros i; simpl; [reflexivity |].
  rewrite get_lower.
  destruct (String.get (Z.to_nat i) p) as [a |]; simpl; [| reflexivity].
  rewrite !dot_match, lower_ascii_dot, IH. reflexivity.
Qed.

Lemma splitext_lower p : snd (splitext (lower p)) = lower (snd (splitext p)).
Proof.
  unfold splitext, rfind. cbv zeta.
  rewrite (rfind_from_lower _ _ lower_ascii_slash).
  rewrite (rfind_from_lower _ _ lower_ascii_dot).
  rewrite has_stem_lower, length_lower.
  destruct (_ && _); simpl; [apply substring_lower | reflexivity].
Qed.

(** X15: the detection ignores the case of the file name: two names that
    differ only in the case of their letters are given the same language. *)
Theorem detection_ignores_case (self : Config) (name1 name2 : string) :
  lower name1 = lower name2 ->
  get_file_extension_language self name1 = get_file_extension_language self name2.
Proof.
  intros Hl.
  assert (H : forall name,
             get_file_extension_language self name
             = get_file_extension_language self (lower name)).
  { intros name. unfold get_file_extension_language.
    now rewrite splitext_lower, lower_idempotent. }
  now rewrite (H name1), (H name2), Hl.
Qed.

Lemma detection_ignores_case_witness :
  get_file_extension_language (default_config "k") "src/Main.JAVA"
  = get_file_extension_language (default_config "k") "SRC/main.java".
Proof.
  apply detection_ignores_case. reflexivity.
Defined.

Lemma get_append_at (a : string) (c : ascii) (b : string) :
  String.get (String.length a) (a ++ String c b) = Some c.
Proof. induction a as [| x a IH]; simpl; [reflexivity | exact IH]. Qed.

Lemma substring_all (b : string) : String.substring 0 (String.length b) b = b.
Proof. induction b as [| c b IH]; simpl; [reflexivity | now rewrite IH]. Qed.

Lemma substring_skip (a b : string) :
  String.substring (String.length a) (String.length b) (a ++ b) = b.
Proof. induction a as [| x a IH]; simpl; [apply substring_all | exact IH]. Qed.

(** The loop that skips leading dots, run over a part of the path. *)
Lemma has_stem_at (stem : string) :
  forall pre rest,
    has_stem (pre ++ stem ++ rest) (Z.of_nat (String.length pre))
             (String.length stem)
    = negb (all_dots stem).
Proof.
  induction stem as [| c stem IH]; intros pre rest; [reflexivity |].
  cbn [String.length has_stem append all_dots].
  rewrite Nat2Z.id, get_append_at, dot_match.
  destruct (Ascii.eqb c "."%char); [| reflexivity].
  replace (pre ++ String c (stem ++ rest))
    with ((pre ++ String c EmptyString) ++ stem ++ rest)
    by (now rewrite append_assoc).
  replace (Z.of_nat (String.length pre) + 1)
    with (Z.of_nat (String.length (pre ++ String c EmptyString)))
    by (rewrite length_append; simpl; lia).
  apply IH.
Qed.

(** Where the last separator is, for a path made of a directory part that is
    empty or ends with a slash, and a name without slash. *)
Lemma rfind_separator (prefix name : string) :
  prefix = EmptyString \/ (exists d, prefix = d ++ "/") ->
  contains "/"%char name = false ->
  rfind "/"%char (prefix ++ name) + 1 = Z.of_nat (String.length prefix).
Proof.
  intros [-> | [d ->]] Hname.
  - simpl. unfold rfind. now rewrite rfind_from_absent.
  - rewrite append_assoc. simpl. rewrite (rfind_last _ d name Hname).
    rewrite length_append. simpl. lia.
Qed.

(** X16: a name [stem.ext] behind any directory part, with a stem that is
    not made of dots only and an extension without dot, is looked up in the
    extension map under its extension in lower case; and every file type
    that the uploader of the application accepts is in the map. *)
Theorem extension_detected (self : Config) (prefix stem ext : string) :
  prefix = EmptyString \/ (exists d, prefix = d ++ "/") ->
  contains "/"%char stem = false ->
  all_dots stem = false ->
  contains "/"%char ext = false ->
  contains "."%char ext = false ->
  get_file_extension_language self (prefix ++ stem ++ "." ++ ext)
  = dict_get ("." ++ lower ext) extension_map
  /\ (In ext upload_types ->
      exists language,
        get_file_extension_language self (prefix ++ stem ++ "." ++ ext)
        = Some language).
Proof.
  intros Hprefix Hstem Hdots Hext Hdot.
  assert (H : get_file_extension_language self (prefix ++ stem ++ "." ++ ext)
              = dict_get ("." ++ lower ext) extension_map).
  { unfold get_file_extension_language, splitext. cbv zeta.
    assert (Hsep : rfind "/"%char (prefix ++ stem ++ "." ++ ext) + 1
                   = Z.of_nat (String.length prefix)).
    { apply rfind_separator; [exact Hprefix |].
      rewrite contains_append. simpl. now rewrite Hstem, Hext. }
    assert (Hidx : rfind "."%char (prefix ++ stem ++ "." ++ ext)
                   = Z.of_nat (String.length (prefix ++ stem))).
    { rewrite <- append_assoc. simpl. now apply rfind_last. }
    rewrite Hidx, Hsep.
    replace (rfind "/"%char (prefix ++ stem ++ "." ++ ext))
      with (Z.of_nat (String.length prefix) - 1) by lia.
    rewrite length_append at 1 2.
    replace (Z.to_nat (Z.of_nat (String.length prefix + String.length stem)
                       - Z.of_nat (String.length prefix)))
      with (String.length stem) by lia.
    rewrite has_stem_at, Hdots.
    destruct (Z.ltb_spec (Z.of_nat (String.length prefix) - 1)
                         (Z.of_nat (String.length prefix + String.length stem)));
      [| lia].
    cbn [andb negb snd].
    rewrite Nat2Z.id.
    replace (String.length (prefix ++ stem ++ "." ++ ext)
             - String.length (prefix ++ stem))%nat
      with (String.length ("." ++ ext)).
    2:{ rewrite <- (append_assoc prefix stem), (length_append (prefix ++ stem)).
        lia. }
    rewrite <- (append_assoc prefix stem), substring_skip.
    reflexivity. }
  split; [exact H |].
  intros Hin. rewrite H. simpl in Hin.
  repeat (destruct Hin as [<- | Hin]; [eexists; reflexivity |]).
  destruct Hin.
Qed.

Lemma extension_detected_witness :
  get_file_extension_language (default_config "k") "uploads/2024/report.final.RS"
  = Some "rust".
Proof.
  exact (proj1 (extension_detected (default_config "k")
                  "uploads/2024/" "report.final" "RS"
                  (or_intror (ex_intro _ "uploads/2024" eq_refl))
                  eq_refl eq_refl eq_refl eq_refl)).
Defined.

Lemma rfind_from_upper c s :
  forall i last,
    last < i -> rfind_from c s i last < i + Z.of_nat (String.length s).
Proof.
  induction s as [| a s IH]; intros i last Hl; simpl String.length.
  - simpl. lia.
  - cbn [rfind_from]. rewrite Nat2Z.inj_succ.
    destruct (Ascii.eqb a c).
    + specialize (IH (i + 1) i). lia.
    + specialize (IH (i + 1) last). lia.
Qed.

Lemma all_dots_last (dots : string) :
  dots <> EmptyString ->
  all_dots dots = true ->
  exists d, dots = d ++ "." /\ all_dots d = true.
Proof.
  induction dots as [| c s IH]; [congruence |]. intros _. simpl.
  rewrite andb_true_iff. intros [Hc Hs].
  apply Ascii.eqb_eq in Hc. subst c.
  destruct s as [| c' s'].
  - exists EmptyString. split; reflexivity.
  - destruct (IH ltac:(discriminate) Hs) as [d [-> Hd]].
    exists (String "."%char d). split; [reflexivity |].
    simpl. exact Hd.
Qed.

(** X17: leading dots do not start an extension.  A name made of dots
    followed by text without any dot, such as [Makefile], [.gitignore] or
    [..], has no detected language behind any directory part, even one that
    contains dots, and is treated as Python. *)
Theorem leading_dots_no_language (self : CodeAnalyzer) (prefix dots rest : string) :
  prefix = EmptyString \/ (exists d, prefix = d ++ "/") ->
  all_dots dots = true ->
  contains "/"%char rest = false ->
  contains "."%char rest = false ->
  get_file_extension_language (config self) (prefix ++ dots ++ rest) = None
  /\ detect_language self (prefix ++ dots ++ rest) = "python".
Proof.
  intros Hprefix Hdots Hslash Hdot.
  assert (Hname : contains "/"%char (dots ++ rest) = false).
  { rewrite contains_append, Hslash, orb_false_r.
    clear - Hdots. induction dots as [| c s IH]; [reflexivity |].
    simpl in *. apply andb_true_iff in Hdots. destruct Hdots as [Hc Hs].
    apply Ascii.eqb_eq in Hc. subst c. simpl. auto. }
  pose proof (rfind_separator prefix (dots ++ rest) Hprefix Hname) as Hsep.
  assert (H : get_file_extension_language (config self) (prefix ++ dots ++ rest)
              = None).
  { unfold get_file_extension_language, splitext. cbv zeta.
    destruct dots as [| c s] eqn:Ed.
    - (* no dot in the name: the last dot, if any, is in the directory part *)
      change (prefix ++ EmptyString ++ rest) with (prefix ++ rest) in *.
      assert (Hidx : rfind "."%char (prefix ++ rest)
                     < Z.of_nat (String.length prefix)).
      { unfold rfind. rewrite rfind_from_append.
        rewrite (rfind_from_absent _ rest _ _ Hdot).
        pose proof (rfind_from_upper "."%char prefix 0 (-1) ltac:(lia)). lia. }
      simpl in Hsep.
      destruct (Z.ltb_spec (rfind "/"%char (prefix ++ rest))
                           (rfind "."%char (prefix ++ rest))); [lia |].
      reflexivity.
    - destruct (all_dots_last (String c s) ltac:(discriminate) Hdots)
        as [d [Hd Hall]].
      rewrite Hd in *. clear Hd Ed.
      assert (Hidx : rfind "."%char (prefix ++ (d ++ ".") ++ rest)
                     = Z.of_nat (String.length (prefix ++ d))).
      { rewrite (append_assoc d), <- (append_assoc prefix d). simpl.
        now apply rfind_last. }
      rewrite Hidx.
      replace (rfind "/"%char (prefix ++ (d ++ ".") ++ rest))
        with (Z.of_nat (String.length prefix) - 1) by lia.
      replace (Z.of_nat (String.length prefix) - 1 + 1)
        with (Z.of_nat (String.length prefix)) by lia.
      rewrite length_append at 1 2.
      replace (Z.to_nat (Z.of_nat (String.length prefix + String.length d)
                         - Z.of_nat (String.length prefix)))
        with (String.length d) by lia.
      rewrite (append_assoc d), has_stem_at, Hall, andb_false_r.
      reflexivity. }
  split; [exact H |]. unfold detect_language. now rewrite H.
Qed.

Lemma leading_dots_no_language_witness :
  detect_language Samples.self "conf.d/.gitignore" = "python"
  /\ detect_language Samples.self "my.project/Makefile" = "python".
Proof.
  split.
  - exact (proj2 (leading_dots_no_language Samples.self "conf.d/" "." "gitignore"
                    (or_intror (ex_intro _ "conf.d" eq_refl))
                    eq_refl eq_refl eq_refl)).
  - exact (proj2 (leading_dots_no_language Samples.self "my.project/"
                    EmptyString "Makefile"
                    (or_intror (ex_intro _ "my.project" eq_refl))
                    eq_refl eq_refl eq_refl)).
Defined.

(** ** The prompt embeds the code as it is *)

(** X18: the prompt embeds the code as it is: for a given language, file
    name and choice of aspects, two different pieces of code never give the
    same prompt.  Nothing of the code is cut off or rewritten. *)
Theorem prompt_determines_code (self : CodeAnalyzer)
  (code1 code2 language filename : string)
  (include_security include_performance include_style : bool) :
  code1 <> code2 ->
  _build_analysis_prompt self code1 language filename
    include_security include_performance include_style
  <> _build_analysis_prompt self code2 language filename
       include_security include_performance include_style.
Proof.
  unfold _build_analysis_prompt. cbv zeta. intros Hne H. apply Hne.
  repeat (apply append_inv_head in H).
  now apply append_inv_tail in H.
Qed.

Lemma prompt_determines_code_witness :
  _build_analysis_prompt Samples.self "x = 1" "python" "a.py" true true true
  <> _build_analysis_prompt Samples.self "x = 1 " "python" "a.py" true true true.
Proof.
  apply prompt_determines_code. discriminate.
Defined.

(** ** The configuration read from the environment *)

Section FromEnvFacts.
Variable py_int : string -> result Z.
Variable py_float : string -> result spec_float.

(** X19: without an API key there is no configuration: when
    OPENAI_API_KEY is unset or empty, [from_env] raises the ValueError that
    asks for it, whatever the other variables hold; they are not even
    parsed. *)
Theorem from_env_requires_key (env : dict string) :
  dict_get "OPENAI_API_KEY" env = None
  \/ dict_get "OPENAI_API_KEY" env = Some EmptyString ->
  from_env py_int py_float env
  = Raise (mk_exn ValueError "OPENAI_API_KEY environment variable is required").
Proof.
  unfold from_env. intros [-> | ->]; reflexivity.
Qed.

(** X20: a configuration read from the environment takes from it the key
    (which is not empty), the model, the token limit and the temperature,
    and nothing else: the score weights are the defaults, so that every
    overall score recomputed under it from normalised scores lies in
    [1.0, 10.0]. *)
Theorem from_env_result (env : dict string) (cfg : Config) :
  from_env py_int py_float env = Ok cfg ->
  dict_get "OPENAI_API_KEY" env = Some (api_key cfg)
  /\ api_key cfg <> EmptyString
  /\ model cfg = dict_get_default "OPENAI_MODEL" "gpt-4o" env
  /\ py_int (dict_get_default "MAX_TOKENS" "4000" env) = Ok (max_tokens cfg)
  /\ py_float (dict_get_default "TEMPERATURE" "0.1" env) = Ok (temperature cfg)
  /\ score_weights cfg = default_weights
  /\ forall client scores ns,
       _normalize_scores (mk_analyzer cfg client) scores = Ok ns ->
       overall_in_bounds (weighted_score (score_weights cfg) ns) = true.
Proof.
  unfold from_env, getenv.
  destruct (dict_get "OPENAI_API_KEY" env) as [[| c key] |]; try discriminate.
  destruct (py_int _) as [n | e] eqn:Hn; simpl; [| discriminate].
  destruct (py_float _) as [t | e] eqn:Ht; simpl; [| discriminate].
  intros [= <-]. simpl.
  repeat (split; [reflexivity || discriminate |]).
  intros client scores ns Hns.
  destruct (normalize_scores_known _ _ ns "Quality" Hns) as [q [Hq Rq]];
    [simpl; tauto |].
  destruct (normalize_scores_known _ _ ns "Security" Hns) as [s [Hs Rs]];
    [simpl; tauto |].
  destruct (normalize_scores_known _ _ ns "Performance" Hns) as [p [Hp Rp]];
    [simpl; tauto |].
  rewrite (weighted_score_overall_of _ ns q s p Hq Hs Hp).
  now apply overall_of_in_bounds.
Qed.

End FromEnvFacts.

Lemma from_env_requires_key_witness :
  from_env (fun _ => Raise (mk_exn ValueError "invalid literal"))
           (fun _ => Ok (Float64.of_ratio 1 10))
           [("MAX_TOKENS", "many"); ("OPENAI_API_KEY", EmptyString)]
  = Raise (mk_exn ValueError "OPENAI_API_KEY environment variable is required").
Proof.
  apply from_env_requires_key. right. reflexivity.
Defined.

Lemma from_env_result_witness :
  exists cfg,
    from_env (fun _ => Ok 4000) (fun _ => Ok (Float64.of_ratio 1 10))
             [("OPENAI_API_KEY", "sk-test"); ("OPENAI_MODEL", "gpt-4-turbo")]
    = Ok cfg
    /\ model cfg = "gpt-4-turbo"
    /\ score_weights cfg = default_weights.
Proof.
  eexists. split; [reflexivity |].
  destruct (from_env_result (fun _ => Ok 4000) (fun _ => Ok (Float64.of_ratio 1 10))
              [("OPENAI_API_KEY", "sk-test"); ("OPENAI_MODEL", "gpt-4-turbo")]
              _ eq_refl)
    as [_ [_ [Hm [_ [_ [Hw _]]]]]].
  split; [exact Hm | exact Hw].
Defined.

(** ** The class of a score in the display *)

(** X21: [get_score_class] returns exactly on the numbers, booleans
    included: an overall score that is a string, a list, a mapping or null
    raises a TypeError.  NaN is classed as poor, and so is the score 0 of
    every error result. *)
Theorem score_class_domain (score : json) :
  ((exists c, get_score_class score = Ok c) <-> is_number score = true)
  /\ (is_number score = false ->
      get_score_class score
      = Raise (mk_exn TypeError
                 ("'>=' not supported between instances of '"
                    ++ type_name score ++ "' and 'int'")))
  /\ get_score_class (JFloat S754_nan) = Ok "score-poor"
  /\ forall self message,
       get_score_class (overall_score (_create_error_result self message))
       = Ok "score-poor".
Proof.
  split; [| split; [| split]].
  - unfold get_score_class.
    destruct score as [| b | n | x | s | l | d]; simpl;
      try (split; [intros [c H] |]; discriminate).
    + split; [reflexivity |]. intros _.
      destruct (Z.leb _ _); [eauto |]. destruct (Z.leb _ _); [eauto |].
      destruct (Z.leb _ _); eauto.
    + split; [reflexivity |]. intros _.
      destruct (Z.leb _ _); [eauto |]. destruct (Z.leb _ _); [eauto |].
      destruct (Z.leb _ _); eauto.
    + split; [reflexivity |]. intros _.
      destruct (float_ge_int x 8); [eauto |].
      destruct (float_ge_int x 6); [eauto |].
      destruct (float_ge_int x 4); eauto.
  - destruct score; simpl; try discriminate; reflexivity.
  - reflexivity.
  - reflexivity.
Qed.

Lemma score_class_domain_witness :
  get_score_class
    (overall_score
       (analyze_code Samples.str Samples.loads
          (Samples.analyzer Samples.bad_overall) "x = 1" "a.py" true true true))
  = Raise (mk_exn TypeError
             "'>=' not supported between instances of 'str' and 'int'").
Proof.
  destruct (score_class_domain
              (overall_score
                 (analyze_code Samples.str Samples.loads
                    (Samples.analyzer Samples.bad_overall)
                    "x = 1" "a.py" true true true)))
    as [_ [H _]].
  exact (H eq_refl).
Defined.

Lemma all_classes_agree : forallb class_agrees tenths = true.
Proof. vm_compute. reflexivity. Qed.

(** X22: the class of a recomputed overall score.  Under the default
    weights the overall score recomputed from a normalised mapping is
    [n/10] for some [n] in 10..100, and its class is read off these tenths:
    excellent from 8.0, good from 6.0, fair from 4.0, poor below. *)
Theorem score_class_of_recomputed (self : CodeAnalyzer) (v : json) (ns : dict Z) :
  _normalize_scores self v = Ok ns ->
  exists n,
    10 <= n <= 100
    /\ weighted_score default_weights ns = Float64.of_ratio n 10
    /\ get_score_class (JFloat (weighted_score default_weights ns))
       = Ok (if Z.leb 80 n then "score-excellent"
             else if Z.leb 60 n then "score-good"
             else if Z.leb 40 n then "score-fair"
             else "score-poor").
Proof.
  intros Hns.
  destruct (normalized_triple self v ns Hns) as [q [s [p [Hq [Hs [Hp [Rq [Rs Rp]]]]]]]].
  exists (tenth_of q s p).
  destruct (tenth_facts q s p Rq Rs Rp) as [Hn _].
  split; [exact Hn |].
  rewrite (weighted_score_overall_of _ ns q s p Hq Hs Hp).
  pose proof (on_all_triples_sound _ all_accurate q s p Rq Rs Rp) as Ha.
  unfold accurate in Ha. rewrite andb_true_iff in Ha. destruct Ha as [Heq _].
  apply float_eqb_eq in Heq. rewrite Heq. split; [reflexivity |].
  pose proof all_classes_agree as Hc. rewrite forallb_forall in Hc.
  specialize (Hc _ (tenths_enum _ Hn)). unfold class_agrees in Hc.
  destruct (get_score_class _) as [c |]; [| discriminate].
  apply String.eqb_eq in Hc. now rewrite Hc.
Qed.

Lemma score_class_of_recomputed_witness :
  exists n,
    10 <= n <= 100
    /\ get_score_class
         (JFloat (weighted_score default_weights
                    [("Quality", 8); ("Security", 6); ("Performance", 4)]))
       = Ok (if Z.leb 80 n then "score-excellent"
             else if Z.leb 60 n then "score-good"
             else if Z.leb 40 n then "score-fair"
             else "score-poor").
Proof.
  destruct (score_class_of_recomputed Samples.self
              (JDict [("Quality", JInt 8); ("Security", JInt 6);
                      ("Performance", JInt 4)])
              [("Quality", 8); ("Security", 6); ("Performance", 4)] eq_refl)
    as [n [Hn [_ Hc]]].
  exists n. split; assumption.
Defined.

(** ** The history shown in the sidebar *)

Lemma nth_error_enumerate {A : Type} (xs : list A) :
  forall k i,
    nth_error (enumerate_from k xs) i
    = option_map (pair (k + Z.of_nat i)) (nth_error xs i).
Proof.
  induction xs as [| x xs IH]; intros k [| i]; try reflexivity.
  - simpl. now rewrite Z.add_0_r.
  - change (nth_error (enumerate_from (k + 1) xs) i
            = option_map (pair (k + Z.of_nat (S i))) (nth_error xs i)).
    rewrite IH.
    replace (k + Z.of_nat (S i)) with (k + 1 + Z.of_nat i) by lia.
    reflexivity.
Qed.

Lemma length_enumerate {A : Type} (xs : list A) :
  forall k, List.length (enumerate_from k xs) = List.length xs.
Proof. induction xs as [| x xs IH]; intros k; simpl; auto. Qed.

(** X23: the sidebar shows the five most recent analyses, or all of them
    when there are fewer, the most recent one first: line [i] (from 0) is
    the entry [i] places before the end of the history. *)
Theorem sidebar_history_recent {A : Type} (analysis_history : list A) :
  List.length (sidebar_history analysis_history)
  = Nat.min 5 (List.length analysis_history)
  /\ forall i,
       (i < Nat.min 5 (List.length analysis_history))%nat ->
       nth_error (sidebar_history analysis_history) i
       = option_map (pair (Z.of_nat i))
           (nth_error analysis_history (List.length analysis_history - 1 - i)).
Proof.
  unfold sidebar_history, last_five. split.
  - rewrite length_enumerate, length_rev, length_skipn. lia.
  - intros i Hi. rewrite nth_error_enumerate, nth_error_rev, length_skipn.
    simpl Z.add.
    destruct (Nat.ltb_spec i (List.length analysis_history
                              - (List.length analysis_history - 5))); [| lia].
    rewrite nth_error_skipn. do 2 f_equal. lia.
Qed.

Lemma sidebar_history_recent_witness :
  nth_error (sidebar_history ["a"; "b"; "c"; "d"; "e"; "f"; "g"]) 0
  = Some (0, "g").
Proof.
  destruct (sidebar_history_recent ["a"; "b"; "c"; "d"; "e"; "f"; "g"]) as [_ H].
  apply (H 0%nat). simpl. lia.
Defined.

(** ** The example programs: Fibonacci numbers *)

Lemma fibonacci_loop_step (steps : nat) :
  forall prev curr,
    GoodCode.fibonacci_loop (S steps) prev curr
    = (snd (GoodCode.fibonacci_loop steps prev curr),
       fst (GoodCode.fibonacci_loop steps prev curr)
       + snd (GoodCode.fibonacci_loop steps prev curr)).
Proof.
  induction steps as [| steps IH]; intros prev curr; [reflexivity |].
  change (GoodCode.fibonacci_loop (S (S steps)) prev curr)
    with (GoodCode.fibonacci_loop (S steps) curr (prev + curr)).
  rewrite IH. reflexivity.
Qed.

(** The values of [efficient_fibonacci] read off the loop. *)
Lemma efficient_fibonacci_loop (k : nat) :
  GoodCode.efficient_fibonacci (Z.of_nat k)
  = fst (GoodCode.fibonacci_loop k 0 1)
  /\ GoodCode.efficient_fibonacci (Z.of_nat k + 1)
     = snd (GoodCode.fibonacci_loop k 0 1).
Proof.
  assert (Hsnd : forall j : nat,
             GoodCode.efficient_fibonacci (Z.of_nat j + 1)
             = snd (GoodCode.fibonacci_loop j 0 1)).
  { intros j. unfold GoodCode.efficient_fibonacci.
    destruct (Z.leb_spec (Z.of_nat j + 1) 1).
    - replace j with 0%nat by lia. reflexivity.
    - replace (Z.to_nat (Z.of_nat j + 1 + 1 - 2)) with j by lia. reflexivity. }
  split; [| apply Hsnd].
  destruct k as [| k]; [reflexivity |].
  rewrite fibonacci_loop_step. simpl fst.
  rewrite <- Hsnd. f_equal. lia.
Qed.

Lemma efficient_fibonacci_step (n : Z) :
  1 < n ->
  GoodCode.efficient_fibonacci n
  = GoodCode.efficient_fibonacci (n - 1) + GoodCode.efficient_fibonacci (n - 2).
Proof.
  intros Hn.
  destruct (efficient_fibonacci_loop (Z.to_nat (n - 2))) as [H0 H1].
  destruct (efficient_fibonacci_loop (S (Z.to_nat (n - 2)))) as [_ H2].
  rewrite fibonacci_loop_step in H2. simpl snd in H2.
  rewrite <- H0, <- H1 in H2.
  replace (Z.of_nat (S (Z.to_nat (n - 2))) + 1) with n in H2 by lia.
  replace (Z.of_nat (Z.to_nat (n - 2)) + 1) with (n - 1) in H2 by lia.
  replace (Z.of_nat (Z.to_nat (n - 2))) with (n - 2) in H2 by lia.
  lia.
Qed.

Lemma efficient_fibonacci_small (n : Z) :
  n <= 1 -> GoodCode.efficient_fibonacci n = n.
Proof.
  intros Hn. unfold GoodCode.efficient_fibonacci.
  destruct (Z.leb_spec n 1); [reflexivity | lia].
Qed.

(** X24: the two Fibonacci functions agree wherever the recursive one
    returns.  With [depth] nested calls allowed, [inefficient_fibonacci n]
    returns the value of [efficient_fibonacci n] when [n - 1 <= depth], and
    raises a RecursionError otherwise; the iterative function needs no
    nested call for any [n]. *)
Theorem fibonacci_agree (depth : nat) :
  forall n,
    (n - 1 <= Z.of_nat depth ->
     BadCode.inefficient_fibonacci depth n = Ok (GoodCode.efficient_fibonacci n))
    /\ (Z.of_nat depth < n - 1 ->
        BadCode.inefficient_fibonacci depth n = Raise recursion_error).
Proof.
  induction depth as [| depth IH]; intros n.
  - simpl. destruct (Z.leb_spec n 1).
    + rewrite efficient_fibonacci_small by assumption. split; [reflexivity | lia].
    + split; [lia | reflexivity].
  - cbn [BadCode.inefficient_fibonacci]. destruct (Z.leb_spec n 1).
    + rewrite efficient_fibonacci_small by assumption. split; [reflexivity | lia].
    + split; intros Hd.
      * destruct (IH (n - 1)) as [H1 _]. destruct (IH (n - 2)) as [H2 _].
        rewrite H1, H2 by lia.
        simpl. now rewrite <- efficient_fibonacci_step.
      * destruct (IH (n - 1)) as [_ H1]. rewrite H1 by lia. reflexivity.
Qed.

Lemma fibonacci_agree_witness :
  BadCode.inefficient_fibonacci 9 10 = Ok 55
  /\ BadCode.inefficient_fibonacci 8 10 = Raise recursion_error.
Proof.
  split.
  - exact (proj1 (fibonacci_agree 9 10) ltac:(simpl; lia)).
  - exact (proj2 (fibonacci_agree 8 10) ltac:(simpl; lia)).
Defined.

Section IntDictFacts.
Context {V : Type}.
Implicit Types (d : int_dict V) (k : Z) (v : V).

Lemma int_get_set_same k v d : int_get k (int_set k v d) = Some v.
Proof.
  induction d as [| [k' v'] d IH]; simpl.
  - now rewrite Z.eqb_refl.
  - destruct (Z.eqb_spec k k') as [-> | Hne]; simpl.
    + now rewrite Z.eqb_refl.
    + apply Z.eqb_neq in Hne. now rewrite Hne.
Qed.

Lemma int_get_set_other k k' v d :
  k <> k' -> int_get k (int_set k' v d) = int_get k d.
Proof.
  intros Hne.
  induction d as [| [k0 v0] d IH]; simpl.
  - apply Z.eqb_neq in Hne. now rewrite Hne.
  - destruct (Z.eqb_spec k' k0) as [-> | Hne0]; simpl.
    + apply Z.eqb_neq in Hne. now rewrite Hne.
    + now rewrite IH.
Qed.

End IntDictFacts.

Lemma sound_cache_set (cache : int_dict Z) (n : Z) :
  sound_cache cache ->
  sound_cache (int_set n (GoodCode.efficient_fibonacci n) cache).
Proof.
  intros Hs k v. destruct (Z.eq_dec k n) as [-> | Hne].
  - rewrite int_get_set_same. now intros [= <-].
  - rewrite int_get_set_other by assumption. apply Hs.
Qed.

(** X25: memoisation.  On a cache that holds Fibonacci numbers only (the
    empty one of a call without cache among them) and with [n - 1] nested
    calls allowed, [fibonacci_memoized n] returns the value of
    [efficient_fibonacci n] and leaves a cache that still holds Fibonacci
    numbers only, keeps every earlier entry and has gained the entry for
    [n].  A value found in the cache under [n] is returned as it is, right
    or wrong, without any nested call. *)
Theorem fibonacci_memoized_sound (depth : nat) :
  forall n cache,
    (forall known,
        int_get n cache = Some known ->
        GoodCode.fibonacci_memoized depth n (Some cache) = (Ok known, cache))
    /\ (sound_cache cache ->
        n - 1 <= Z.of_nat depth ->
        exists cache',
          GoodCode.fibonacci_memoized depth n (Some cache)
          = (Ok (GoodCode.efficient_fibonacci n), cache')
          /\ sound_cache cache'
          /\ (forall k v, int_get k cache = Some v -> int_get k cache' = Some v)
          /\ int_get n cache' = Some (GoodCode.efficient_fibonacci n)).
Proof.
  assert (Hhit : forall d n cache known,
             int_get n cache = Some known ->
             GoodCode.fibonacci_memoized d n (Some cache) = (Ok known, cache)).
  { intros d n cache known H. destruct d; simpl; now rewrite H. }
  induction depth as [| depth IH]; intros n cache;
    (split; [apply Hhit |]); intros Hs Hd.
  - destruct (int_get n cache) as [known |] eqn:Hget.
    + exists cache. rewrite (Hhit 0%nat n cache known Hget), (Hs n known Hget).
      repeat split; auto. now rewrite Hget, (Hs n known Hget).
    + exists (int_set n (GoodCode.efficient_fibonacci n) cache).
      simpl. rewrite Hget.
      destruct (Z.leb_spec n 1); [| lia].
      rewrite efficient_fibonacci_small by assumption.
      repeat split.
      * rewrite <- (efficient_fibonacci_small n) at 2 by assumption.
        now apply sound_cache_set.
      * intros k v Hk. rewrite int_get_set_other; [exact Hk | congruence].
      * apply int_get_set_same.
  - destruct (int_get n cache) as [known |] eqn:Hget.
    + exists cache. rewrite (Hhit _ n cache known Hget), (Hs n known Hget).
      repeat split; auto. now rewrite Hget, (Hs n known Hget).
    + cbn [GoodCode.fibonacci_memoized]. rewrite Hget.
      destruct (Z.leb_spec n 1).
      * exists (int_set n (GoodCode.efficient_fibonacci n) cache).
        rewrite efficient_fibonacci_small by assumption.
        repeat split.
        -- rewrite <- (efficient_fibonacci_small n) at 2 by assumption.
           now apply sound_cache_set.
        -- intros k v Hk. rewrite int_get_set_other; [exact Hk | congruence].
        -- apply int_get_set_same.
      * destruct (IH (n - 1) cache) as [_ H1].
        destruct (H1 Hs ltac:(lia)) as [c1 [E1 [S1 [K1 _]]]].
        rewrite E1.
        destruct (IH (n - 2) c1) as [_ H2].
        destruct (H2 S1 ltac:(lia)) as [c2 [E2 [S2 [K2 _]]]].
        rewrite E2.
        rewrite <- efficient_fibonacci_step by assumption.
        exists (int_set n (GoodCode.efficient_fibonacci n) c2).
        repeat split.
        -- now apply sound_cache_set.
        -- intros k v Hk. rewrite int_get_set_other; [auto | congruence].
        -- apply int_get_set_same.
Qed.

Lemma fibonacci_memoized_sound_witness :
  fst (GoodCode.fibonacci_memoized 9 10 None) = Ok 55
  /\ GoodCode.fibonacci_memoized 0 10 (Some [(10, 7)]) = (Ok 7, [(10, 7)]).
Proof.
  split.
  - destruct (fibonacci_memoized_sound 9 10 []) as [_ H].
    destruct H as [cache' [E _]].
    + intros k v [=].
    + simpl. lia.
    + exact (f_equal fst E).
  - destruct (fibonacci_memoized_sound 0 10 [(10, 7)]) as [H _].
    exact (H 7 eq_refl).
Defined.

(** ** The example programs: user managers *)

Section SecureUserManagerFacts.
Variable sha256_hex : string -> string.

Lemma consistent_new_manager : consistent GoodCode.new_manager.
Proof.
  unfold consistent. simpl. repeat split; try lia; discriminate.
Qed.

(** X26: adding a user under a new name.  On a consistent manager
    [add_user] returns a user with the id [_next_id] and leaves a consistent
    manager in which that user authenticates with the password given and is
    found by [get_user_by_id], while authentication under every other name
    is as before. *)
Theorem secure_add_user (m : GoodCode.SecureUserManager)
  (token name pass : string) :
  consistent m ->
  dict_get name (GoodCode._username_to_id m) = None ->
  exists user m',
    GoodCode.add_user sha256_hex m token name pass = Ok (user, m')
    /\ consistent m'
    /\ GoodCode.id user = GoodCode._next_id m
    /\ GoodCode.username user = name
    /\ GoodCode.authenticate sha256_hex m' name pass = Ok (Some user)
    /\ GoodCode.get_user_by_id m' (GoodCode.id user) = Some user
    /\ forall name' pass',
         name' <> name ->
         GoodCode.authenticate sha256_hex m' name' pass'
         = GoodCode.authenticate sha256_hex m name' pass'.
Proof.
  intros [Hnext [Hnames Hids]] Hnew.
  unfold GoodCode.add_user. rewrite Hnew.
  eexists. eexists. split; [reflexivity |].
  set (next := GoodCode._next_id m) in *.
  set (user := GoodCode.mk_user next name
                 (GoodCode._hash_password sha256_hex pass token) token).
  assert (Hold : forall i u, int_get i (GoodCode._users m) = Some u -> i <> next).
  { intros i u Hi. destruct (Hids i u Hi) as [Hr _]. fold next in Hr. lia. }
  split; [| split; [reflexivity | split; [reflexivity | split; [| split]]]].
  - (* consistency *)
    unfold consistent. simpl. fold next. split; [lia |]. split.
    + intros name0 i Hi.
      destruct (String.eqb_spec name0 name) as [-> | Hne].
      * rewrite dict_get_set_same in Hi. injection Hi as <-.
        exists user. rewrite int_get_set_same. repeat split.
      * rewrite dict_get_set_other in Hi by assumption.
        destruct (Hnames name0 i Hi) as [u [Hu [Hn Hid]]].
        exists u. rewrite int_get_set_other; [auto | exact (Hold i u Hu)].
    + intros i u Hi. destruct (Z.eq_dec i next) as [-> | Hne].
      * rewrite int_get_set_same in Hi. injection Hi as <-. simpl.
        rewrite dict_get_set_same. split; [lia | reflexivity].
      * rewrite int_get_set_other in Hi by assumption.
        destruct (Hids i u Hi) as [Hr Hn]. fold next in Hr.
        split; [lia |].
        rewrite dict_get_set_other; [exact Hn |].
        intros E. rewrite E in Hn. congruence.
  - (* the new user authenticates *)
    unfold GoodCode.authenticate. simpl. fold next.
    rewrite dict_get_set_same, int_get_set_same.
    unfold GoodCode._verify_password. simpl. rewrite String.eqb_refl.
    destruct next; try lia; reflexivity.
  - unfold GoodCode.get_user_by_id. simpl. apply int_get_set_same.
  - (* the other names *)
    intros name' pass' Hne. unfold GoodCode.authenticate. simpl. fold next.
    rewrite dict_get_set_other by assumption.
    destruct (dict_get name' (GoodCode._username_to_id m)) as [i |] eqn:Hi;
      [| reflexivity].
    destruct (Hnames name' i Hi) as [u [Hu _]].
    rewrite int_get_set_other by exact (Hold i u Hu).
    reflexivity.
Qed.

(** X27: a name is accepted once.  [add_user] raises the ValueError
    "Username '...' already exists" for a name that is already known, so
    that after a successful [add_user] a second one under the same name
    fails, whatever the password. *)
Theorem secure_add_user_twice (m : GoodCode.SecureUserManager)
  (token name pass : string) :
  (dict_get name (GoodCode._username_to_id m) <> None ->
   GoodCode.add_user sha256_hex m token name pass
   = Raise (mk_exn ValueError ("Username '" ++ name ++ "' already exists")))
  /\ forall user m' token' pass',
       GoodCode.add_user sha256_hex m token name pass = Ok (user, m') ->
       GoodCode.add_user sha256_hex m' token' name pass'
       = Raise (mk_exn ValueError ("Username '" ++ name ++ "' already exists")).
Proof.
  unfold GoodCode.add_user. split.
  - destruct (dict_get name (GoodCode._username_to_id m)); [reflexivity | congruence].
  - intros user m' token' pass'.
    destruct (dict_get name (GoodCode._username_to_id m)); [discriminate |].
    intros [= _ <-]. simpl. now rewrite dict_get_set_same.
Qed.

(** X28: on a consistent manager, in particular on a new one,
    [authenticate] never raises; it returns a user only if that user has
    the name asked for, is the one stored under its id, and the hash of the
    password with the user's salt is the stored hash; for an unknown name
    it returns [None]. *)
Theorem secure_authenticate (m : GoodCode.SecureUserManager) (name pass : string) :
  consistent GoodCode.new_manager
  /\ (consistent m ->
      exists r,
        GoodCode.authenticate sha256_hex m name pass = Ok r
        /\ (dict_get name (GoodCode._username_to_id m) = None -> r = None)
        /\ forall user,
             r = Some user ->
             GoodCode.username user = name
             /\ GoodCode._hash_password sha256_hex pass (GoodCode.salt user)
                = GoodCode.password_hash user
             /\ GoodCode.get_user_by_id m (GoodCode.id user) = Some user).
Proof.
  split; [apply consistent_new_manager |].
  intros [Hnext [Hnames Hids]]. unfold GoodCode.authenticate.
  destruct (dict_get name (GoodCode._username_to_id m)) as [i |] eqn:Hi.
  - destruct (Hnames name i Hi) as [u [Hu [Hn Hid]]].
    assert (Hshape : exists r,
               match int_get i (GoodCode._users m) with
               | Some user =>
                   if GoodCode._verify_password sha256_hex pass
                        (GoodCode.password_hash user) (GoodCode.salt user)
                   then Ok (Some user) else Ok None
               | None => Raise (mk_exn OtherException (string_of_Z i))
               end = Ok r
               /\ forall user,
                    r = Some user ->
                    GoodCode.username user = name
                    /\ GoodCode._hash_password sha256_hex pass (GoodCode.salt user)
                       = GoodCode.password_hash user
                    /\ GoodCode.get_user_by_id m (GoodCode.id user) = Some user).
    { rewrite Hu. unfold GoodCode._verify_password.
      destruct (String.eqb_spec
                  (GoodCode._hash_password sha256_hex pass (GoodCode.salt u))
                  (GoodCode.password_hash u)) as [E | E].
      - exists (Some u). split; [reflexivity |].
        intros user [= <-]. unfold GoodCode.get_user_by_id.
        rewrite Hid. auto.
      - exists None. split; [reflexivity |]. discriminate. }
    destruct i as [| p | p].
    + exists None. repeat split; discriminate.
    + destruct Hshape as [r [Hr Hprop]]. exists r.
      split; [exact Hr |]. split; [discriminate | exact Hprop].
    + destruct Hshape as [r [Hr Hprop]]. exists r.
      split; [exact Hr |]. split; [discriminate | exact Hprop].
  - exists None. repeat split; discriminate.
Qed.

End SecureUserManagerFacts.

Lemma secure_add_user_witness :
  exists user m',
    GoodCode.add_user (fun text => "h(" ++ text ++ ")") GoodCode.new_manager
      "a1b2" "ada" "secret" = Ok (user, m')
    /\ GoodCode.authenticate (fun text => "h(" ++ text ++ ")") m' "ada" "secret"
       = Ok (Some user).
Proof.
  destruct (secure_add_user (fun text => "h(" ++ text ++ ")") GoodCode.new_manager
              "a1b2" "ada" "secret" consistent_new_manager eq_refl)
    as [user [m' [Hadd [_ [_ [_ [Hauth _]]]]]]].
  exists user, m'. split; assumption.
Defined.

Lemma secure_add_user_twice_witness :
  GoodCode.add_user (fun text => "h(" ++ text ++ ")")
    (GoodCode.mk_manager
       [(1, GoodCode.mk_user 1 "ada" "h(secreta1b2)" "a1b2")] [("ada", 1)] 2)
    "c3d4" "ada" "other"
  = Raise (mk_exn ValueError "Username 'ada' already exists").
Proof.
  destruct (secure_add_user_twice (fun text => "h(" ++ text ++ ")")
              GoodCode.new_manager "a1b2" "ada" "secret") as [_ H].
  exact (H _ _ "c3d4" "other" eq_refl).
Defined.

Lemma secure_authenticate_witness :
  exists r,
    GoodCode.authenticate (fun text => "h(" ++ text ++ ")") GoodCode.new_manager
      "ada" "secret" = Ok r
    /\ r = None.
Proof.
  destruct (secure_authenticate (fun text => "h(" ++ text ++ ")")
              GoodCode.new_manager "ada" "secret") as [Hnew H].
  destruct (H Hnew) as [r [Hr [Hnone _]]].
  exists r. split; [exact Hr | exact (Hnone eq_refl)].
Defined.

Lemma get_user_loop_app (l l' : list BadCode.User) (j : Z) :
  BadCode.get_user_loop (l ++ l') j
  = match BadCode.get_user_loop l j with
    | Some user => Some user
    | None => BadCode.get_user_loop l' j
    end.
Proof.
  induction l as [| u l IH]; simpl; [reflexivity |].
  destruct (Z.eqb (BadCode.id u) j); [reflexivity | exact IH].
Qed.

Lemma authenticate_loop_app (l l' : list BadCode.User) (name pass : string) :
  BadCode.authenticate_loop (l ++ l') name pass
  = match BadCode.authenticate_loop l name pass with
    | Some user => Some user
    | None => BadCode.authenticate_loop l' name pass
    end.
Proof.
  induction l as [| u l IH]; simpl; [reflexivity |].
  destruct (_ && _); [reflexivity | exact IH].
Qed.

Lemma authenticate_loop_sound (l : list BadCode.User) (name pass : string) user :
  BadCode.authenticate_loop l name pass = Some user ->
  BadCode.username user = name /\ BadCode.password user = pass.
Proof.
  induction l as [| u l IH]; simpl; [discriminate |].
  destruct (String.eqb_spec (BadCode.username u) name) as [En | En]; simpl;
    [| exact IH].
  destruct (String.eqb_spec (BadCode.password u) pass) as [Ep | Ep];
    [| exact IH].
  intros [= <-]. auto.
Qed.

Lemma get_user_loop_none (l : list BadCode.User) (j : Z) :
  (forall u, In u l -> BadCode.id u <> j) -> BadCode.get_user_loop l j = None.
Proof.
  induction l as [| u l IH]; simpl; intros H; [reflexivity |].
  destruct (Z.eqb_spec (BadCode.id u) j) as [E | E].
  - exfalso. apply (H u); auto.
  - apply IH. intros u' Hu'. apply H. auto.
Qed.

(** X29: the plain user manager numbers its users 1, 2, 3, ... in the order
    of their arrival.  From a manager built that way, [add_user] always
    succeeds, also for a name already in use: it gives the new user the next
    number, keeps the numbering, and leaves a manager in which the new user
    is found under its id, every user found before is still found, and
    [authenticate] with the name and password just given finds a user with
    that name and that password, stored in clear. *)
Theorem plain_add_user (m : BadCode.UserManager) (name pass : string) :
  sequential BadCode.new_manager
  /\ (sequential m ->
      let user := fst (BadCode.add_user m name pass) in
      let m' := snd (BadCode.add_user m name pass) in
      sequential m'
      /\ BadCode.id user = Z.of_nat (List.length (BadCode.users m)) + 1
      /\ BadCode.get_user_by_id m' (BadCode.id user) = Some user
      /\ (forall j found,
             BadCode.get_user_by_id m j = Some found ->
             BadCode.get_user_by_id m' j = Some found)
      /\ exists found,
           BadCode.authenticate m' name pass = Some found
           /\ BadCode.username found = name
           /\ BadCode.password found = pass).
Proof.
  split.
  { intros [| i] user; discriminate. }
  intros Hseq. cbv zeta. simpl fst. simpl snd.
  set (user := BadCode.mk_user name pass
                 (Z.of_nat (List.length (BadCode.users m)) + 1)).
  split; [| split; [reflexivity | split; [| split]]].
  - intros i u Hi. simpl in Hi.
    destruct (Nat.lt_ge_cases i (List.length (BadCode.users m))) as [Hlt | Hge].
    + rewrite nth_error_app1 in Hi by assumption. now apply Hseq.
    + rewrite nth_error_app2 in Hi by assumption.
      destruct (i - List.length (BadCode.users m))%nat as [| k] eqn:Ek.
      * injection Hi as <-. simpl. lia.
      * destruct k; discriminate.
  - unfold BadCode.get_user_by_id. simpl. rewrite get_user_loop_app.
    rewrite get_user_loop_none.
    + simpl. now rewrite Z.eqb_refl.
    + intros u Hu. apply In_nth_error in Hu. destruct Hu as [i Hi].
      pose proof (nth_error_Some (BadCode.users m) i) as Hb.
      rewrite (Hseq i u Hi). rewrite Hi in Hb.
      assert (i < List.length (BadCode.users m))%nat by (apply Hb; discriminate).
      lia.
  - intros j found Hj. unfold BadCode.get_user_by_id in *. simpl.
    rewrite get_user_loop_app. now rewrite Hj.
  - unfold BadCode.authenticate. simpl. rewrite authenticate_loop_app.
    destruct (BadCode.authenticate_loop (BadCode.users m) name pass)
      as [found |] eqn:Hf.
    + exists found. split; [reflexivity |].
      exact (authenticate_loop_sound _ _ _ _ Hf).
    + exists user. simpl. rewrite !String.eqb_refl. auto.
Qed.

Lemma plain_add_user_witness :
  BadCode.id (fst (BadCode.add_user
                     (snd (BadCode.add_user BadCode.new_manager "ada" "secret"))
                     "ada" "other")) = 2.
Proof.
  destruct (plain_add_user BadCode.new_manager "ada" "secret") as [Hnew H].
  destruct (H Hnew) as [Hseq _].
  destruct (plain_add_user
              (snd (BadCode.add_user BadCode.new_manager "ada" "secret"))
              "ada" "other") as [_ H2].
  destruct (H2 Hseq) as [_ [Hid _]].
  exact Hid.
Defined.
